(** * house_notificator: the change-detection run of [main.py]

    A shallow embedding of [main.py] and the properties of one monitoring
    run: which listings are notified and in which order, what is written to
    the state file [known_listings.json], and what happens on failures.

    Conventions of the embedding.
    - A Python [str] is a Rocq [string] holding its UTF-8 bytes (a [str]
      with a lone surrogate has none and is left out); its characters are
      the UTF-8 sequences, and the character classes ([\d], the whitespace
      and digits of [int]) are those of Unicode.
    - A Python [int] is a [Z]; its decimal text is not limited in length.
    - A Python [dict] is an association list in insertion order, updated the
      way Python updates a dict (an existing key keeps its position).
    - Effects (the state file, prints, HTTP requests, sleeps, exceptions)
      are threaded through a small state-and-exception monad; the replies of
      the outside world (HTTP responses) come from an oracle.
    - The libraries are taken at their interface: the state file is what
      [json.load] makes of it (a JSON value, or a text it rejects), and
      [json.dump] followed by [json.load] gives the value back; a fetched
      page is what BeautifulSoup makes of it (its [<a>] elements); an HTTP
      reply is an exception of [requests] or a status code. Opening and
      writing the state file do not fail. *)

From Stdlib Require Import Ascii String Decimal DecimalString DecimalPos DecimalZ.
From Stdlib Require Import PrimFloat.
From stdpp Require Import base decidable option list numbers strings sorting gmap.

Local Open Scope string_scope.
Local Open Scope Z_scope.
Local Open Scope list_scope.

(** ** Python values *)

Module Py.

(** *** Strings *)

(** [s.startswith(p)] *)
Fixpoint startswith (p s : string) : bool :=
  match p, s with
  | EmptyString, _ => true
  | String a p', String b s' => if Ascii.eqb a b then startswith p' s' else false
  | String _ _, EmptyString => false
  end.

(** What remains of [s] after the prefix [p], if [s] starts with [p]. *)
Fixpoint strip_prefix (p s : string) : option string :=
  match p, s with
  | EmptyString, _ => Some s
  | String a p', String b s' => if Ascii.eqb a b then strip_prefix p' s' else None
  | String _ _, EmptyString => None
  end.

(** [s.split(sep)[0]] for a one-character separator: the part of [s] before
    the first [sep] (all of [s] when there is none). *)
Fixpoint split_head (sep : ascii) (s : string) : string :=
  match s with
  | EmptyString => EmptyString
  | String c s' => if Ascii.eqb c sep then EmptyString else String c (split_head sep s')
  end.

(** *** Characters

    A [str] is a sequence of Unicode characters; a character is the UTF-8
    sequence that encodes it. *)

(** The length of the UTF-8 sequence that starts with the byte [c]. *)
Definition utf8_len (c : ascii) : nat :=
  let n := nat_of_ascii c in
  if (n <? 192)%nat then 1%nat
  else if (n <? 224)%nat then 2%nat
  else if (n <? 240)%nat then 3%nat
  else 4%nat.

Fixpoint take_bytes (n : nat) (s : string) : string * string :=
  match n, s with
  | S n', String c s' => let '(a, b) := take_bytes n' s' in (String c a, b)
  | _, _ => (EmptyString, s)
  end.

Fixpoint chars_fuel (fuel : nat) (s : string) : list string :=
  match fuel, s with
  | S fuel', String c s' =>
      let '(a, b) := take_bytes (utf8_len c - 1) s' in
      String c a :: chars_fuel fuel' b
  | _, _ => []
  end.

(** The characters of a string, one UTF-8 sequence each: what iterating over
    a [str] yields. *)
Definition chars (s : string) : list string := chars_fuel (String.length s) s.

(** The value of a continuation byte of a UTF-8 sequence. *)
Definition continuation (c : ascii) : option N :=
  let n := N_of_ascii c in
  if ((128 <=? n) && (n <? 192))%N then Some (n - 128)%N else None.

(** The code point of a character; [None] for bytes that are not the UTF-8
    sequence of one character. *)
Definition code_point (ch : string) : option N :=
  match ch with
  | String a EmptyString =>
      let n := N_of_ascii a in
      if (n <? 128)%N then Some n else None
  | String a (String b EmptyString) =>
      let n := N_of_ascii a in
      if ((194 <=? n) && (n <? 224))%N then
        x ← continuation b;
        Some ((n - 192) * 64 + x)%N
      else None
  | String a (String b (String c EmptyString)) =>
      let n := N_of_ascii a in
      if ((224 <=? n) && (n <? 240))%N then
        x ← continuation b;
        y ← continuation c;
        let cp := (((n - 224) * 64 + x) * 64 + y)%N in
        if (2048 <=? cp)%N then Some cp else None
      else None
  | String a (String b (String c (String d EmptyString))) =>
      let n := N_of_ascii a in
      if ((240 <=? n) && (n <? 245))%N then
        x ← continuation b;
        y ← continuation c;
        z ← continuation d;
        let cp := ((((n - 240) * 64 + x) * 64 + y) * 64 + z)%N in
        if ((65536 <=? cp) && (cp <? 1114112))%N then Some cp else None
      else None
  | _ => None
  end.

(** The decimal digits of Unicode (category Nd, Unicode 14.0 as in CPython
    3.11): each script has its ten digits in a row, from zero to nine; the
    list gives the code point of each zero. *)
Definition decimal_zeros : list N :=
  [0x30; 0x660; 0x6f0; 0x7c0; 0x966; 0x9e6; 0xa66; 0xae6; 0xb66; 0xbe6; 0xc66;
   0xce6; 0xd66; 0xde6; 0xe50; 0xed0; 0xf20; 0x1040; 0x1090; 0x17e0; 0x1810;
   0x1946; 0x19d0; 0x1a80; 0x1a90; 0x1b50; 0x1bb0; 0x1c40; 0x1c50; 0xa620;
   0xa8d0; 0xa900; 0xa9d0; 0xa9f0; 0xaa50; 0xabf0; 0xff10; 0x104a0; 0x10d30;
   0x11066; 0x110f0; 0x11136; 0x111d0; 0x112f0; 0x11450; 0x114d0; 0x11650;
   0x116c0; 0x11730; 0x118e0; 0x11950; 0x11c50; 0x11d50; 0x11da0; 0x16a60;
   0x16ac0; 0x16b50; 0x1d7ce; 0x1d7d8; 0x1d7e2; 0x1d7ec; 0x1d7f6; 0x1e140;
   0x1e2f0; 0x1e950; 0x1fbf0]%N.

(** The value of the decimal digit with code point [cp]. *)
Definition decimal (cp : N) : option N :=
  (fun zero => (cp - zero)%N)
    <$> List.find (fun zero => ((zero <=? cp) && (cp <? zero + 10))%N) decimal_zeros.

(** A decimal digit: what [\d] matches in a [str] pattern. *)
Definition is_decimal (ch : string) : bool :=
  match code_point ch ≫= decimal with
  | Some _ => true
  | None => false
  end.

(** The whitespace of Unicode outside ASCII: NEL, the no-break space, the
    Ogham space mark, the spaces U+2000 to U+200A, the line and paragraph
    separators, the narrow no-break space, the medium mathematical space and
    the ideographic space. *)
Definition is_unicode_space (cp : N) : bool :=
  existsb (N.eqb cp) [0x85; 0xa0; 0x1680; 0x2028; 0x2029; 0x202f; 0x205f; 0x3000]%N
  || ((0x2000 <=? cp) && (cp <=? 0x200a))%N.

(** *** Integers and their decimal text

    The conversions are taken without the limit that CPython 3.11 puts on
    the length of the decimal text of an [int] (4300 digits unless the
    interpreter is told otherwise, [sys.set_int_max_str_digits]); beyond it
    [int] and [str] raise [ValueError]. *)

(** [sys.int_info.default_max_str_digits] *)
Definition max_str_digits : nat := 4300.

Definition is_digit (c : ascii) : bool :=
  let n := nat_of_ascii c in (48 <=? n)%nat && (n <=? 57)%nat.

(** The ASCII whitespace that [int] skips around a number: TAB, LF, VT, FF,
    CR and the space. *)
Definition is_space (c : ascii) : bool :=
  let n := nat_of_ascii c in
  ((9 <=? n)%nat && (n <=? 13)%nat) || (n =? 32)%nat.

Fixpoint lstrip (s : string) : string :=
  match s with
  | String c s' => if is_space c then lstrip s' else s
  | EmptyString => EmptyString
  end.

Fixpoint rstrip (s : string) : string :=
  match s with
  | EmptyString => EmptyString
  | String c s' =>
      match rstrip s' with
      | EmptyString => if is_space c then EmptyString else String c EmptyString
      | r => String c r
      end
  end.

Definition strip (s : string) : string := rstrip (lstrip s).

(** [str(n)] for an [int]. *)
Definition str (n : Z) : string := NilZero.string_of_int (Z.to_int n).

(** What [int] makes of a character before it reads the number: an ASCII
    character is kept, a Unicode space becomes a space, a Unicode decimal
    digit the ASCII digit of its value; no other character is accepted. *)
Definition ascii_of_char (ch : string) : option ascii :=
  cp ← code_point ch;
  if (cp <? 127)%N then Some (ascii_of_N cp)
  else if is_unicode_space cp then Some " "%char
  else d ← decimal cp; Some (ascii_of_N (48 + d)).

Fixpoint ascii_of_chars (cs : list string) : option string :=
  match cs with
  | [] => Some EmptyString
  | ch :: cs' => c ← ascii_of_char ch; String c <$> ascii_of_chars cs'
  end.

(** The digits of an integer literal with its underscores removed; the
    literal is one or more digits, a single underscore allowed between two
    digits. [prev] tells whether the previous character was a digit. *)
Fixpoint digit_groups (prev : bool) (s : string) : option string :=
  match s with
  | EmptyString => if prev then Some EmptyString else None
  | String c s' =>
      if Ascii.eqb c "_"%char then
        if prev then digit_groups false s' else None
      else if is_digit c then String c <$> digit_groups true s'
      else None
  end.

(** The number that an ASCII text denotes in base 10: surrounding
    whitespace, an optional sign, decimal digits. *)
Definition int_of_ascii (s : string) : option Z :=
  let t := strip s in
  let '(negative, body) :=
    match t with
    | String "+"%char r => (false, r)
    | String "-"%char r => (true, r)
    | _ => (false, t)
    end in
  ds ← digit_groups false body;
  d ← NilEmpty.uint_of_string ds;
  Some (if negative : bool then - Z.of_uint d else Z.of_uint d).

(** [int(s)] for a [str]. [None] is Python's [ValueError]. *)
Definition int (s : string) : option Z :=
  ascii_of_chars (chars s) ≫= int_of_ascii.

End Py.

(** *** JSON data: what [json.load] returns and [json.dump] accepts

    The members of [JObj] are the items of a Python dict, in order;
    [json.load] keeps one item per key. *)

#[warnings="-register-all"] Inductive json :=
  | JNull
  | JBool (b : bool)
  | JInt (n : Z)
  | JFloat (x : float)
  | JStr (s : string)
  | JArr (items : list json)
  | JObj (members : list (string * json)).

(** *** Dictionaries, in insertion order *)

Abbreviation dict K V := (list (K * V)) (only parsing).

Section Dict.
Context {K V : Type} `{EqDecision K}.

(** [d.get(k)], [None] when the key is missing. *)
Fixpoint dict_get (k : K) (d : dict K V) : option V :=
  match d with
  | [] => None
  | (k', v) :: d' => if decide (k = k') then Some v else dict_get k d'
  end.

(** [k in d] *)
Definition dict_in (k : K) (d : dict K V) : bool :=
  match dict_get k d with Some _ => true | None => false end.

(** [d[k] = v]: an existing key keeps its place, a new one goes last. *)
Fixpoint dict_set (k : K) (v : V) (d : dict K V) : dict K V :=
  match d with
  | [] => [(k, v)]
  | (k', v') :: d' =>
      if decide (k = k') then (k, v) :: d' else (k', v') :: dict_set k v d'
  end.

(** [d.keys()], in iteration order. *)
Definition dict_keys (d : dict K V) : list K := d.*1.

(** [d.update(other)] *)
Definition dict_update (d other : dict K V) : dict K V :=
  foldl (fun acc kv => dict_set kv.1 kv.2 acc) d other.
End Dict.

(** ** The listings of [main.py] *)

(** A listing as [get_all_listings] builds it: the pair [(title, url)]. *)
Definition listing : Type := string * string.

(** A value of the known set: the tuple [tuple(v)] made of a JSON value. *)
Definition tuple : Type := list json.

(** The pair [(title, url)] as a tuple of two [str]. *)
Definition tuple_of_listing (l : listing) : tuple := [JStr l.1; JStr l.2].

(** A dict of pairs seen as a dict of tuples (same keys, same order). *)
Definition as_tuples (d : dict Z listing) : dict Z tuple :=
  prod_map id tuple_of_listing <$> d.

(** ** Exceptions *)

Inductive request_error :=
  | ConnectionError
  | Timeout
  | TooManyRedirects
  | InvalidURL.

Inductive exn :=
  | JSONDecodeError                      (* json.load: the text is not JSON *)
  | ValueError                           (* int(k) on a non-integer text *)
  | KeyError
  | TypeError                            (* tuple(v) on a value that is not iterable *)
  | AttributeError                       (* data.items() on a value that is not a dict *)
  | RecursionError                       (* json.load on a document nested too deeply *)
  | FileNotFoundError
  | RequestError (e : request_error)     (* requests.get / requests.post failed *)
  | HTTPError (status : Z)               (* response.raise_for_status() *)
  | ParserRejectedMarkup                 (* BeautifulSoup could not parse the page *)
  | SystemExit (code : Z).               (* sys.exit(code) *)

(** [except (json.JSONDecodeError, ValueError, KeyError)]: the classes named
    and their subclasses ([JSONDecodeError] is one of [ValueError]). *)
Definition caught_by_load (e : exn) : bool :=
  match e with
  | JSONDecodeError | ValueError | KeyError => true
  | _ => false
  end.

(** [except Exception]: everything but [SystemExit], which derives from
    [BaseException] only. *)
Definition is_Exception (e : exn) : bool :=
  match e with
  | SystemExit _ => false
  | _ => true
  end.

(** ** The outside world *)

(** An [<a>] element of the fetched page: its [href] attribute, if it has
    one, and its text as [get_text(strip=True)] returns it. *)
Record anchor := Anchor { a_href : option string; a_text : string }.

(** The response text as [BeautifulSoup(response.text, "html.parser")] sees
    it: rejected, or a document with its [<a>] elements in document order. *)
Inductive page :=
  | Rejected
  | Soup (anchors : list anchor).

(** What an HTTP request comes back with: an exception of [requests], or a
    response with its status code and body. *)
Inductive reply (B : Type) :=
  | Failed (e : request_error)
  | Response (status : Z) (body : B).
Arguments Failed {B} e.
Arguments Response {B} status body.

(** The oracle of one run: the reply to the GET of a URL, and the reply to
    the [n]-th POST of the run (counted from 0). *)
Record network := Network {
  net_get : string -> reply page;
  net_post : nat -> reply unit;
}.

(** The state file [known_listings.json], seen through [json.load]: a text
    that is not a JSON document (among them the empty file and any file cut
    short), a JSON document nested more deeply than the interpreter can
    follow, or the text of a JSON document that [json.load] returns. The
    file, when there is one, is a regular file that the process may read
    and write. *)
Inductive file_content :=
  | NotJson
  | TooDeep
  | Json (j : json).

(** The lines printed on standard output, one constructor per [print] of the
    source, with the values interpolated in it. *)
Inductive line :=
  | EnvError (error_msg : string)        (* ERROR: {error_msg} *)
  | EnvHint                              (* Please set this as a GitHub Secret or in your .env file. *)
  | LoadError (e : exn)                  (* Error loading known listings: {e}. Starting fresh. *)
  | NotConfigured                        (* Telegram bot not configured. ... *)
  | WouldSend (text : string)            (* [Telegram message would be: {text}] *)
  | SentOk                               (* Telegram message sent successfully *)
  | SendError (e : exn)                  (* Error sending Telegram message: {e} *)
  | FirstRun                             (* First run: Saving all current listings as baseline... *)
  | SavedBaseline (n : nat)              (* Saved {n} listing IDs. Exiting - ... *)
  | LoadedKnown (n : nat)                (* Loaded {n} known listing IDs from previous run. *)
  | FoundOnPage (n : nat)                (* Found {n} listings on the page. *)
  | FoundNew (n : nat)                   (* Found {n} new listing(s)! *)
  | NewListing (listing_id : Z) (url : string)  (* New listing found: ID {listing_id} - ({url}) *)
  | UpdatedKnown (n : nat)               (* Updated known listings. Total: {n} *)
  | NoNew                                (* No new listings found. *)
  | CheckError (e : exn).                (* Error checking listings: {e} *)

(** What a run does that can be seen from outside, in the order it does it. *)
Inductive event :=
  | Print (l : line)                                   (* print(...) *)
  | PrintExc (e : exn)                                 (* traceback.print_exc() *)
  | HttpGet (url : string) (headers : list (string * string))
  | HttpPost (url : string) (payload : list (string * string)) (timeout : Z)
  | Sleep (milliseconds : Z)                           (* time.sleep(...) *)
  | FileTruncate                                       (* open(KNOWN_LISTINGS_FILE, "w") *)
  | FileDump (j : json).                               (* json.dump(data, f, ...) and close *)

(** The state threaded through a run: the state file ([None]: no such file),
    the events so far (oldest first) and the number of POSTs made. *)
Record state := State {
  st_file : option file_content;
  st_trace : list event;
  st_posts : nat;
}.

(** ** The monad of statements *)

Inductive result (A : Type) :=
  | Ok (a : A)
  | Raise (e : exn).
Arguments Ok {A} a.
Arguments Raise {A} e.

Definition M (A : Type) : Type := state -> result A * state.

Definition ret {A} (a : A) : M A := fun st => (Ok a, st).

Definition raise {A} (e : exn) : M A := fun st => (Raise e, st).

Definition bind {A B} (m : M A) (k : A -> M B) : M B :=
  fun st =>
    match m st with
    | (Ok a, st') => k a st'
    | (Raise e, st') => (Raise e, st')
    end.

(** [try: body  except <classes> as e: handler]: the handler runs on the
    exceptions that [catches] selects, the others go on. *)
Definition try_except {A} (body : M A) (catches : exn -> bool) (handler : exn -> M A) : M A :=
  fun st =>
    match body st with
    | (Ok a, st') => (Ok a, st')
    | (Raise e, st') => if catches e then handler e st' else (Raise e, st')
    end.

Declare Scope py_scope.
Delimit Scope py_scope with py.
Notation "x <- m ;; k" := (bind m (fun x => k))
  (at level 100, m at next level, k at level 200, right associativity) : py_scope.
Notation "m ;; k" := (bind m (fun _ => k))
  (at level 100, k at level 200, right associativity) : py_scope.
Local Open Scope py_scope.

(** [for x in xs: body x] *)
Fixpoint for_each {A} (xs : list A) (body : A -> M unit) : M unit :=
  match xs with
  | [] => ret tt
  | x :: xs' => body x ;; for_each xs' body
  end.

Definition emit (e : event) : M unit :=
  fun st => (Ok tt, State (st_file st) (st_trace st ++ [e]) (st_posts st)).

Definition print (l : line) : M unit := emit (Print l).

(** An [option] whose [None] is the exception [e]. *)
Definition or_raise {A} (e : exn) (o : option A) : M A :=
  match o with
  | Some a => ret a
  | None => raise e
  end.

(** [for x in xs: acc = body acc x], for a loop that builds a value. *)
Fixpoint for_fold {A S} (xs : list A) (body : S -> A -> M S) (acc : S) : M S :=
  match xs with
  | [] => ret acc
  | x :: xs' => acc' <- body acc x ;; for_fold xs' body acc'
  end.

Definition eval {A} (m : M A) (st : state) : result A := (m st).1.
Definition exec {A} (m : M A) (st : state) : state := (m st).2.

(** ** [main.py] *)

Definition KNOWN_LISTINGS_FILE : string := "known_listings.json".

(** *** Configuration (lines 20-39) *)

(** [get_required_env(key, description)]; [env] is [os.environ] once
    [load_dotenv()] has run. *)
Definition get_required_env (env : gmap string string) (key description : string) : M string :=
  let value := env !! key in
  let missing : M string :=
    let error_msg := "Required environment variable '" +:+ key +:+ "' is not set." in
    let error_msg :=
      if String.eqb description "" then error_msg
      else error_msg +:+ " " +:+ description in
    print (EnvError error_msg) ;;
    print EnvHint ;;
    raise (SystemExit 1) in
  match value with
  | None => missing
  | Some v => if String.eqb v "" then missing else ret v
  end.

(** The three module-level settings. *)
Record config := Config {
  URL : string;
  TELEGRAM_BOT_TOKEN : string;
  TELEGRAM_CHAT_ID : string;
}.

Definition load_config (env : gmap string string) : M config :=
  url <- get_required_env env "URL" "The Kufar URL to monitor for new listings" ;;
  token <- get_required_env env "TELEGRAM_BOT_TOKEN" "Telegram bot token from @BotFather" ;;
  chat_id <- get_required_env env "TELEGRAM_CHAT_ID" "Your Telegram chat ID from @userinfobot" ;;
  ret (Config url token chat_id).

(** *** The regular expression [/dom(?:/dacha)?/(\d+)] *)

(** The decimal digits at the head of a list of characters. *)
Fixpoint digit_run (cs : list string) : string :=
  match cs with
  | ch :: cs' => if Py.is_decimal ch then ch +:+ digit_run cs' else EmptyString
  | [] => EmptyString
  end.

(** [\d*] at the start of [s]: the longest run of decimal digits. *)
Definition span_digits (s : string) : string := digit_run (Py.chars s).

(** [/(\d+)] at the start of [s]: group 1. *)
Definition match_slash_digits (s : string) : option string :=
  r ← Py.strip_prefix "/" s;
  let ds := span_digits r in
  if String.eqb ds "" then None else Some ds.

(** The pattern at the start of [s]; the optional group is tried first. *)
Definition match_here (s : string) : option string :=
  r ← Py.strip_prefix "/dom" s;
  match Py.strip_prefix "/dacha" r ≫= match_slash_digits with
  | Some ds => Some ds
  | None => match_slash_digits r
  end.

(** [re.search(pattern, s)]: the leftmost match; group 1 of it. The start
    of a match is the byte [/], which is no part of a longer UTF-8
    sequence, so the search may go byte by byte. *)
Fixpoint re_search (s : string) : option string :=
  match match_here s with
  | Some ds => Some ds
  | None =>
      match s with
      | String _ s' => re_search s'
      | EmptyString => None
      end
  end.

(** *** Fetching the listings (lines 41-74) *)

Section Run.
Variable cfg : config.
Variable net : network.

Definition requests_get (url : string) (headers : list (string * string)) : M (Z * page) :=
  emit (HttpGet url headers) ;;
  match net_get net url with
  | Failed e => raise (RequestError e)
  | Response status body => ret (status, body)
  end.

Definition requests_post (url : string) (payload : list (string * string)) (timeout : Z)
    : M (Z * unit) :=
  fun st =>
    let st' := State (st_file st) (st_trace st ++ [HttpPost url payload timeout]) (S (st_posts st)) in
    match net_post net (st_posts st) with
    | Failed e => (Raise (RequestError e), st')
    | Response status body => (Ok (status, body), st')
    end.

(** [response.raise_for_status()]: an [HTTPError] for the 4xx and 5xx codes. *)
Definition raise_for_status {B} (response : Z * B) : M unit :=
  if ((400 <=? response.1)%Z && (response.1 <? 600)%Z)%bool then raise (HTTPError response.1)
  else ret tt.

Definition BeautifulSoup (text : page) : M (list anchor) :=
  match text with
  | Rejected => raise ParserRejectedMarkup
  | Soup anchors => ret anchors
  end.

(** [soup.find_all("a", href=re.compile(...))]: the [<a>] elements that have
    an [href] in which the pattern is found. *)
Definition find_all_listing_links (soup : list anchor) : list anchor :=
  filter (fun a => is_Some (a_href a ≫= re_search)) soup.

(** Lines 61-72: one turn of the loop over the links. *)
Definition add_listing (listings : dict Z listing) (link : anchor) : M (dict Z listing) :=
  let href := default "" (a_href link) in
  match re_search href with
  | Some digits =>
      listing_id <- or_raise ValueError (Py.int digits) ;;
      let listing_title := a_text link in
      let listing_url :=
        if Py.startswith "http" href then Py.split_head "?" href
        else "https://re.kufar.by" +:+ Py.split_head "?" href in
      ret (dict_set listing_id (listing_title, listing_url) listings)
  | None => ret listings
  end.

Definition get_all_listings : M (dict Z listing) :=
  let headers := [("User-Agent", "Mozilla/5.0 (Windows NT 10.0; Win64; x64)")] in
  response <- requests_get (URL cfg) headers ;;
  raise_for_status response ;;
  soup <- BeautifulSoup response.2 ;;
  let listing_links := find_all_listing_links soup in
  for_fold listing_links add_listing [].

(** *** The known set on disk (lines 76-94) *)

(** [os.path.exists(KNOWN_LISTINGS_FILE)] *)
Definition os_path_exists : M bool :=
  fun st => (Ok (bool_decide (is_Some (st_file st))), st).

(** [with open(KNOWN_LISTINGS_FILE, "r") as f: json.load(f)] *)
Definition json_load : M json :=
  fun st =>
    match st_file st with
    | None => (Raise FileNotFoundError, st)
    | Some NotJson => (Raise JSONDecodeError, st)
    | Some TooDeep => (Raise RecursionError, st)
    | Some (Json j) => (Ok j, st)
    end.

(** [data.items()]: only a dict has it. *)
Definition items (data : json) : M (list (string * json)) :=
  match data with
  | JObj members => ret members
  | _ => raise AttributeError
  end.

(** [tuple(v)]: the elements of a list, the characters of a string, the keys
    of a dict; the other values are not iterable. *)
Definition py_tuple (v : json) : M tuple :=
  match v with
  | JArr elements => ret elements
  | JStr s => ret (JStr <$> Py.chars s)
  | JObj members => ret (JStr <$> members.*1)
  | JNull | JBool _ | JInt _ | JFloat _ => raise TypeError
  end.

(** Line 83: one entry of the dict comprehension, key first. *)
Definition add_known (known : dict Z tuple) (kv : string * json) : M (dict Z tuple) :=
  k <- or_raise ValueError (Py.int kv.1) ;;
  v <- py_tuple kv.2 ;;
  ret (dict_set k v known).

Definition load_known_listings : M (dict Z tuple) :=
  file_exists <- os_path_exists ;;
  if file_exists : bool then
    try_except
      (data <- json_load ;;
       members <- items data ;;
       for_fold members add_known [])
      caught_by_load
      (fun e => print (LoadError e) ;; ret [])
  else ret [].

(** [open(KNOWN_LISTINGS_FILE, "w")]: the file is created or cut to length
    zero, which is not a JSON document. *)
Definition open_w : M unit :=
  fun st => (Ok tt, State (Some NotJson) (st_trace st ++ [FileTruncate]) (st_posts st)).

(** [json.dump(data, f, ensure_ascii=False, indent=2)] up to the closing of
    the file: the file holds the document. *)
Definition json_dump (data : json) : M unit :=
  fun st => (Ok tt, State (Some (Json data)) (st_trace st ++ [FileDump data]) (st_posts st)).

(** [{str(k): list(v) for k, v in listings.items()}] *)
Definition save_data (listings : dict Z tuple) : dict string json :=
  foldl (fun data kv => dict_set (Py.str kv.1) (JArr kv.2) data) [] listings.

(** The writes of [save_known_listings], one after the other. *)
Definition save_steps (listings : dict Z tuple) : list (M unit) :=
  let data := save_data listings in
  [open_w; json_dump (JObj data)].

Definition save_known_listings (listings : dict Z tuple) : M unit :=
  for_each (save_steps listings) (fun step => step).

(** The state in which a process that dies after [n] of the [steps] leaves
    the world. *)
Fixpoint interrupted (n : nat) (steps : list (M unit)) (st : state) : state :=
  match n, steps with
  | S n', step :: steps' => interrupted n' steps' (exec step st)
  | _, _ => st
  end.

(** *** Telegram (lines 96-122) *)

Definition send_telegram_message (text : string) : M bool :=
  if String.eqb (TELEGRAM_BOT_TOKEN cfg) "" || String.eqb (TELEGRAM_CHAT_ID cfg) "" then
    print NotConfigured ;;
    print (WouldSend text) ;;
    ret false
  else
    try_except
      (let api_url := "https://api.telegram.org/bot" +:+ TELEGRAM_BOT_TOKEN cfg +:+ "/sendMessage" in
       let payload := [("chat_id", TELEGRAM_CHAT_ID cfg); ("text", text); ("parse_mode", "HTML")] in
       response <- requests_post api_url payload 10 ;;
       raise_for_status response ;;
       print SentOk ;;
       ret true)
      is_Exception
      (fun e =>
         print (SendError e) ;;
         emit (PrintExc e) ;;
         ret false).

(** The line feed of the f-strings. *)
Definition LF : string := String (ascii_of_nat 10) EmptyString.

Definition notify (title message url : string) : M unit :=
  let text := "<b>" +:+ title +:+ "</b>" +:+ LF +:+ message +:+ LF
              +:+ "<a href='" +:+ url +:+ "'>View Listing</a>" in
  send_telegram_message text ;;
  ret tt.

(** *** One run (lines 124-177) *)

(** [sorted(keys, reverse=True)] *)
Definition sorted_reverse (keys : list Z) : list Z := merge_sort Z.ge keys.

(** Lines 143-146: the listings of [current_listings] whose identifier is
    not in [known_listings]. *)
Definition find_new_listings (known_listings : dict Z tuple) (current_listings : dict Z listing)
    : dict Z listing :=
  foldl (fun new_listings item =>
           let '(listing_id, (title, url)) := item in
           if dict_in listing_id known_listings then new_listings
           else dict_set listing_id (title, url) new_listings)
        [] current_listings.

(** Lines 157-158: the text of the notification of one listing. *)
Definition message_text (url : string) : string :=
  let message_text := "🏠 <b>Новый дом появился на Kufar!</b>" +:+ LF +:+ LF in
  message_text +:+ "<a href='" +:+ url +:+ "'>Просмотреть</a>".

Definition main : M unit :=
  known_listings <- load_known_listings ;;
  match known_listings with
  | [] =>
      print FirstRun ;;
      current_listings <- get_all_listings ;;
      save_known_listings (as_tuples current_listings) ;;
      print (SavedBaseline (length current_listings)) ;;
      ret tt
  | _ :: _ =>
      print (LoadedKnown (length known_listings)) ;;
      try_except
        (current_listings <- get_all_listings ;;
         print (FoundOnPage (length current_listings)) ;;
         let new_listings := find_new_listings known_listings current_listings in
         match new_listings with
         | _ :: _ =>
             print (FoundNew (length new_listings)) ;;
             for_each (sorted_reverse (dict_keys new_listings)) (fun listing_id =>
               entry <- or_raise KeyError (dict_get listing_id new_listings) ;;
               let '(title, url) := entry : listing in
               print (NewListing listing_id url) ;;
               send_telegram_message (message_text url) ;;
               emit (Sleep 500)) ;;
             let known_listings := dict_update known_listings (as_tuples new_listings) in
             save_known_listings known_listings ;;
             print (UpdatedKnown (length known_listings))
         | [] =>
             print NoNew ;;
             save_known_listings known_listings
         end)
        is_Exception
        (fun e =>
           print (CheckError e) ;;
           emit (PrintExc e) ;;
           raise e)
  end.

End Run.

(** *** The process *)

(** The module body, then [main()]. *)
Definition program (env : gmap string string) (net : network) : M unit :=
  cfg <- load_config env ;;
  main cfg net.

(** A process starts with the state file as the last run left it, nothing
    printed and nothing sent. *)
Definition initial (file : option file_content) : state := State file [] 0.

Definition run (env : gmap string string) (net : network) (file : option file_content)
    : result unit * state :=
  program env net (initial file).

(** The exit status of the process: 0 when the program returns, the code of
    [sys.exit], and 1 for any other exception that nothing caught. *)
Definition exit_status {A} (r : result A) : Z :=
  match r with
  | Ok _ => 0
  | Raise (SystemExit code) => code
  | Raise _ => 1
  end.

(** ** What is observed of a run *)

(** The state [st] with the events [evs] added to its trace. *)
Definition log (st : state) (evs : list event) : state :=
  State (st_file st) (st_trace st ++ evs) (st_posts st).

(** The identifiers announced by the run, in order: one line
    [New listing found: ID ...] comes before each notification. *)
Definition reported_ids (tr : list event) : list Z :=
  omap (fun e => match e with Print (NewListing listing_id _) => Some listing_id | _ => None end) tr.

(** The texts handed to Telegram, in order: the ["text"] of each POST. *)
Definition posted_texts (tr : list event) : list string :=
  omap (fun e => match e with HttpPost _ payload _ => dict_get "text" payload | _ => None end) tr.

Definition is_write (e : event) : bool :=
  match e with
  | FileTruncate | FileDump _ => true
  | _ => false
  end.

Definition is_request (e : event) : bool :=
  match e with
  | HttpGet _ _ | HttpPost _ _ _ => true
  | _ => false
  end.

(** The URL of listing [listing_id] in a dict of listings. *)
Definition listing_url (d : dict Z listing) (listing_id : Z) : string :=
  match dict_get listing_id d with
  | Some (_, url) => url
  | None => ""
  end.

(** Both Telegram settings are non-empty, as [get_required_env] leaves them. *)
Definition configured (cfg : config) : Prop :=
  TELEGRAM_BOT_TOKEN cfg ≠ "" ∧ TELEGRAM_CHAT_ID cfg ≠ "".

(** [requests] calls a response a success ([response.ok]) when
    [raise_for_status] lets it through. *)
Definition delivered (r : reply unit) : bool :=
  match r with
  | Failed _ => false
  | Response status _ => negb ((400 <=? status)%Z && (status <? 600)%Z)
  end.

(** The set of identifiers of a dict. *)
Definition ids {V} (d : dict Z V) : gset Z := list_to_set (dict_keys d).

(** Only ASCII decimal digits: the decimal text that [str] writes. *)
Fixpoint all_digits (s : string) : bool :=
  match s with
  | EmptyString => true
  | String c s' => Py.is_digit c && all_digits s'
  end.

(** A statement that reads and writes nothing: its result is the same in
    every state, and the state is left as it is. *)
Definition stateless {A} (m : M A) : Prop := ∃ r, ∀ st, m st = (r, st).

(** What [send_telegram_message] prints once the POST has its reply. *)
Definition send_log (r : reply unit) : list event :=
  match r with
  | Failed e => [Print (SendError (RequestError e)); PrintExc (RequestError e)]
  | Response status _ =>
      if ((400 <=? status)%Z && (status <? 600)%Z)%bool
      then [Print (SendError (HTTPError status)); PrintExc (HTTPError status)]
      else [Print SentOk]
  end.

(** The POST of [send_telegram_message]. *)
Definition telegram_post (cfg : config) (text : string) : event :=
  HttpPost ("https://api.telegram.org/bot" +:+ TELEGRAM_BOT_TOKEN cfg +:+ "/sendMessage")
           [("chat_id", TELEGRAM_CHAT_ID cfg); ("text", text); ("parse_mode", "HTML")] 10.

(** The events of the notification loop of [main] over [listing_ids], when
    [n] POSTs were made before it. *)
Fixpoint notify_log (cfg : config) (net : network) (new_listings : dict Z listing)
    (n : nat) (listing_ids : list Z) : list event :=
  match listing_ids with
  | [] => []
  | listing_id :: rest =>
      let url := listing_url new_listings listing_id in
      [Print (NewListing listing_id url); telegram_post cfg (message_text url)]
      ++ send_log (net_post net n) ++ [Sleep 500]
      ++ notify_log cfg net new_listings (S n) rest
  end.

(** The GET of [get_all_listings]. *)
Definition fetch_event (cfg : config) : event :=
  HttpGet (URL cfg) [("User-Agent", "Mozilla/5.0 (Windows NT 10.0; Win64; x64)")].

(** The events of a comparison run that loaded [known_listings] and fetched
    [current_listings]. *)
Definition comparison_trace (cfg : config) (net : network)
    (known_listings : dict Z tuple) (current_listings : dict Z listing) : list event :=
  let new_listings := find_new_listings known_listings current_listings in
  let merged := dict_update known_listings (as_tuples new_listings) in
  [Print (LoadedKnown (length known_listings)); fetch_event cfg;
   Print (FoundOnPage (length current_listings))]
  ++ match new_listings with
     | [] => [Print NoNew; FileTruncate; FileDump (JObj (save_data merged))]
     | _ :: _ =>
         [Print (FoundNew (length new_listings))]
         ++ notify_log cfg net new_listings 0 (sorted_reverse (dict_keys new_listings))
         ++ [FileTruncate; FileDump (JObj (save_data merged));
             Print (UpdatedKnown (length merged))]
     end.

(** The values that [tuple(v)] accepts. *)
Definition iterable (v : json) : bool :=
  match v with
  | JArr _ | JStr _ | JObj _ => true
  | JNull | JBool _ | JInt _ | JFloat _ => false
  end.

(** A state file that a later run can read: no file, or a JSON document
    that [json.load] returns. *)
Definition readable (file : option file_content) : Prop :=
  file ≠ Some NotJson ∧ file ≠ Some TooDeep.

(** ** A worked scenario

    Known listings 100 and 101; the page shows 100, 101, 103 and 102; the
    first POST of the run times out. *)

Module Scenario.

Definition env : gmap string string :=
  <["URL" := "https://re.kufar.by/l/dom"]>
    (<["TELEGRAM_BOT_TOKEN" := "123:abc"]> (<["TELEGRAM_CHAT_ID" := "42"]> ∅)).

Definition cfg : config := Config "https://re.kufar.by/l/dom" "123:abc" "42".

Definition page : page :=
  Soup [Anchor (Some "/dom/100?rank=1") "House A";
        Anchor (Some "/dom/dacha/101") "Dacha B";
        Anchor None "About";
        Anchor (Some "https://re.kufar.by/dom/103?rank=3") "House C";
        Anchor (Some "/dom/102") "House D"].

Definition net : network :=
  Network (fun _ => Response 200 page)
          (fun n => match n with O => Failed Timeout | _ => Response 200 tt end).

Definition known : dict Z tuple :=
  [(100, [JStr "House A"; JStr "https://re.kufar.by/dom/100"]);
   (101, [JStr "Dacha B"; JStr "https://re.kufar.by/dom/dacha/101"])].

Definition current : dict Z listing :=
  [(100, ("House A", "https://re.kufar.by/dom/100"));
   (101, ("Dacha B", "https://re.kufar.by/dom/dacha/101"));
   (103, ("House C", "https://re.kufar.by/dom/103"));
   (102, ("House D", "https://re.kufar.by/dom/102"))].

Definition file : option file_content :=
  Some (Json (JObj [("100", JArr [JStr "House A"; JStr "https://re.kufar.by/dom/100"]);
                    ("101", JArr [JStr "Dacha B"; JStr "https://re.kufar.by/dom/dacha/101"])])).

(** A network whose GET is answered with a server error. *)
Definition net_down : network :=
  Network (fun _ => Response 503 Rejected) (fun _ => Response 200 tt).

(** The environment with the chat identifier set to the empty string. *)
Definition env_empty_chat : gmap string string := <["TELEGRAM_CHAT_ID" := ""]> env.

(** A network whose GET is answered with [304 Not Modified] and a body
    without links. *)
Definition net_not_modified : network :=
  Network (fun _ => Response 304 (Soup [])) (fun _ => Response 200 tt).

End Scenario.

(** ** The extraction in closed form

    What lines 59-72 build from the links of a page, written without the
    loop: used to state what [get_all_listings] returns. *)

(** The identifier that a link gives, if its [href] has the pattern. *)
Definition link_id (link : anchor) : option Z :=
  (a_href link ≫= re_search) ≫= Py.int.

(** Lines 68-71: the URL kept for an [href]. *)
Definition link_url (href : string) : string :=
  if Py.startswith "http" href then Py.split_head "?" href
  else "https://re.kufar.by" +:+ Py.split_head "?" href.

(** The pair kept for a link. *)
Definition link_listing (link : anchor) : listing :=
  (a_text link, link_url (default "" (a_href link))).

Definition extract_step (listings : dict Z listing) (link : anchor) : dict Z listing :=
  match link_id link with
  | Some listing_id => dict_set listing_id (link_listing link) listings
  | None => listings
  end.

Definition extract (anchors : list anchor) : dict Z listing :=
  foldl extract_step [] anchors.

(** A status that [raise_for_status] lets through. *)
Definition status_ok (status : Z) : bool :=
  negb ((400 <=? status)%Z && (status <? 600)%Z).

(** The replies to the GET that make lines 46-49 raise, with the exception
    raised: a failed request, a response with a 4xx or 5xx status, a page
    that the parser rejects. *)
Definition fetch_failure (r : reply page) : option exn :=
  match r with
  | Failed e => Some (RequestError e)
  | Response status body =>
      if status_ok status then
        match body with
        | Rejected => Some ParserRejectedMarkup
        | Soup _ => None
        end
      else Some (HTTPError status)
  end.

(** Links whose [href] has no more bytes than the interpreter converts
    digits by default: so have the digits found in them. *)
Definition short_hrefs (anchors : list anchor) : Prop :=
  Forall (fun link => (String.length (default "" (a_href link)) ≤ Py.max_str_digits)%nat)
         anchors.

(** An entry of the state file that line 83 takes: the key is the text of
    an integer, of no more bytes than the interpreter converts digits by
    default, and the value is iterable. *)
Definition loadable (kv : string * json) : Prop :=
  iterable kv.2 = true ∧ is_Some (Py.int kv.1)
  ∧ (String.length kv.1 ≤ Py.max_str_digits)%nat.

Definition is_sleep (e : event) : bool :=
  match e with
  | Sleep _ => true
  | _ => false
  end.

(** A required setting that [get_required_env] takes as not set. *)
Definition unset (env : gmap string string) (key : string) : Prop :=
  env !! key = None ∨ env !! key = Some "".

(** Lines 33-39: the settings in the order they are read, with the
    descriptions given for them. *)
Definition required_settings : list (string * string) :=
  [("URL", "The Kufar URL to monitor for new listings");
   ("TELEGRAM_BOT_TOKEN", "Telegram bot token from @BotFather");
   ("TELEGRAM_CHAT_ID", "Your Telegram chat ID from @userinfobot")].

(** ** The loading in closed form *)

(** The tuple that [tuple(v)] makes, [None] when it raises. *)
Definition tuple_of (v : json) : option tuple :=
  match v with
  | JArr elements => Some elements
  | JStr s => Some (JStr <$> Py.chars s)
  | JObj members => Some (JStr <$> members.*1)
  | JNull | JBool _ | JInt _ | JFloat _ => None
  end.

(** Line 83 for one entry whose key is an integer and whose value is
    iterable. *)
Definition known_step (known : dict Z tuple) (kv : string * json) : dict Z tuple :=
  match Py.int kv.1, tuple_of kv.2 with
  | Some k, Some v => dict_set k v known
  | _, _ => known
  end.

(** The text that [notify] sends. *)
Definition notify_text (title message url : string) : string :=
  "<b>" +:+ title +:+ "</b>" +:+ LF +:+ message +:+ LF
  +:+ "<a href='" +:+ url +:+ "'>View Listing</a>".

(** * Properties *)

(** ** Decimal text of integers *)

Lemma string_of_uint_digits d : all_digits (NilEmpty.string_of_uint d) = true.
Proof. induction d; simpl; auto. Qed.

Lemma digit_not_space c : Py.is_digit c = true → Py.is_space c = false.
Proof.
  unfold Py.is_digit, Py.is_space. generalize (nat_of_ascii c). intros n Hn.
  apply andb_true_iff in Hn as [H1 H2].
  apply Nat.leb_le in H1, H2.
  apply orb_false_iff; split; [apply andb_false_iff; right|]; apply Nat.leb_gt || apply Nat.eqb_neq; lia.
Qed.

Lemma lstrip_digits s : all_digits s = true → Py.lstrip s = s.
Proof.
  destruct s as [|c s]; simpl; [done|]. intros [Hc _]%andb_true_iff.
  by rewrite (digit_not_space c Hc).
Qed.

Lemma rstrip_digits s : all_digits s = true → Py.rstrip s = s.
Proof.
  induction s as [|c s IH]; simpl; [done|]. intros [Hc Hs]%andb_true_iff.
  rewrite (IH Hs). destruct s; [|done]. by rewrite (digit_not_space c Hc).
Qed.

Lemma digit_not_underscore c : Py.is_digit c = true → Ascii.eqb c "_"%char = false.
Proof. intros Hc. destruct (Ascii.eqb_spec c "_"%char) as [->|]; [done|done]. Qed.

Lemma digit_groups_digits s prev :
  all_digits s = true → (prev = true ∨ s ≠ "") → Py.digit_groups prev s = Some s.
Proof.
  revert prev. induction s as [|c s IH]; simpl; intros prev Hs Hne.
  - destruct Hne as [->|?]; done.
  - apply andb_true_iff in Hs as [Hc Hs].
    rewrite (digit_not_underscore c Hc), Hc, (IH true Hs); [done|by left].
Qed.

Lemma string_of_uint_nonempty d : d ≠ Nil → NilEmpty.string_of_uint d ≠ "".
Proof. by destruct d. Qed.

Lemma int_of_ascii_digits (s : string) d :
  all_digits s = true → s ≠ "" → NilEmpty.uint_of_string s = Some d →
  Py.int_of_ascii s = Some (Z.of_uint d)
  ∧ Py.int_of_ascii (String "-" s) = Some (- Z.of_uint d).
Proof.
  intros Hs Hne Hd. unfold Py.int_of_ascii, Py.strip. split.
  - rewrite (lstrip_digits s Hs), (rstrip_digits s Hs).
    destruct s as [|c s]; [done|].
    assert (c ≠ "+"%char ∧ c ≠ "-"%char) as [H1 H2].
    { simpl in Hs. apply andb_true_iff in Hs as [Hc _]. split; intros ->; done. }
    assert (Py.digit_groups false (String c s) = Some (String c s)) as Hg
      by (apply digit_groups_digits; auto).
    destruct c as [[] [] [] [] [] [] [] []]; try done;
      rewrite Hg; simpl; simpl in Hd; rewrite Hd; done.
  - change (Py.lstrip (String "-" s)) with (String "-" s).
    assert (Py.rstrip (String "-" s) = String "-" s) as ->.
    { simpl. rewrite (rstrip_digits s Hs). by destruct s. }
    rewrite digit_groups_digits by auto. simpl. rewrite Hd. done.
Qed.

(** ** Characters *)

Lemma take_bytes_length n s : (String.length (Py.take_bytes n s).2 ≤ String.length s)%nat.
Proof.
  revert s. induction n as [|n IH]; intros s; [done|]. destruct s as [|c s]; [done|].
  cbn [Py.take_bytes]. specialize (IH s). destruct (Py.take_bytes n s) as [a b].
  simpl in *. lia.
Qed.

(** The characters of a string do not depend on the fuel, once there is
    enough of it. *)
Lemma chars_fuel_enough f1 f2 s :
  (String.length s ≤ f1)%nat → (String.length s ≤ f2)%nat →
  Py.chars_fuel f1 s = Py.chars_fuel f2 s.
Proof.
  revert f2 s. induction f1 as [|f1 IH]; intros f2 s H1 H2.
  - destruct s; [|simpl in H1; lia]. by destruct f2.
  - destruct s as [|c s]; [by destruct f2|].
    destruct f2 as [|f2]; [simpl in H2; lia|]. cbn [Py.chars_fuel].
    pose proof (take_bytes_length (Py.utf8_len c - 1) s) as Hlen.
    destruct (Py.take_bytes (Py.utf8_len c - 1) s) as [a b]. simpl in *.
    f_equal. apply IH; lia.
Qed.

Lemma take_bytes_app r s : Py.take_bytes (String.length r) (r +:+ s) = (r, s).
Proof.
  induction r as [|c r IH]; [by destruct s|].
  change (String c r +:+ s) with (String c (r +:+ s)). cbn [String.length Py.take_bytes].
  by rewrite IH.
Qed.

Lemma length_app_r r s : (String.length s ≤ String.length (r +:+ s))%nat.
Proof.
  induction r as [|c r IH]; [done|].
  change (String c r +:+ s) with (String c (r +:+ s)). cbn [String.length]. lia.
Qed.

(** A string that starts with a character: its characters are that one and
    those of the rest. *)
Lemma chars_cons a rest s :
  String.length rest = (Py.utf8_len a - 1)%nat →
  Py.chars (String a rest +:+ s) = String a rest :: Py.chars s.
Proof.
  intros Hlen. unfold Py.chars. change (String a rest +:+ s) with (String a (rest +:+ s)).
  cbn [String.length Py.chars_fuel]. rewrite <- Hlen, take_bytes_app. f_equal.
  apply chars_fuel_enough; [apply length_app_r|done].
Qed.

Lemma chars_cons_byte c s :
  Py.utf8_len c = 1%nat → Py.chars (String c s) = String c "" :: Py.chars s.
Proof. intros Hc. apply (chars_cons c "" s). by rewrite Hc. Qed.

Lemma nat_of_ascii_N a : nat_of_ascii a = N.to_nat (N_of_ascii a).
Proof. done. Qed.

(** The sequence of a character is as long as its first byte says. *)
Lemma code_point_utf8_len ch cp :
  Py.code_point ch = Some cp →
  ∃ a rest, ch = String a rest ∧ String.length rest = (Py.utf8_len a - 1)%nat.
Proof.
  destruct ch as [|a [|b [|c [|d [|e r]]]]]; try done; intros H;
    eexists _, _; (split; [reflexivity|]); cbn [String.length];
    unfold Py.code_point in H; unfold Py.utf8_len; rewrite nat_of_ascii_N;
    set (n := N_of_ascii a) in *.
  - destruct (N.ltb_spec n 128); [|done].
    destruct (Nat.ltb_spec (N.to_nat n) 192); [done|lia].
  - destruct (N.leb_spec 194 n); [|done]. destruct (N.ltb_spec n 224); [|done].
    destruct (Nat.ltb_spec (N.to_nat n) 192); [lia|].
    destruct (Nat.ltb_spec (N.to_nat n) 224); [done|lia].
  - destruct (N.leb_spec 224 n); [|done]. destruct (N.ltb_spec n 240); [|done].
    destruct (Nat.ltb_spec (N.to_nat n) 192); [lia|].
    destruct (Nat.ltb_spec (N.to_nat n) 224); [lia|].
    destruct (Nat.ltb_spec (N.to_nat n) 240); [done|lia].
  - destruct (N.leb_spec 240 n); [|done]. destruct (N.ltb_spec n 245); [|done].
    destruct (Nat.ltb_spec (N.to_nat n) 192); [lia|].
    destruct (Nat.ltb_spec (N.to_nat n) 224); [lia|].
    destruct (Nat.ltb_spec (N.to_nat n) 240); [lia|done].
Qed.

Lemma chars_app_char ch cp s :
  Py.code_point ch = Some cp → Py.chars (ch +:+ s) = ch :: Py.chars s.
Proof.
  intros (a & rest & -> & Hlen)%code_point_utf8_len. by apply chars_cons.
Qed.

Lemma digit_utf8_len c : Py.is_digit c = true → Py.utf8_len c = 1%nat.
Proof.
  unfold Py.is_digit, Py.utf8_len. generalize (nat_of_ascii c). intros n Hn.
  apply andb_true_iff in Hn as [_ H2]. apply Nat.leb_le in H2.
  destruct (Nat.ltb_spec n 192); [done|lia].
Qed.

Lemma chars_digits_cons c s :
  Py.is_digit c = true → Py.chars (String c s) = String c "" :: Py.chars s.
Proof. intros Hc. by apply chars_cons_byte, digit_utf8_len. Qed.

(** ** Digits *)

Lemma decimal_zero cp d :
  Py.decimal cp = Some d →
  ∃ zero, zero ∈ Py.decimal_zeros ∧ (zero ≤ cp < zero + 10)%N ∧ d = (cp - zero)%N.
Proof.
  unfold Py.decimal.
  destruct (List.find _ Py.decimal_zeros) as [zero|] eqn:Hfind; [|done].
  intros [= <-]. apply List.find_some in Hfind as [Hin Hzero].
  apply andb_true_iff in Hzero as [H1 H2]. apply N.leb_le in H1. apply N.ltb_lt in H2.
  exists zero. split_and!; [by apply list_elem_of_In|done..].
Qed.

(** The digits of ASCII are those of the first row; no digit of another row
    is an ASCII character or a space. *)
Lemma decimal_zeros_rows :
  Forall (fun zero => zero = 48%N
                      ∨ ((127 ≤ zero)%N
                         ∧ ∀ cp, (zero ≤ cp < zero + 10)%N → Py.is_unicode_space cp = false))
         Py.decimal_zeros.
Proof.
  apply Forall_forall. intros zero Hzero. unfold Py.decimal_zeros in Hzero.
  repeat (apply elem_of_cons in Hzero as [->|Hzero]); [by left|..|by apply elem_of_nil in Hzero];
    right; (split; [lia|]); intros cp Hcp; unfold Py.is_unicode_space; cbn [existsb];
    repeat (apply orb_false_intro); try reflexivity; try (apply N.eqb_neq; lia);
    (destruct (N.leb_spec 0x2000 cp); [|done]); apply N.leb_gt; lia.
Qed.

Lemma is_digit_ascii_of_N n :
  (48 ≤ n ≤ 57)%N → Py.is_digit (ascii_of_N n) = true.
Proof.
  intros Hn. unfold Py.is_digit. rewrite nat_of_ascii_N, N_ascii_embedding by lia.
  apply andb_true_iff. split; apply Nat.leb_le; lia.
Qed.

(** [int] reads a decimal digit of any script as an ASCII digit. *)
Lemma ascii_of_decimal ch :
  Py.is_decimal ch = true →
  ∃ cp c, Py.code_point ch = Some cp ∧ Py.ascii_of_char ch = Some c ∧ Py.is_digit c = true.
Proof.
  unfold Py.is_decimal, Py.ascii_of_char.
  destruct (Py.code_point ch) as [cp|]; [|done]. cbn [mbind option_bind].
  destruct (Py.decimal cp) as [d|] eqn:Hd; [|done]. intros _.
  apply decimal_zero in Hd as (zero & Hzero & Hcp & ->).
  pose proof (proj1 (Forall_forall _ _) decimal_zeros_rows zero Hzero) as [->|[Hge Hspace]].
  - exists cp. destruct (N.ltb_spec cp 127); [|lia].
    eexists. split_and!; [done..|]. apply is_digit_ascii_of_N. lia.
  - exists cp. destruct (N.ltb_spec cp 127); [lia|]. rewrite (Hspace cp Hcp).
    eexists. split_and!; [done..|]. apply is_digit_ascii_of_N. lia.
Qed.

Lemma ascii_digit_decimal c :
  Py.is_digit c = true →
  Py.is_decimal (String c "") = true ∧ Py.ascii_of_char (String c "") = Some c.
Proof. destruct c as [[] [] [] [] [] [] [] []]; try done; intros _; by vm_compute. Qed.

Lemma ascii_of_chars_digits s :
  all_digits s = true → Py.ascii_of_chars (Py.chars s) = Some s.
Proof.
  induction s as [|c s IH]; [done|]. cbn [all_digits]. intros [Hc Hs]%andb_true_iff.
  rewrite (chars_digits_cons c s Hc). cbn [Py.ascii_of_chars].
  destruct (ascii_digit_decimal c Hc) as [_ ->]. cbn [mbind option_bind].
  by rewrite (IH Hs).
Qed.

Lemma int_of_digits (s : string) d :
  all_digits s = true → s ≠ "" → NilEmpty.uint_of_string s = Some d →
  Py.int s = Some (Z.of_uint d) ∧ Py.int (String "-" s) = Some (- Z.of_uint d).
Proof.
  intros Hs Hne Hd. destruct (int_of_ascii_digits s d Hs Hne Hd) as [H1 H2].
  unfold Py.int. split.
  - by rewrite (ascii_of_chars_digits s Hs).
  - rewrite (chars_cons_byte "-" s) by done. cbn [Py.ascii_of_chars].
    change (Py.ascii_of_char "-") with (Some "-"%char). cbn [mbind option_bind].
    by rewrite (ascii_of_chars_digits s Hs).
Qed.

Lemma int_str (n : Z) : Py.int (Py.str n) = Some n.
Proof.
  destruct n as [|p|p]; [done| |]; unfold Py.str; simpl;
    pose proof (Unsigned.to_uint_nonnil p) as Hnil;
    assert (NilZero.string_of_uint (Pos.to_uint p) = NilEmpty.string_of_uint (Pos.to_uint p)) as ->
      by (by destruct (Pos.to_uint p));
    destruct (int_of_digits (NilEmpty.string_of_uint (Pos.to_uint p)) (Pos.to_uint p)) as [H1 H2];
    auto using string_of_uint_digits, string_of_uint_nonempty, NilEmpty.usu.
  - rewrite H1. unfold Z.of_uint. by rewrite Unsigned.of_to.
  - rewrite H2. unfold Z.of_uint. by rewrite Unsigned.of_to.
Qed.

Lemma str_inj (m n : Z) : Py.str m = Py.str n → m = n.
Proof.
  intros H. apply (f_equal Py.int) in H. rewrite !int_str in H. congruence.
Qed.

(** *** The length of the decimal text *)

Lemma string_of_uint_length u : String.length (NilEmpty.string_of_uint u) = nb_digits u.
Proof. induction u; simpl; auto. Qed.

Lemma uint_of_string_length t d :
  NilEmpty.uint_of_string t = Some d → nb_digits d = String.length t.
Proof.
  revert d. induction t as [|c t IH]; intros d; [by intros [= <-]|].
  cbn [NilEmpty.uint_of_string String.length].
  destruct (NilEmpty.uint_of_string t) as [d'|]; [|by destruct c as [[] [] [] [] [] [] [] []]].
  specialize (IH d' eq_refl).
  destruct c as [[] [] [] [] [] [] [] []]; try done; intros [= <-]; simpl; by rewrite IH.
Qed.

(** The decimal text of the number that digits denote is no longer than
    the digits. *)
Lemma str_of_uint_length d :
  d ≠ Nil → (String.length (Py.str (Z.of_uint d)) ≤ nb_digits d)%nat.
Proof.
  intros Hd. unfold Py.str.
  change (Z.of_uint d) with (Z.of_int (Pos d)). rewrite DecimalZ.to_of.
  cbn [norm NilZero.string_of_int]. pose proof (DecimalFacts.nb_digits_unorm d Hd) as Hle.
  assert (unorm d ≠ Nil) as Hnil by (unfold unorm; by destruct (nzhead d)).
  destruct (unorm d) eqn:Hu; [done|..]; rewrite <- Hu in *;
    (replace (NilZero.string_of_uint (unorm d)) with (NilEmpty.string_of_uint (unorm d))
       by (by rewrite Hu)); by rewrite string_of_uint_length.
Qed.

Lemma length_append s t :
  String.length (s +:+ t) = (String.length s + String.length t)%nat.
Proof.
  induction s as [|c s IH]; [done|].
  change (String c s +:+ t) with (String c (s +:+ t)). cbn [String.length]. by rewrite IH.
Qed.

Lemma take_bytes_lengths n s :
  (String.length (Py.take_bytes n s).1 + String.length (Py.take_bytes n s).2)%nat
  = String.length s.
Proof.
  revert s. induction n as [|n IH]; intros s; [done|]. destruct s as [|c s]; [done|].
  cbn [Py.take_bytes]. specialize (IH s). destruct (Py.take_bytes n s) as [a b].
  simpl in *. lia.
Qed.

Lemma str_of_neg_uint_length d :
  d ≠ Nil → (String.length (Py.str (- Z.of_uint d)) ≤ S (nb_digits d))%nat.
Proof.
  intros Hd. pose proof (str_of_uint_length d Hd) as Hpos. revert Hpos. unfold Py.str.
  destruct (Z.of_uint d) as [|p|p]; simpl; lia.
Qed.

Lemma lstrip_length s : (String.length (Py.lstrip s) ≤ String.length s)%nat.
Proof.
  induction s as [|c s IH]; [done|]. cbn [Py.lstrip].
  destruct (Py.is_space c); cbn [String.length]; lia.
Qed.

Lemma rstrip_length s : (String.length (Py.rstrip s) ≤ String.length s)%nat.
Proof.
  induction s as [|c s IH]; [done|]. cbn [Py.rstrip].
  destruct (Py.rstrip s) as [|c' r]; [destruct (Py.is_space c)|]; cbn [String.length] in *; lia.
Qed.

Lemma digit_groups_length prev s ds :
  Py.digit_groups prev s = Some ds →
  (String.length ds ≤ String.length s)%nat ∧ (prev = false → ds ≠ "").
Proof.
  revert prev ds. induction s as [|c s IH]; intros prev ds; cbn [Py.digit_groups].
  - destruct prev; [|done]. by intros [= <-].
  - destruct (Ascii.eqb c "_").
    + destruct prev; [|done]. intros [Hlen Hne]%IH. cbn [String.length]. split; [lia|done].
    + destruct (Py.is_digit c); [|done].
      destruct (Py.digit_groups true s) as [ds'|] eqn:Hs; [|done].
      intros [= <-]. apply IH in Hs as [Hlen _]. cbn [String.length]. split; [lia|done].
Qed.

(** The decimal text of the number that an ASCII text denotes is no longer
    than the text. *)
Lemma int_of_ascii_length t i :
  Py.int_of_ascii t = Some i → (String.length (Py.str i) ≤ String.length t)%nat.
Proof.
  unfold Py.int_of_ascii, Py.strip.
  pose proof (lstrip_length t) as H1. pose proof (rstrip_length (Py.lstrip t)) as H2.
  assert (∀ negative body,
            (String.length body + (if negative : bool then 1 else 0)
             ≤ String.length (Py.rstrip (Py.lstrip t)))%nat →
            (ds ← Py.digit_groups false body;
             d ← NilEmpty.uint_of_string ds;
             Some (if negative then - Z.of_uint d else Z.of_uint d)) = Some i →
            (String.length (Py.str i) ≤ String.length t)%nat) as Hbody.
  { intros negative body Hlen.
    destruct (Py.digit_groups false body) as [ds|] eqn:Hds; [|done]. cbn [mbind option_bind].
    destruct (NilEmpty.uint_of_string ds) as [d|] eqn:Hd; [|done]. cbn [mbind option_bind].
    intros [= <-]. apply digit_groups_length in Hds as [Hlen' Hne].
    pose proof (uint_of_string_length ds d Hd) as Hnb.
    assert (d ≠ Nil) as Hnil.
    { intros ->. specialize (Hne eq_refl). destruct ds; [done|]. simpl in Hnb. lia. }
    destruct negative.
    - pose proof (str_of_neg_uint_length d Hnil). lia.
    - pose proof (str_of_uint_length d Hnil). lia. }
  destruct (Py.rstrip (Py.lstrip t)) as [|c r] eqn:Hstrip.
  - apply (Hbody false ""). simpl. lia.
  - destruct (Ascii.eqb_spec c "+") as [->|Hplus].
    + apply (Hbody false r). cbn [String.length]. lia.
    + destruct (Ascii.eqb_spec c "-") as [->|Hminus].
      * apply (Hbody true r). cbn [String.length]. lia.
      * intros H. apply (Hbody false (String c r)); [cbn [String.length]; lia|].
        rewrite <- H. by destruct c as [[] [] [] [] [] [] [] []].
Qed.

Lemma chars_fuel_length fuel s :
  (length (Py.chars_fuel fuel s) ≤ String.length s)%nat.
Proof.
  revert s. induction fuel as [|fuel IH]; intros s; [simpl; lia|].
  destruct s as [|c s]; [done|]. cbn [Py.chars_fuel].
  pose proof (take_bytes_length (Py.utf8_len c - 1) s) as Hlen.
  destruct (Py.take_bytes (Py.utf8_len c - 1) s) as [a b]. specialize (IH b).
  simpl in *. lia.
Qed.

Lemma ascii_of_chars_length cs t :
  Py.ascii_of_chars cs = Some t → String.length t = length cs.
Proof.
  revert t. induction cs as [|ch cs IH]; intros t; [by intros [= <-]|].
  cbn [Py.ascii_of_chars]. destruct (Py.ascii_of_char ch); [|done]. cbn [mbind option_bind].
  destruct (Py.ascii_of_chars cs) as [t'|]; [|done]. intros [= <-].
  cbn [String.length length]. by rewrite (IH t').
Qed.

(** The decimal text of the number that a text denotes is no longer than
    the text. *)
Lemma int_length s i :
  Py.int s = Some i → (String.length (Py.str i) ≤ String.length s)%nat.
Proof.
  unfold Py.int. destruct (Py.ascii_of_chars (Py.chars s)) as [t|] eqn:Ht; [|done].
  cbn [mbind option_bind]. intros Hi%int_of_ascii_length.
  apply ascii_of_chars_length in Ht.
  pose proof (chars_fuel_length (String.length s) s). unfold Py.chars in Ht. lia.
Qed.

Lemma strip_prefix_length p s r :
  Py.strip_prefix p s = Some r → (String.length r ≤ String.length s)%nat.
Proof.
  revert s. induction p as [|a p IH]; intros s; [by intros [= ->]|].
  destruct s as [|b s]; [done|]. cbn [Py.strip_prefix String.length].
  destruct (Ascii.eqb a b); [|done]. intros H%IH. lia.
Qed.

(** ** Dictionaries *)

Section DictFacts.
Context {K V : Type} `{EqDecision K}.
Implicit Types (d : dict K V) (k : K) (v : V).

Lemma dict_get_None k d : dict_get k d = None ↔ k ∉ dict_keys d.
Proof.
  unfold dict_keys. induction d as [|[k' v'] d IH]; csimpl.
  - split; [intros _; apply not_elem_of_nil|done].
  - rewrite not_elem_of_cons. destruct (decide (k = k')) as [->|Hne].
    + split; [done|]. intros [? _]. done.
    + rewrite IH. split; [done|]. by intros [_ ?].
Qed.

Lemma dict_get_is_Some k d : is_Some (dict_get k d) ↔ k ∈ dict_keys d.
Proof.
  rewrite <- not_eq_None_Some, dict_get_None.
  split; [apply dec_stable|auto].
Qed.

Lemma dict_in_true k d : dict_in k d = true ↔ k ∈ dict_keys d.
Proof.
  rewrite <- dict_get_is_Some. unfold dict_in.
  destruct (dict_get k d).
  - split; [by eexists|done].
  - split; [done|by intros [? ?]].
Qed.

Lemma dict_in_false k d : dict_in k d = false ↔ k ∉ dict_keys d.
Proof. rewrite <- dict_in_true. by destruct (dict_in k d). Qed.

Lemma dict_set_fresh k v d : k ∉ dict_keys d → dict_set k v d = d ++ [(k, v)].
Proof.
  unfold dict_keys. induction d as [|[k' v'] d IH]; csimpl; [done|].
  rewrite not_elem_of_cons. intros [Hne Hd].
  rewrite decide_False by done. by rewrite IH.
Qed.

Lemma dict_keys_set k v d :
  dict_keys (dict_set k v d) = if dict_in k d then dict_keys d else dict_keys d ++ [k].
Proof.
  unfold dict_keys, dict_in. induction d as [|[k' v'] d IH]; csimpl; [done|].
  destruct (decide (k = k')) as [->|]; csimpl; [done|].
  rewrite IH. by destruct (dict_get k d).
Qed.

Lemma elem_of_keys_set i k v d :
  i ∈ dict_keys (dict_set k v d) ↔ i = k ∨ i ∈ dict_keys d.
Proof.
  rewrite dict_keys_set. destruct (dict_in k d) eqn:Hin.
  - apply dict_in_true in Hin. split; [auto|]. by intros [->|?].
  - rewrite elem_of_app, list_elem_of_singleton. tauto.
Qed.

Lemma NoDup_keys_set k v d : NoDup (dict_keys d) → NoDup (dict_keys (dict_set k v d)).
Proof.
  intros Hd. rewrite dict_keys_set. destruct (dict_in k d) eqn:Hin; [done|].
  apply dict_in_false in Hin. apply NoDup_app. split_and!; [done| |apply NoDup_singleton].
  intros x Hx ->%list_elem_of_singleton. done.
Qed.

Lemma dict_get_set i k v d :
  dict_get i (dict_set k v d) = if decide (i = k) then Some v else dict_get i d.
Proof.
  induction d as [|[k' v'] d IH]; csimpl.
  - by destruct (decide (i = k)).
  - destruct (decide (k = k')) as [->|Hkk']; csimpl.
    + by destruct (decide (i = k')).
    + rewrite IH. destruct (decide (i = k')) as [->|]; [|done].
      by rewrite decide_False.
Qed.

(** Inserting entries with fresh, distinct keys appends them in order. *)
Lemma foldl_set_fresh (acc d : dict K V) :
  NoDup (dict_keys acc ++ dict_keys d) →
  foldl (fun acc kv => dict_set kv.1 kv.2 acc) acc d = acc ++ d.
Proof.
  revert acc. induction d as [|[k v] d IH]; csimpl; intros acc Hnd.
  - by rewrite app_nil_r.
  - assert (k ∉ dict_keys acc) as Hk.
    { apply NoDup_app in Hnd as (_ & Hdisj & _). intros Hin.
      apply (Hdisj k Hin). unfold dict_keys. csimpl. left. }
    rewrite dict_set_fresh by done. rewrite IH.
    + by rewrite <- app_assoc.
    + unfold dict_keys in *. rewrite fmap_app. csimpl in *.
      rewrite <- app_assoc. done.
Qed.

Lemma elem_of_keys_update i (d other : dict K V) :
  i ∈ dict_keys (dict_update d other) ↔ i ∈ dict_keys d ∨ i ∈ dict_keys other.
Proof.
  unfold dict_update. revert d. induction other as [|[k v] other IH]; csimpl; intros d.
  - split; [auto|]. intros [?|Hx]; [done|]. by apply elem_of_nil in Hx.
  - rewrite IH, elem_of_keys_set.
    change (dict_keys ((k, v) :: other)) with (k :: dict_keys other).
    rewrite elem_of_cons. tauto.
Qed.

Lemma NoDup_keys_update (d other : dict K V) :
  NoDup (dict_keys d) → NoDup (dict_keys (dict_update d other)).
Proof.
  unfold dict_update. revert d. induction other as [|[k v] other IH]; csimpl; intros d Hd; [done|].
  apply IH. by apply NoDup_keys_set.
Qed.

Lemma dict_get_filter_key (P : K → bool) i d :
  P i = true → dict_get i (filter (fun kv => P kv.1) d) = dict_get i d.
Proof.
  intros Hi. induction d as [|[k v] d IH]; [done|].
  rewrite filter_cons. cbn [fst dict_get]. destruct (decide (i = k)) as [->|Hne].
  - rewrite decide_True by (by rewrite Hi). cbn [dict_get]. by rewrite decide_True.
  - case_decide; cbn [dict_get]; [by rewrite decide_False|done].
Qed.

End DictFacts.

(** ** Statements *)

Lemma bind_Ok {A B} (m : M A) (k : A → M B) st a st' :
  m st = (Ok a, st') → bind m k st = k a st'.
Proof. unfold bind. by intros ->. Qed.

Lemma bind_Raise {A B} (m : M A) (k : A → M B) st e st' :
  m st = (Raise e, st') → bind m k st = (Raise e, st').
Proof. unfold bind. by intros ->. Qed.

Lemma log_log st evs1 evs2 : log (log st evs1) evs2 = log st (evs1 ++ evs2).
Proof. unfold log. simpl. by rewrite app_assoc. Qed.

Lemma log_nil st : log st [] = st.
Proof. destruct st. unfold log. simpl. by rewrite app_nil_r. Qed.

Lemma print_run l st : print l st = (Ok tt, log st [Print l]).
Proof. done. Qed.

Lemma emit_run e st : emit e st = (Ok tt, log st [e]).
Proof. done. Qed.

Lemma stateless_ret {A} (a : A) : stateless (ret a).
Proof. by exists (Ok a). Qed.

Lemma stateless_raise {A} e : stateless (@raise A e).
Proof. by exists (Raise e). Qed.

Lemma stateless_or_raise {A} e (o : option A) : stateless (or_raise e o).
Proof. destruct o; [apply stateless_ret|apply stateless_raise]. Qed.

Lemma stateless_bind {A B} (m : M A) (k : A → M B) :
  stateless m → (∀ a, stateless (k a)) → stateless (bind m k).
Proof.
  intros [[a|e] Hm] Hk.
  - destruct (Hk a) as [r Hr]. exists r. intros st. unfold bind. by rewrite Hm.
  - exists (Raise e). intros st. unfold bind. by rewrite Hm.
Qed.

Lemma stateless_for_fold {A S} (xs : list A) (body : S → A → M S) acc :
  (∀ acc x, stateless (body acc x)) → stateless (for_fold xs body acc).
Proof.
  intros Hbody. revert acc. induction xs as [|x xs IH]; intros acc; simpl.
  - apply stateless_ret.
  - apply stateless_bind; auto.
Qed.

(** A loop that builds a value keeps what every turn keeps. *)
Lemma for_fold_invariant {A S} (P : S → Prop) (xs : list A) (body : S → A → M S) acc st r st' :
  (∀ acc x st acc' st', P acc → body acc x st = (Ok acc', st') → P acc') →
  P acc → for_fold xs body acc st = (Ok r, st') → P r.
Proof.
  intros Hbody. revert acc st. induction xs as [|x xs IH]; simpl; intros acc st Hacc Hrun.
  - injection Hrun as -> _. done.
  - unfold bind in Hrun. destruct (body acc x st) as [[acc'|e] st1] eqn:Hb; [|done].
    eapply IH; [|exact Hrun]. eauto.
Qed.

(** An exception of such a loop is the exception of one of its turns. *)
Lemma for_fold_raises {A S} (Q : exn → Prop) (xs : list A) (body : S → A → M S) acc st e st' :
  (∀ acc x st e st', body acc x st = (Raise e, st') → Q e) →
  for_fold xs body acc st = (Raise e, st') → Q e.
Proof.
  intros Hbody. revert acc st. induction xs as [|x xs IH]; simpl; intros acc st Hrun; [done|].
  unfold bind in Hrun. destruct (body acc x st) as [[acc'|e'] st1] eqn:Hb.
  - eauto.
  - injection Hrun as -> _. eauto.
Qed.

(** ** Configuration *)

Lemma get_required_env_run env key description :
  (∃ v, env !! key = Some v ∧ v ≠ "" ∧
        ∀ st, get_required_env env key description st = (Ok v, st)) ∨
  ((env !! key = None ∨ env !! key = Some "") ∧
   ∃ msg, ∀ st, get_required_env env key description st
                = (Raise (SystemExit 1), log st [Print (EnvError msg); Print EnvHint])).
Proof.
  unfold get_required_env. destruct (env !! key) as [v|] eqn:Hv.
  - destruct (String.eqb_spec v "") as [->|Hne].
    + right. split; [by right|]. eexists. intros st.
      unfold bind, print, emit, raise, log. simpl. by rewrite <- app_assoc.
    + left. by exists v.
  - right. split; [by left|]. eexists. intros st.
    unfold bind, print, emit, raise, log. simpl. by rewrite <- app_assoc.
Qed.

(** The module body either sets the three settings from the environment,
    printing nothing, or prints the error of the first one that is missing
    and exits with 1. *)
Lemma load_config_run env :
  (∃ cfg, (∀ st, load_config env st = (Ok cfg, st)) ∧ configured cfg
          ∧ ∀ key, key ∈ ["URL"; "TELEGRAM_BOT_TOKEN"; "TELEGRAM_CHAT_ID"] →
                   ∃ v, env !! key = Some v ∧ v ≠ "") ∨
  (∃ msg, ∀ st, load_config env st
                = (Raise (SystemExit 1), log st [Print (EnvError msg); Print EnvHint])).
Proof.
  unfold load_config.
  destruct (get_required_env_run env "URL" "The Kufar URL to monitor for new listings")
    as [(url & Hl1 & Hn1 & Hu)|[_ [msg Hu]]];
    [|right; exists msg; intros st; by rewrite (bind_Raise _ _ _ _ _ (Hu st))].
  destruct (get_required_env_run env "TELEGRAM_BOT_TOKEN" "Telegram bot token from @BotFather")
    as [(token & Hl2 & Ht & Hu2)|[_ [msg Hu2]]];
    [|right; exists msg; intros st;
      by rewrite (bind_Ok _ _ _ _ _ (Hu st)), (bind_Raise _ _ _ _ _ (Hu2 st))].
  destruct (get_required_env_run env "TELEGRAM_CHAT_ID" "Your Telegram chat ID from @userinfobot")
    as [(chat & Hl3 & Hc & Hu3)|[_ [msg Hu3]]];
    [|right; exists msg; intros st;
      by rewrite (bind_Ok _ _ _ _ _ (Hu st)), (bind_Ok _ _ _ _ _ (Hu2 st)),
                 (bind_Raise _ _ _ _ _ (Hu3 st))].
  left. exists (Config url token chat). split_and!.
  - intros st.
    by rewrite (bind_Ok _ _ _ _ _ (Hu st)), (bind_Ok _ _ _ _ _ (Hu2 st)),
               (bind_Ok _ _ _ _ _ (Hu3 st)).
  - by split.
  - intros key Hkey. repeat (apply elem_of_cons in Hkey as [->|Hkey]; [eauto|]).
    by apply elem_of_nil in Hkey.
Qed.

Lemma load_config_Ok env st0 cfg :
  eval (load_config env) st0 = Ok cfg →
  (∀ st, load_config env st = (Ok cfg, st)) ∧ configured cfg.
Proof.
  unfold eval. destruct (load_config_run env) as [(cfg' & H & Hc & _)|[msg H]];
    rewrite (H st0); simpl; [|done]. by intros [= ->].
Qed.

(** ** Fetching *)

Lemma raise_for_status_run {B} (response : Z * B) st :
  raise_for_status response st
  = (if ((400 <=? response.1)%Z && (response.1 <? 600)%Z)%bool
     then Raise (HTTPError response.1) else Ok tt, st).
Proof. unfold raise_for_status. by case_match. Qed.

(** The fetch makes one GET and nothing else; what it returns does not
    depend on the state; a dict it returns has no key twice; an exception
    it raises is an [Exception]. *)
Lemma get_all_listings_run cfg net :
  ∃ r, (∀ st, get_all_listings cfg net st
              = (r, log st [HttpGet (URL cfg) [("User-Agent", "Mozilla/5.0 (Windows NT 10.0; Win64; x64)")]]))
       ∧ (∀ B, r = Ok B → NoDup (dict_keys B))
       ∧ (∀ e, r = Raise e → is_Exception e = true).
Proof.
  unfold get_all_listings, requests_get.
  destruct (net_get net (URL cfg)) as [e|status body] eqn:Hget.
  { exists (Raise (RequestError e)). split_and!; [done| done |by intros ? [= <-]]. }
  destruct ((400 <=? status)%Z && (status <? 600)%Z)%bool eqn:Hstatus.
  { exists (Raise (HTTPError status)). split_and!; [|done|by intros ? [= <-]].
    intros st. unfold bind. rewrite emit_run. simpl.
    rewrite raise_for_status_run. simpl. by rewrite Hstatus. }
  destruct body as [|anchors].
  { exists (Raise ParserRejectedMarkup). split_and!; [|done|by intros ? [= <-]].
    intros st. unfold bind. rewrite emit_run. simpl.
    rewrite raise_for_status_run. simpl. by rewrite Hstatus. }
  assert (∀ acc x, stateless (add_listing acc x)) as Hstateless.
  { intros acc x. unfold add_listing. destruct (re_search _); [|apply stateless_ret].
    apply stateless_bind; [apply stateless_or_raise|intros; apply stateless_ret]. }
  destruct (stateless_for_fold (find_all_listing_links anchors) add_listing [] Hstateless)
    as [r Hr].
  exists r. split_and!.
  - intros st. unfold bind. rewrite emit_run. simpl.
    rewrite raise_for_status_run. simpl. rewrite Hstatus. simpl. apply Hr.
  - intros B ->. specialize (Hr (initial None)).
    eapply (for_fold_invariant (fun d => NoDup (dict_keys d))); only 3: exact Hr;
      [|apply NoDup_nil_2].
    intros acc x st acc' st' Hacc. unfold add_listing.
    destruct (re_search _); [|by intros [= <- _]].
    destruct (Py.int _); simpl; [|done]. intros [= <- _]. by apply NoDup_keys_set.
  - intros e ->. specialize (Hr (initial None)).
    eapply (for_fold_raises (fun e => is_Exception e = true)); [|exact Hr].
    intros acc x st e' st'. unfold add_listing.
    destruct (re_search _); [|done]. destruct (Py.int _); simpl; [done|]. by intros [= <- _].
Qed.

(** [get_all_listings] with the result [r] of [get_all_listings_run]. *)
Lemma get_all_listings_eval cfg net st0 r st :
  eval (get_all_listings cfg net) st0 = r →
  get_all_listings cfg net st
  = (r, log st [HttpGet (URL cfg) [("User-Agent", "Mozilla/5.0 (Windows NT 10.0; Win64; x64)")]]).
Proof.
  destruct (get_all_listings_run cfg net) as (r' & Hrun & _).
  unfold eval. rewrite (Hrun st0). simpl. intros <-. apply Hrun.
Qed.

Lemma get_all_listings_NoDup cfg net st B :
  eval (get_all_listings cfg net) st = Ok B → NoDup (dict_keys B).
Proof.
  destruct (get_all_listings_run cfg net) as (r' & Hrun & Hnd & _).
  unfold eval. rewrite (Hrun st). simpl. apply Hnd.
Qed.

Lemma get_all_listings_Exception cfg net st e :
  eval (get_all_listings cfg net) st = Raise e → is_Exception e = true.
Proof.
  destruct (get_all_listings_run cfg net) as (r' & Hrun & _ & Hexn).
  unfold eval. rewrite (Hrun st). simpl. apply Hexn.
Qed.

(** ** The known set on disk *)

(** Runs [load_known_listings] in a state whose file is given by [H]. *)
Ltac load_from H :=
  unfold load_known_listings, os_path_exists, bind, try_except, json_load;
  rewrite H; simpl; rewrite ?H; simpl.

Lemma stateless_py_tuple v : stateless (py_tuple v).
Proof. destruct v; first [apply stateless_ret|apply stateless_raise]. Qed.

Lemma stateless_add_known known kv : stateless (add_known known kv).
Proof.
  unfold add_known. apply stateless_bind; [apply stateless_or_raise|intros k].
  apply stateless_bind; [apply stateless_py_tuple|intros; apply stateless_ret].
Qed.

Lemma add_known_NoDup known kv st known' st' :
  NoDup (dict_keys known) → add_known known kv st = (Ok known', st') →
  NoDup (dict_keys known').
Proof.
  intros Hnd. unfold add_known, bind. destruct (Py.int kv.1); simpl; [|done].
  destruct (stateless_py_tuple kv.2) as [[v|e] Hv]; rewrite Hv; [|done].
  intros [= <- _]. by apply NoDup_keys_set.
Qed.

(** Loading returns a dict without repeated keys and prints nothing, or
    raises and prints nothing, or prints that the file could not be read and
    returns the empty dict. It changes nothing on disk. *)
Lemma load_known_listings_cases st :
  (∃ A, load_known_listings st = (Ok A, st) ∧ NoDup (dict_keys A)) ∨
  (∃ e, load_known_listings st = (Raise e, st)) ∨
  (∃ e, load_known_listings st = (Ok [], log st [Print (LoadError e)])
        ∧ caught_by_load e = true).
Proof.
  unfold load_known_listings, os_path_exists, bind, try_except, json_load.
  destruct (st_file st) as [[| |j]|] eqn:Hfile; simpl; rewrite ?Hfile; simpl.
  - right. right. exists JSONDecodeError. unfold log. by rewrite Hfile.
  - right. left. exists RecursionError. reflexivity.
  - destruct j as [| | | | | |members]; simpl;
      try (right; left; exists AttributeError; reflexivity).
    destruct (stateless_for_fold members add_known [] stateless_add_known) as [r Hr].
    rewrite Hr. destruct r as [A|e].
    + left. exists A. split; [reflexivity|].
      eapply (for_fold_invariant (fun d => NoDup (dict_keys d))); only 3: exact (Hr st);
        [|apply NoDup_nil_2].
      intros acc x st1 acc' st1' Hacc. by apply add_known_NoDup.
    + destruct (caught_by_load e) eqn:He.
      * right. right. exists e. unfold log. by rewrite Hfile.
      * right. left. exists e. reflexivity.
  - left. exists []. split; [reflexivity|apply NoDup_nil_2].
Qed.

Lemma load_known_listings_run st :
  ∃ evs, load_known_listings st = (eval load_known_listings st, log st evs)
         ∧ (evs = [] ∨ ∃ e, evs = [Print (LoadError e)] ∧ eval load_known_listings st = Ok [])
         ∧ (∀ A, eval load_known_listings st = Ok A → NoDup (dict_keys A)).
Proof.
  unfold eval.
  destruct (load_known_listings_cases st) as [(A & H & Hnd)|[[e H]|[e [H _]]]]; rewrite H; simpl.
  - exists []. rewrite log_nil. split_and!; [done|by left|]. by intros ? [= <-].
  - exists []. rewrite log_nil. split_and!; [done|by left|done].
  - exists [Print (LoadError e)]. split_and!; [done|right; by exists e|].
    intros ? [= <-]. apply NoDup_nil_2.
Qed.

(** The line that loading may print names an exception that its handler
    caught. *)
Lemma load_known_listings_log st :
  ∃ evs, load_known_listings st = (eval load_known_listings st, log st evs)
         ∧ (evs = []
            ∨ ∃ e, evs = [Print (LoadError e)] ∧ caught_by_load e = true
                   ∧ eval load_known_listings st = Ok []).
Proof.
  unfold eval.
  destruct (load_known_listings_cases st) as [(A & H & Hnd)|[[e H]|[e [H He]]]]; rewrite H; simpl.
  - exists []. rewrite log_nil. split; [done|by left].
  - exists []. rewrite log_nil. split; [done|by left].
  - exists [Print (LoadError e)]. split; [done|right; by exists e].
Qed.

Lemma load_known_listings_NoDup st A :
  eval load_known_listings st = Ok A → NoDup (dict_keys A).
Proof. destruct (load_known_listings_run st) as (evs & _ & _ & H). apply H. Qed.

(** No state file: the empty dict, and nothing printed. *)
Lemma load_absent st : st_file st = None → load_known_listings st = (Ok [], st).
Proof.
  intros H. unfold load_known_listings, os_path_exists, bind. rewrite H. reflexivity.
Qed.

(** A file that is not JSON: the empty dict, after one line of log. *)
Lemma load_not_json st :
  st_file st = Some NotJson →
  load_known_listings st = (Ok [], log st [Print (LoadError JSONDecodeError)]).
Proof.
  intros H. load_from H. unfold log. by rewrite H.
Qed.

Lemma dict_keys_as_tuples (d : dict Z listing) : dict_keys (as_tuples d) = dict_keys d.
Proof.
  unfold dict_keys, as_tuples. rewrite <- list_fmap_compose.
  apply list_fmap_ext. by intros i [k v] _.
Qed.

(** The document written for a dict without repeated keys: its entries in
    order, the keys as decimal text and the tuples as arrays. *)
Lemma save_data_NoDup (d : dict Z tuple) :
  NoDup (dict_keys d) →
  save_data d = (fun kv => (Py.str kv.1, JArr kv.2)) <$> d.
Proof.
  intros Hnd. unfold save_data.
  set (g := fun kv : Z * tuple => (Py.str kv.1, JArr kv.2)).
  transitivity (foldl (fun data (kv : string * json) => dict_set kv.1 kv.2 data) [] (g <$> d)).
  { generalize (@nil (string * json)). clear Hnd.
    induction d as [|kv d IH]; intros acc; [done|]. simpl. apply IH. }
  rewrite foldl_set_fresh; [done|]. simpl.
  assert (dict_keys (g <$> d) = Py.str <$> dict_keys d) as ->.
  { unfold dict_keys. rewrite <- !list_fmap_compose. apply list_fmap_ext. by intros i [k v] _. }
  apply NoDup_fmap_2; [|done]. intros m n. apply str_inj.
Qed.

(** Reading back what was written for [d] builds [d] again. *)
Lemma for_fold_add_known (d : dict Z tuple) acc st :
  for_fold ((fun kv => (Py.str kv.1, JArr kv.2)) <$> d) add_known acc st
  = (Ok (foldl (fun acc kv => dict_set kv.1 kv.2 acc) acc d), st).
Proof.
  revert acc. induction d as [|[k v] d IH]; intros acc; [done|].
  simpl. unfold bind at 1. unfold add_known at 1. unfold bind.
  simpl. rewrite int_str. simpl. apply IH.
Qed.

Lemma load_saved (d : dict Z tuple) st :
  NoDup (dict_keys d) →
  st_file st = Some (Json (JObj (save_data d))) →
  load_known_listings st = (Ok d, st).
Proof.
  intros Hnd Hfile.
  remember (save_data d) as members eqn:Hm.
  load_from Hfile.
  rewrite Hm, (save_data_NoDup d Hnd), for_fold_add_known.
  by rewrite foldl_set_fresh.
Qed.

Lemma save_known_listings_run (d : dict Z tuple) st :
  save_known_listings d st
  = (Ok tt, State (Some (Json (JObj (save_data d))))
                  (st_trace st ++ [FileTruncate; FileDump (JObj (save_data d))])
                  (st_posts st)).
Proof.
  unfold save_known_listings, save_steps, for_each, bind, open_w, json_dump, ret. simpl.
  by rewrite <- app_assoc.
Qed.

(** ** New listings and their order *)

Lemma find_new_listings_filter (A : dict Z tuple) (B : dict Z listing) :
  NoDup (dict_keys B) →
  find_new_listings A B = filter (fun kv => negb (dict_in kv.1 A)) B.
Proof.
  unfold find_new_listings.
  enough (∀ acc : dict Z listing, NoDup (dict_keys acc ++ dict_keys B) →
    foldl (fun new_listings item =>
             let '(listing_id, (title, url)) := item in
             if dict_in listing_id A then new_listings
             else dict_set listing_id (title, url) new_listings) acc B
    = acc ++ filter (fun kv => negb (dict_in kv.1 A)) B) as H by (intros; by apply (H [])).
  induction B as [|[k [title url]] B IH]; intros acc Hnd.
  - by rewrite app_nil_r.
  - cbn [foldl]. rewrite filter_cons. cbn [fst].
    change (dict_keys ((k, (title, url)) :: B)) with (k :: dict_keys B) in Hnd.
    assert (NoDup (dict_keys acc ++ dict_keys B)) as Hnd'.
    { apply NoDup_app in Hnd as (H1 & H2 & H3). apply NoDup_cons in H3 as [_ H3].
      apply NoDup_app. split_and!; [done| |done].
      intros x Hx Hx'. apply (H2 x Hx). by right. }
    destruct (dict_in k A) eqn:Hin; simpl.
    + by apply IH.
    + assert (k ∉ dict_keys acc) as Hk.
      { apply NoDup_app in Hnd as (_ & H2 & _). intros Hx. apply (H2 k Hx). by left. }
      rewrite dict_set_fresh by done. rewrite IH.
      * by rewrite <- app_assoc.
      * unfold dict_keys in *. rewrite fmap_app. simpl.
        rewrite <- app_assoc. simpl.
        apply NoDup_app in Hnd as (H1 & H2 & H3). apply NoDup_cons in H3 as [H3 H4].
        apply NoDup_app. split_and!; [done| |by apply NoDup_cons].
        intros x Hx Hx'. apply (H2 x Hx). done.
Qed.

Section NewListings.
Context (A : dict Z tuple) (B : dict Z listing) (HB : NoDup (dict_keys B)).

Lemma elem_of_new_keys i :
  i ∈ dict_keys (find_new_listings A B) ↔ i ∈ dict_keys B ∧ i ∉ dict_keys A.
Proof using HB.
  rewrite find_new_listings_filter by done. unfold dict_keys at 1.
  rewrite list_elem_of_fmap. split.
  - intros ([k v] & -> & [Hp Hin]%list_elem_of_filter). simpl in *. split.
    + apply list_elem_of_fmap. by exists (k, v).
    + apply dict_in_false. by destruct (dict_in k A).
  - intros [([k v] & -> & Hin)%list_elem_of_fmap HnA]. exists (k, v). split; [done|].
    apply list_elem_of_filter. split; [|done]. simpl in *.
    apply dict_in_false in HnA. by rewrite HnA.
Qed.

Lemma NoDup_new_keys : NoDup (dict_keys (find_new_listings A B)).
Proof using HB.
  rewrite find_new_listings_filter by done. unfold dict_keys in *.
  eapply sublist_NoDup; [exact HB|]. apply fmap_sublist, sublist_filter.
Qed.

Lemma new_listing_url i :
  i ∈ dict_keys (find_new_listings A B) →
  listing_url (find_new_listings A B) i = listing_url B i.
Proof using HB.
  intros [_ HnA]%elem_of_new_keys. unfold listing_url.
  rewrite find_new_listings_filter by done.
  rewrite (dict_get_filter_key (fun k => negb (dict_in k A))); [done|].
  apply dict_in_false in HnA. by rewrite HnA.
Qed.

Lemma ids_new : ids (find_new_listings A B) = ids B ∖ ids A.
Proof using HB.
  unfold ids. apply set_eq. intros i.
  rewrite elem_of_difference, !elem_of_list_to_set. apply elem_of_new_keys.
Qed.

End NewListings.

Local Instance Z_ge_total : Total Z.ge.
Proof. intros x y. lia. Qed.

Local Instance Z_ge_trans : Transitive Z.ge.
Proof. intros x y z. lia. Qed.

Lemma sorted_reverse_perm keys : sorted_reverse keys ≡ₚ keys.
Proof. apply merge_sort_Permutation. Qed.

Lemma elem_of_sorted_reverse i keys : i ∈ sorted_reverse keys ↔ i ∈ keys.
Proof. by rewrite sorted_reverse_perm. Qed.

Lemma StronglySorted_ge_gt (l : list Z) :
  StronglySorted Z.ge l → NoDup l → StronglySorted Z.gt l.
Proof.
  induction 1 as [|x l Hl IH Hx]; intros Hnd; [constructor|].
  apply NoDup_cons in Hnd as [Hxl Hnd]. constructor; [by apply IH|].
  rewrite Forall_forall in *. intros y Hy. specialize (Hx y Hy).
  assert (x ≠ y) by (intros ->; done). lia.
Qed.

(** The order of the notifications: strictly descending when no key comes
    twice. *)
Lemma sorted_reverse_descending keys :
  NoDup keys → StronglySorted Z.gt (sorted_reverse keys).
Proof.
  intros Hnd. apply StronglySorted_ge_gt.
  - apply Sorted_StronglySorted; [apply _|]. apply Sorted_merge_sort. apply _.
  - by rewrite sorted_reverse_perm.
Qed.

(** ** Notifications *)

(** One call of [send_telegram_message] with both settings present: one
    POST, the log of its reply, and a boolean; never an exception. *)
Lemma send_telegram_message_run cfg net text st :
  configured cfg →
  send_telegram_message cfg net text st
  = (Ok (delivered (net_post net (st_posts st))),
     State (st_file st)
           (st_trace st ++ telegram_post cfg text :: send_log (net_post net (st_posts st)))
           (S (st_posts st))).
Proof.
  intros [Htoken Hchat]. unfold send_telegram_message.
  destruct (String.eqb_spec (TELEGRAM_BOT_TOKEN cfg) "") as [?|_]; [done|].
  destruct (String.eqb_spec (TELEGRAM_CHAT_ID cfg) "") as [?|_]; [done|].
  simpl. unfold try_except, bind, requests_post, telegram_post, send_log, delivered.
  destruct (net_post net (st_posts st)) as [e|status []]; simpl.
  - by rewrite <- !app_assoc.
  - rewrite raise_for_status_run. simpl.
    destruct ((400 <=? status)%Z && (status <? 600)%Z)%bool; simpl; by rewrite <- !app_assoc.
Qed.

(** The notification loop of [main] over identifiers of [new_listings]. *)
Lemma notify_loop_run cfg net (new_listings : dict Z listing) listing_ids st :
  configured cfg →
  (∀ i, i ∈ listing_ids → i ∈ dict_keys new_listings) →
  for_each listing_ids (fun listing_id =>
    entry <- or_raise KeyError (dict_get listing_id new_listings) ;;
    let '(title, url) := entry : listing in
    print (NewListing listing_id url) ;;
    send_telegram_message cfg net (message_text url) ;;
    emit (Sleep 500)) st
  = (Ok tt, State (st_file st)
                  (st_trace st ++ notify_log cfg net new_listings (st_posts st) listing_ids)
                  (st_posts st + length listing_ids)).
Proof.
  intros Hcfg. revert st. induction listing_ids as [|i rest IH]; intros st Hin.
  - simpl. unfold ret. destruct st. simpl. by rewrite app_nil_r, Nat.add_0_r.
  - cbn [for_each notify_log]. unfold listing_url.
    destruct (dict_get i new_listings) as [[title url]|] eqn:Hget.
    2:{ exfalso. apply dict_get_None in Hget. apply Hget, Hin. by left. }
    unfold bind at 1. unfold bind at 1. simpl. unfold bind at 1. rewrite print_run.
    unfold bind at 1. rewrite (send_telegram_message_run cfg net _ _ Hcfg).
    unfold bind at 1. rewrite emit_run. rewrite IH by (intros; apply Hin; by right).
    unfold log. simpl. f_equal. f_equal; [|lia].
    by rewrite <- !app_assoc.
Qed.

Lemma reported_ids_app tr1 tr2 : reported_ids (tr1 ++ tr2) = reported_ids tr1 ++ reported_ids tr2.
Proof. apply omap_app. Qed.

Lemma posted_texts_app tr1 tr2 : posted_texts (tr1 ++ tr2) = posted_texts tr1 ++ posted_texts tr2.
Proof. apply omap_app. Qed.

Lemma send_log_quiet r :
  reported_ids (send_log r) = [] ∧ posted_texts (send_log r) = []
  ∧ filter is_write (send_log r) = [] ∧ Forall (fun e => is_request e = false) (send_log r).
Proof.
  destruct r as [e|status []]; simpl; [by repeat constructor|].
  destruct ((400 <=? status)%Z && (status <? 600)%Z)%bool; by repeat constructor.
Qed.

Lemma notify_log_reported cfg net new_listings n listing_ids :
  reported_ids (notify_log cfg net new_listings n listing_ids) = listing_ids.
Proof.
  revert n. induction listing_ids as [|i rest IH]; intros n; [done|].
  cbn [notify_log]. rewrite !reported_ids_app, IH.
  destruct (send_log_quiet (net_post net n)) as (-> & _). done.
Qed.

Lemma notify_log_posted cfg net new_listings n listing_ids :
  posted_texts (notify_log cfg net new_listings n listing_ids)
  = (fun i => message_text (listing_url new_listings i)) <$> listing_ids.
Proof.
  revert n. induction listing_ids as [|i rest IH]; intros n; [done|].
  cbn [notify_log]. rewrite !posted_texts_app, IH.
  destruct (send_log_quiet (net_post net n)) as (_ & -> & _). done.
Qed.

Lemma notify_log_writes cfg net new_listings n listing_ids :
  filter is_write (notify_log cfg net new_listings n listing_ids) = [].
Proof.
  revert n. induction listing_ids as [|i rest IH]; intros n; [done|].
  cbn [notify_log]. rewrite !filter_app, IH.
  destruct (send_log_quiet (net_post net n)) as (_ & _ & -> & _). done.
Qed.

(** ** One run of [main] *)

(** Loading a non-empty dict prints nothing. *)
Lemma load_nonempty st A :
  eval load_known_listings st = Ok A → A ≠ [] → load_known_listings st = (Ok A, st).
Proof.
  intros HA Hne. destruct (load_known_listings_run st) as (evs & Hrun & [->|(e & _ & He)] & _).
  - by rewrite Hrun, HA, log_nil.
  - congruence.
Qed.

(** Loading the empty dict prints at most the line of the unreadable file. *)
Lemma load_empty st :
  eval load_known_listings st = Ok [] →
  ∃ evs, load_known_listings st = (Ok [], log st evs)
         ∧ (evs = [] ∨ ∃ e, evs = [Print (LoadError e)]).
Proof.
  intros HA. destruct (load_known_listings_run st) as (evs & Hrun & Hevs & _).
  exists evs. rewrite Hrun, HA. split; [done|]. destruct Hevs as [?|(e & ? & _)]; eauto.
Qed.

Lemma main_baseline cfg net file B evs :
  load_known_listings (initial file) = (Ok [], log (initial file) evs) →
  eval (get_all_listings cfg net) (initial file) = Ok B →
  main cfg net (initial file)
  = (Ok tt, State (Some (Json (JObj (save_data (as_tuples B)))))
                  (evs ++ [Print FirstRun; fetch_event cfg; FileTruncate;
                           FileDump (JObj (save_data (as_tuples B)));
                           Print (SavedBaseline (length B))])
                  0).
Proof.
  intros Hload Hfetch. unfold main.
  rewrite (bind_Ok _ _ _ _ _ Hload).
  unfold bind at 1. rewrite print_run, log_log.
  rewrite (bind_Ok _ _ _ _ _ (get_all_listings_eval cfg net _ _ _ Hfetch)), log_log.
  unfold bind at 1. rewrite save_known_listings_run.
  unfold bind, print, emit, ret, log, fetch_event. simpl.
  by rewrite <- !app_assoc.
Qed.

Lemma main_comparison cfg net file A B :
  configured cfg →
  eval load_known_listings (initial file) = Ok A → A ≠ [] →
  eval (get_all_listings cfg net) (initial file) = Ok B →
  main cfg net (initial file)
  = (Ok tt,
     State (Some (Json (JObj (save_data (dict_update A (as_tuples (find_new_listings A B)))))))
           (comparison_trace cfg net A B)
           (length (find_new_listings A B))).
Proof.
  intros Hcfg HA Hne HB. unfold main.
  rewrite (bind_Ok _ _ _ _ _ (load_nonempty _ _ HA Hne)).
  destruct A as [|a A']; [done|]. set (A := a :: A') in *.
  unfold bind at 1. rewrite print_run.
  unfold try_except.
  rewrite (bind_Ok _ _ _ _ _ (get_all_listings_eval cfg net _ _ _ HB)), log_log.
  unfold bind at 1. rewrite print_run, log_log.
  unfold comparison_trace.
  destruct (find_new_listings A B) as [|n new'] eqn:Hnew.
  - unfold bind at 1. rewrite print_run, log_log, save_known_listings_run.
    unfold log, initial, fetch_event. simpl. rewrite <- ?app_assoc. reflexivity.
  - rewrite <- Hnew. unfold bind at 1. rewrite print_run, log_log.
    unfold bind at 1. rewrite notify_loop_run; [|done|intros i; apply elem_of_sorted_reverse].
    unfold bind at 1. rewrite save_known_listings_run.
    unfold print, emit, log, initial, fetch_event. simpl.
    rewrite (Permutation_length (sorted_reverse_perm _)).
    unfold dict_keys. rewrite length_fmap, <- ?app_assoc. reflexivity.
Qed.

(** A run whose fetch raises [e]: [e] goes on to the caller, the state file
    is as it was, and nothing was written. *)
Lemma main_fetch_fails cfg net file A e :
  eval load_known_listings (initial file) = Ok A →
  eval (get_all_listings cfg net) (initial file) = Raise e →
  ∃ tr, main cfg net (initial file) = (Raise e, State file tr 0)
        ∧ filter is_write tr = [].
Proof.
  intros HA He. unfold main.
  destruct (load_known_listings_run (initial file)) as (evs & Hrun & Hevs & _).
  rewrite HA in Hrun. rewrite (bind_Ok _ _ _ _ _ Hrun).
  assert (filter is_write evs = []) as Hquiet
    by (destruct Hevs as [->|(x & -> & _)]; done).
  destruct A as [|a A'].
  - unfold bind at 1. rewrite print_run, log_log.
    rewrite (bind_Raise _ _ _ _ _ (get_all_listings_eval cfg net _ _ _ He)), log_log.
    eexists. split; [reflexivity|]. simpl. by rewrite !filter_app, Hquiet.
  - unfold bind at 1. rewrite print_run, log_log. unfold try_except.
    rewrite (bind_Raise _ _ _ _ _ (get_all_listings_eval cfg net _ _ _ He)), log_log.
    rewrite (get_all_listings_Exception _ _ _ _ He).
    unfold bind, print, emit, raise, log, initial. simpl.
    eexists. split; [reflexivity|]. by rewrite !filter_app, Hquiet.
Qed.

(** With its settings present, the process is [main]. *)
Lemma run_main env net file cfg :
  eval (load_config env) (initial file) = Ok cfg →
  run env net file = main cfg net (initial file) ∧ configured cfg.
Proof.
  intros [H Hcfg]%load_config_Ok. unfold run, program.
  by rewrite (bind_Ok _ _ _ _ _ (H _)).
Qed.

Lemma comparison_trace_reported cfg net A B :
  reported_ids (comparison_trace cfg net A B)
  = sorted_reverse (dict_keys (find_new_listings A B)).
Proof.
  unfold comparison_trace. destruct (find_new_listings A B) as [|n new'] eqn:Hnew; [done|].
  rewrite <- Hnew. rewrite !reported_ids_app, notify_log_reported. simpl.
  by rewrite app_nil_r.
Qed.

Lemma comparison_trace_posted cfg net A B :
  NoDup (dict_keys B) →
  posted_texts (comparison_trace cfg net A B)
  = (fun i => message_text (listing_url B i)) <$> sorted_reverse (dict_keys (find_new_listings A B)).
Proof.
  intros HB. unfold comparison_trace.
  destruct (find_new_listings A B) as [|n new'] eqn:Hnew; [done|].
  rewrite <- Hnew. rewrite !posted_texts_app, notify_log_posted. simpl.
  rewrite app_nil_r. apply list_fmap_ext. intros j i Hi. f_equal.
  apply new_listing_url; [done|]. apply elem_of_sorted_reverse.
  by eapply list_elem_of_lookup_2.
Qed.

Lemma comparison_trace_writes cfg net A B :
  filter is_write (comparison_trace cfg net A B)
  = [FileTruncate;
     FileDump (JObj (save_data (dict_update A (as_tuples (find_new_listings A B)))))].
Proof.
  unfold comparison_trace. destruct (find_new_listings A B) as [|n new'] eqn:Hnew; [done|].
  rewrite <- Hnew. rewrite !filter_app, notify_log_writes. done.
Qed.

(** * The claims *)

(** C1. In a comparison run (the known set [A] that was loaded is not
    empty) that fetched the set [B], the identifiers announced are exactly
    those of [B] that are not in [A], each once, and the texts sent to
    Telegram are the notifications of these identifiers, in the same order:
    no identifier of [A] is notified again. *)
Theorem reported_ids_are_the_new_ones env net file cfg A B :
  eval (load_config env) (initial file) = Ok cfg →
  eval load_known_listings (initial file) = Ok A →
  A ≠ [] →
  eval (get_all_listings cfg net) (initial file) = Ok B →
  let tr := st_trace (run env net file).2 in
  list_to_set (reported_ids tr) = ids B ∖ ids A
  ∧ NoDup (reported_ids tr)
  ∧ (∀ i, i ∈ reported_ids tr → i ∉ dict_keys A)
  ∧ posted_texts tr = (fun i => message_text (listing_url B i)) <$> reported_ids tr.
Proof.
  intros Hcfg HA Hne HB tr. subst tr.
  destruct (run_main env net file cfg Hcfg) as [-> Hconf].
  rewrite (main_comparison cfg net file A B Hconf HA Hne HB). cbn [snd st_trace].
  pose proof (get_all_listings_NoDup _ _ _ _ HB) as HndB.
  rewrite comparison_trace_reported, comparison_trace_posted by done.
  split_and!.
  - rewrite <- (ids_new A B HndB). unfold ids.
    apply set_eq. intros i. by rewrite !elem_of_list_to_set, elem_of_sorted_reverse.
  - rewrite sorted_reverse_perm. by apply NoDup_new_keys.
  - intros i Hi. apply (proj1 (elem_of_sorted_reverse _ _)) in Hi.
    by apply (proj1 (elem_of_new_keys A B HndB i)) in Hi as [_ ?].
  - done.
Qed.

Lemma reported_ids_are_the_new_ones_witness :
  let tr := st_trace (run Scenario.env Scenario.net Scenario.file).2 in
  list_to_set (reported_ids tr) = ids Scenario.current ∖ ids Scenario.known
  ∧ NoDup (reported_ids tr)
  ∧ (∀ i, i ∈ reported_ids tr → i ∉ dict_keys Scenario.known)
  ∧ posted_texts tr
    = (fun i => message_text (listing_url Scenario.current i)) <$> reported_ids tr.
Proof.
  apply (reported_ids_are_the_new_ones Scenario.env Scenario.net Scenario.file
           Scenario.cfg Scenario.known Scenario.current).
  - vm_compute. reflexivity.
  - vm_compute. reflexivity.
  - discriminate.
  - vm_compute. reflexivity.
Defined.

(** C3. In a comparison run every new identifier (each identifier of the
    fetched set [B] that is not in the known set [A]) is announced, and the
    announcements come in strictly descending order of identifier, so each
    one once; the texts sent to Telegram are the notifications of the
    announced identifiers, one for each, in the same order. *)
Theorem notifications_in_descending_order env net file cfg A B :
  eval (load_config env) (initial file) = Ok cfg →
  eval load_known_listings (initial file) = Ok A →
  A ≠ [] →
  eval (get_all_listings cfg net) (initial file) = Ok B →
  let tr := st_trace (run env net file).2 in
  StronglySorted Z.gt (reported_ids tr)
  ∧ (∀ i, i ∈ reported_ids tr ↔ i ∈ dict_keys B ∧ i ∉ dict_keys A)
  ∧ length (posted_texts tr) = length (reported_ids tr)
  ∧ posted_texts tr = (fun i => message_text (listing_url B i)) <$> reported_ids tr.
Proof.
  intros Hcfg HA Hne HB tr. subst tr.
  destruct (run_main env net file cfg Hcfg) as [-> Hconf].
  rewrite (main_comparison cfg net file A B Hconf HA Hne HB). cbn [snd st_trace].
  pose proof (get_all_listings_NoDup _ _ _ _ HB) as HndB.
  rewrite comparison_trace_reported, comparison_trace_posted by done.
  split_and!.
  - apply sorted_reverse_descending. by apply NoDup_new_keys.
  - intros i. rewrite elem_of_sorted_reverse. by apply elem_of_new_keys.
  - by rewrite length_fmap.
  - done.
Qed.

Lemma notifications_in_descending_order_witness :
  let tr := st_trace (run Scenario.env Scenario.net Scenario.file).2 in
  StronglySorted Z.gt (reported_ids tr)
  ∧ (∀ i, i ∈ reported_ids tr ↔ i ∈ dict_keys Scenario.current ∧ i ∉ dict_keys Scenario.known)
  ∧ length (posted_texts tr) = length (reported_ids tr)
  ∧ posted_texts tr
    = (fun i => message_text (listing_url Scenario.current i)) <$> reported_ids tr.
Proof.
  apply (notifications_in_descending_order Scenario.env Scenario.net Scenario.file
           Scenario.cfg Scenario.known Scenario.current).
  - vm_compute. reflexivity.
  - vm_compute. reflexivity.
  - discriminate.
  - vm_compute. reflexivity.
Defined.

(** The scenario of the specification: 103 is notified, then 102. *)
Example scenario_reported :
  reported_ids (st_trace (run Scenario.env Scenario.net Scenario.file).2) = [103; 102].
Proof. vm_compute. reflexivity. Qed.

(** C2. When the state file is absent, or what was loaded from it is the
    empty set, a run that fetched the set [B] sends no notification (its
    only request is the GET of the page), and leaves in the state file
    exactly [B]: the next load returns [B]. *)
Theorem baseline_run_saves_fetched_set env net file cfg B :
  eval (load_config env) (initial file) = Ok cfg →
  file = None ∨ eval load_known_listings (initial file) = Ok [] →
  eval (get_all_listings cfg net) (initial file) = Ok B →
  ∃ final,
    run env net file = (Ok tt, final)
    ∧ st_posts final = 0%nat
    ∧ posted_texts (st_trace final) = []
    ∧ reported_ids (st_trace final) = []
    ∧ filter is_request (st_trace final) = [fetch_event cfg]
    ∧ st_file final = Some (Json (JObj (save_data (as_tuples B))))
    ∧ eval load_known_listings (initial (st_file final)) = Ok (as_tuples B).
Proof.
  intros Hcfg Hfile HB.
  assert (eval load_known_listings (initial file) = Ok []) as HA.
  { destruct Hfile as [->|?]; [|done]. unfold eval. by rewrite load_absent. }
  destruct (load_empty _ HA) as (evs & Hload & Hevs).
  destruct (run_main env net file cfg Hcfg) as [-> _].
  rewrite (main_baseline cfg net file B evs Hload HB).
  eexists. split; [reflexivity|]. cbn [st_posts st_trace st_file].
  assert (posted_texts evs = [] ∧ reported_ids evs = [] ∧ filter is_request evs = [])
    as (Hp & Hr & Hq) by (destruct Hevs as [->|[e ->]]; done).
  rewrite posted_texts_app, reported_ids_app, filter_app, Hp, Hr, Hq.
  split_and!; try done.
  unfold eval. rewrite (load_saved (as_tuples B)); [done| |done].
  rewrite dict_keys_as_tuples. by eapply get_all_listings_NoDup.
Qed.

Lemma baseline_run_saves_fetched_set_witness :
  ∃ final,
    run Scenario.env Scenario.net None = (Ok tt, final)
    ∧ st_posts final = 0%nat
    ∧ posted_texts (st_trace final) = []
    ∧ reported_ids (st_trace final) = []
    ∧ filter is_request (st_trace final) = [fetch_event Scenario.cfg]
    ∧ st_file final = Some (Json (JObj (save_data (as_tuples Scenario.current))))
    ∧ eval load_known_listings (initial (st_file final)) = Ok (as_tuples Scenario.current).
Proof.
  apply (baseline_run_saves_fetched_set Scenario.env Scenario.net None Scenario.cfg
           Scenario.current).
  - vm_compute. reflexivity.
  - left. reflexivity.
  - vm_compute. reflexivity.
Defined.

(** The corrupt-state scenario of the specification, for a file that is not
    JSON: one line of log, then a baseline run. *)
Example corrupt_file_is_baseline :
  let r := run Scenario.env Scenario.net (Some NotJson) in
  r.1 = Ok tt ∧ st_posts r.2 = 0%nat
  ∧ eval load_known_listings (initial (st_file r.2)) = Ok (as_tuples Scenario.current).
Proof. vm_compute. done. Qed.

(** What makes the fetch raise: a failed request, a 4xx or 5xx status, or a
    page that the parser rejects. *)
Lemma fetch_failure_causes cfg net st :
  match net_get net (URL cfg) with
  | Failed e => eval (get_all_listings cfg net) st = Raise (RequestError e)
  | Response status body =>
      if ((400 <=? status)%Z && (status <? 600)%Z)%bool
      then eval (get_all_listings cfg net) st = Raise (HTTPError status)
      else body = Rejected → eval (get_all_listings cfg net) st = Raise ParserRejectedMarkup
  end.
Proof.
  unfold eval, get_all_listings, requests_get, bind. rewrite emit_run.
  destruct (net_get net (URL cfg)) as [e|status body]; [done|]. simpl.
  rewrite raise_for_status_run. simpl.
  destruct ((400 <=? status)%Z && (status <? 600)%Z)%bool; [done|]. by intros ->.
Qed.

Lemma fetch_failure_raises cfg net st e :
  fetch_failure (net_get net (URL cfg)) = Some e →
  eval (get_all_listings cfg net) st = Raise e.
Proof.
  pose proof (fetch_failure_causes cfg net st) as Hcauses. unfold fetch_failure, status_ok.
  destruct (net_get net (URL cfg)) as [e'|status body]; [by intros [= <-]|].
  destruct ((400 <=? status)%Z && (status <? 600)%Z)%bool; simpl; [by intros [= <-]|].
  destruct body; [|done]. intros [= <-]. by apply Hcauses.
Qed.

(** C6 as stated fails: a response whose status is not 2xx is not always a
    failure of the fetch. A reply [304] with a page without links is taken
    as a page without listings: the run of the scenario goes on, says that
    there is nothing new, writes the state file and exits with status 0. *)
Lemma not_modified_reply_is_processed :
  let r := run Scenario.env Scenario.net_not_modified Scenario.file in
  status_ok 304 = true
  ∧ r.1 = Ok tt
  ∧ exit_status r.1 = 0
  ∧ Print NoNew ∈ st_trace r.2
  ∧ filter is_write (st_trace r.2)
    = [FileTruncate; FileDump (JObj (save_data Scenario.known))].
Proof.
  split_and!.
  - reflexivity.
  - vm_compute. reflexivity.
  - vm_compute. reflexivity.
  - vm_compute. do 3 right. left.
  - vm_compute. reflexivity.
Qed.

(** C6, as amended. The failures of the fetch are its exceptions: a failed
    request, a response with a 4xx or 5xx status, a page that the parser
    rejects, and any other exception that [get_all_listings] raises. When
    the fetch fails so, the run ends with that same exception, so the
    process exits with a status that is not 0; the state file is as it was
    before the run and the run wrote nothing. *)
Theorem fetch_failure_aborts_before_any_write env net file cfg A e :
  eval (load_config env) (initial file) = Ok cfg →
  eval load_known_listings (initial file) = Ok A →
  fetch_failure (net_get net (URL cfg)) = Some e
  ∨ eval (get_all_listings cfg net) (initial file) = Raise e →
  ∃ final,
    run env net file = (Raise e, final)
    ∧ st_file final = file
    ∧ filter is_write (st_trace final) = []
    ∧ exit_status (run env net file).1 ≠ 0.
Proof.
  intros Hcfg HA Hfail.
  assert (eval (get_all_listings cfg net) (initial file) = Raise e) as He
    by (destruct Hfail as [Hfail|?]; [by apply fetch_failure_raises|done]).
  destruct (run_main env net file cfg Hcfg) as [-> _].
  destruct (main_fetch_fails cfg net file A e HA He) as (tr & -> & Hw).
  eexists. split_and!; [reflexivity|done|done|].
  pose proof (get_all_listings_Exception _ _ _ _ He) as Hexn.
  simpl. by destruct e.
Qed.

Lemma fetch_failure_aborts_before_any_write_witness :
  ∃ final,
    run Scenario.env Scenario.net_down Scenario.file = (Raise (HTTPError 503), final)
    ∧ st_file final = Scenario.file
    ∧ filter is_write (st_trace final) = []
    ∧ exit_status (run Scenario.env Scenario.net_down Scenario.file).1 ≠ 0.
Proof.
  apply (fetch_failure_aborts_before_any_write Scenario.env Scenario.net_down Scenario.file
           Scenario.cfg Scenario.known (HTTPError 503)).
  - vm_compute. reflexivity.
  - vm_compute. reflexivity.
  - left. reflexivity.
Defined.

(** A run that returns loaded its settings, loaded a known set and fetched
    the current one. *)
Lemma successful_run_inv env net file final :
  run env net file = (Ok tt, final) →
  ∃ cfg A B,
    eval (load_config env) (initial file) = Ok cfg
    ∧ eval load_known_listings (initial file) = Ok A
    ∧ eval (get_all_listings cfg net) (initial file) = Ok B.
Proof.
  intros Hrun.
  destruct (load_config_run env) as [(cfg & Hcfg & Hconf & _)|[msg Hfail]].
  2:{ unfold run, program in Hrun. by rewrite (bind_Raise _ _ _ _ _ (Hfail _)) in Hrun. }
  assert (eval (load_config env) (initial file) = Ok cfg) as Hc
    by (unfold eval; by rewrite Hcfg).
  destruct (run_main env net file cfg Hc) as [Hmain _]. rewrite Hmain in Hrun.
  exists cfg.
  destruct (eval load_known_listings (initial file)) as [A|e] eqn:HA.
  2:{ destruct (load_known_listings_run (initial file)) as (evs & Hl & _).
      rewrite HA in Hl. unfold main in Hrun.
      by rewrite (bind_Raise _ _ _ _ _ Hl) in Hrun. }
  exists A.
  destruct (eval (get_all_listings cfg net) (initial file)) as [B|e] eqn:HB.
  2:{ destruct (main_fetch_fails cfg net file A e HA HB) as (tr & Hm & _). congruence. }
  by exists B.
Qed.

(** What a run that returns leaves in the state file: the fetched set after
    a baseline run, the known set with the new listings added after a
    comparison run. Loading the file returns it. *)
Lemma successful_run_saved env net file cfg A B :
  eval (load_config env) (initial file) = Ok cfg →
  eval load_known_listings (initial file) = Ok A →
  eval (get_all_listings cfg net) (initial file) = Ok B →
  let saved := match A with
               | [] => as_tuples B
               | _ :: _ => dict_update A (as_tuples (find_new_listings A B))
               end in
  (run env net file).1 = Ok tt
  ∧ st_file (run env net file).2 = Some (Json (JObj (save_data saved)))
  ∧ NoDup (dict_keys saved)
  ∧ ∀ st, st_file st = st_file (run env net file).2 →
          load_known_listings st = (Ok saved, st).
Proof.
  intros Hcfg HA HB saved.
  destruct (run_main env net file cfg Hcfg) as [-> Hconf].
  assert (NoDup (dict_keys saved)) as Hnd.
  { subst saved. destruct A as [|a A'].
    - rewrite dict_keys_as_tuples. by eapply get_all_listings_NoDup.
    - apply NoDup_keys_update. by eapply load_known_listings_NoDup. }
  assert ((main cfg net (initial file)).1 = Ok tt
          ∧ st_file (main cfg net (initial file)).2 = Some (Json (JObj (save_data saved))))
    as [Hr Hf].
  { subst saved. destruct A as [|a A'].
    - destruct (load_empty _ HA) as (evs & Hload & _).
      by rewrite (main_baseline cfg net file B evs Hload HB).
    - by rewrite (main_comparison cfg net file _ B Hconf HA ltac:(done) HB). }
  split_and!; [done..|].
  intros st Hst. apply load_saved; [done|]. by rewrite Hst.
Qed.

(** C4. After a run that returns, whatever path it took and whatever it
    fetched, the set that the state file holds contains every identifier of
    the set that the file held before the run. *)
Theorem persisted_set_only_grows env net file final :
  run env net file = (Ok tt, final) →
  ∃ before after,
    eval load_known_listings (initial file) = Ok before
    ∧ eval load_known_listings (initial (st_file final)) = Ok after
    ∧ ids before ⊆ ids after
    ∧ ∀ i v, dict_get i before = Some v → dict_get i after = Some v.
Proof.
  intros Hrun. destruct (successful_run_inv _ _ _ _ Hrun) as (cfg & A & B & Hcfg & HA & HB).
  destruct (successful_run_saved env net file cfg A B Hcfg HA HB) as (_ & _ & _ & Hload).
  rewrite Hrun in Hload. cbn [snd] in Hload.
  eexists A, _. split; [done|]. split.
  { unfold eval. by rewrite (Hload (initial (st_file final))). }
  destruct A as [|a A']; [split; [set_solver|done]|].
  set (A := a :: A') in *. split.
  - unfold ids. intros i Hi. apply elem_of_list_to_set. apply elem_of_list_to_set in Hi.
    apply elem_of_keys_update. by left.
  - intros i v Hget. pose proof (get_all_listings_NoDup _ _ _ _ HB) as HndB.
    assert (i ∈ dict_keys A) as Hi by (apply dict_get_is_Some; eauto).
    unfold dict_update.
    assert (∀ k, k ∈ dict_keys (as_tuples (find_new_listings A B)) → k ≠ i) as Hfresh.
    { intros k Hk ->. rewrite dict_keys_as_tuples in Hk.
      by apply (elem_of_new_keys A B HndB) in Hk as [_ ?]. }
    revert Hget Hfresh. generalize (as_tuples (find_new_listings A B)). generalize A.
    intros d other. revert d. induction other as [|[k w] other IH]; intros d Hget Hfresh; [done|].
    cbn [foldl]. apply IH.
    + rewrite dict_get_set. rewrite decide_False; [done|].
      intros ->. eapply Hfresh; [|done]. by left.
    + intros k' Hk'. apply Hfresh. by right.
Qed.

Lemma persisted_set_only_grows_witness :
  ∃ before after,
    eval load_known_listings (initial Scenario.file) = Ok before
    ∧ eval load_known_listings
        (initial (st_file (run Scenario.env Scenario.net Scenario.file).2)) = Ok after
    ∧ ids before ⊆ ids after
    ∧ ∀ i v, dict_get i before = Some v → dict_get i after = Some v.
Proof.
  apply (persisted_set_only_grows Scenario.env Scenario.net Scenario.file
           (run Scenario.env Scenario.net Scenario.file).2).
  vm_compute. reflexivity.
Defined.

(** The scenario of the specification: the file ends with 100, 101, 103, 102. *)
Example scenario_persisted :
  ∃ after,
    eval load_known_listings
      (initial (st_file (run Scenario.env Scenario.net Scenario.file).2)) = Ok after
    ∧ dict_keys after = [100; 101; 103; 102].
Proof. eexists. split; vm_compute; reflexivity. Qed.

(** Nothing is new when every fetched identifier is known. *)
Lemma find_new_listings_none (K : dict Z tuple) (B : dict Z listing) :
  (∀ i, i ∈ dict_keys B → i ∈ dict_keys K) → find_new_listings K B = [].
Proof.
  unfold find_new_listings.
  match goal with |- _ → foldl ?f _ _ = _ =>
    enough (∀ acc, (∀ i, i ∈ dict_keys B → i ∈ dict_keys K) → foldl f acc B = acc) as H
      by apply H
  end.
  induction B as [|[k [title url]] B IH]; intros acc Hall; [done|].
  cbn [foldl]. assert (dict_in k K = true) as ->.
  { apply dict_in_true, Hall. by left. }
  apply IH. intros i Hi. apply Hall. by right.
Qed.

Lemma eval_state_independent_fetch cfg net st st' :
  eval (get_all_listings cfg net) st' = eval (get_all_listings cfg net) st.
Proof.
  unfold eval at 1. by rewrite (get_all_listings_eval cfg net st _ st' eq_refl).
Qed.

Lemma eval_state_independent_config env st st' :
  eval (load_config env) st' = eval (load_config env) st.
Proof.
  unfold eval. destruct (load_config_run env) as [(cfg & H & _)|[msg H]];
    by rewrite (H st), (H st').
Qed.

(** C5. Two comparison runs in a row that fetch the same set: the second
    one sends no notification, and the state file after it holds what it
    held after the first one. *)
Theorem second_run_changes_nothing env net1 net2 file cfg A B :
  eval (load_config env) (initial file) = Ok cfg →
  eval load_known_listings (initial file) = Ok A →
  A ≠ [] →
  eval (get_all_listings cfg net1) (initial file) = Ok B →
  eval (get_all_listings cfg net2) (initial file) = Ok B →
  let first := run env net1 file in
  let second := run env net2 (st_file first.2) in
  first.1 = Ok tt
  ∧ second.1 = Ok tt
  ∧ st_posts second.2 = 0%nat
  ∧ posted_texts (st_trace second.2) = []
  ∧ reported_ids (st_trace second.2) = []
  ∧ st_file second.2 = st_file first.2.
Proof.
  intros Hcfg HA Hne HB1 HB2 first second.
  destruct (successful_run_saved env net1 file cfg A B Hcfg HA HB1)
    as (Hfirst & Hfile & Hnd & Hload).
  fold first in Hfirst, Hfile, Hload.
  destruct A as [|a A']; [done|]. set (A := a :: A') in *.
  set (K := dict_update A (as_tuples (find_new_listings A B))) in *.
  pose proof (get_all_listings_NoDup _ _ _ _ HB1) as HndB.
  assert (eval load_known_listings (initial (st_file first.2)) = Ok K) as HK.
  { unfold eval. by rewrite (Hload (initial (st_file first.2))). }
  assert (K ≠ []) as HKne.
  { intros HK0. assert (a.1 ∈ dict_keys K) as Hin.
    { apply elem_of_keys_update. left. by left. }
    rewrite HK0 in Hin. by apply elem_of_nil in Hin. }
  assert (find_new_listings K B = []) as Hnone.
  { apply find_new_listings_none. intros i Hi. apply elem_of_keys_update.
    destruct (decide (i ∈ dict_keys A)) as [?|HnA]; [by left|right].
    rewrite dict_keys_as_tuples. by apply (elem_of_new_keys A B HndB). }
  assert (eval (load_config env) (initial (st_file first.2)) = Ok cfg) as Hcfg2
    by (by rewrite (eval_state_independent_config env (initial file))).
  assert (eval (get_all_listings cfg net2) (initial (st_file first.2)) = Ok B) as HB2'
    by (by rewrite (eval_state_independent_fetch cfg net2 (initial file))).
  split; [done|]. subst second.
  destruct (run_main env net2 (st_file first.2) cfg Hcfg2) as [-> Hconf].
  rewrite (main_comparison cfg net2 _ K B Hconf HK HKne HB2').
  cbn [fst snd st_posts st_trace st_file].
  rewrite comparison_trace_reported, comparison_trace_posted by done.
  rewrite Hnone. split_and!; try done.
Qed.

Lemma second_run_changes_nothing_witness :
  let first := run Scenario.env Scenario.net Scenario.file in
  let second := run Scenario.env Scenario.net (st_file first.2) in
  first.1 = Ok tt
  ∧ second.1 = Ok tt
  ∧ st_posts second.2 = 0%nat
  ∧ posted_texts (st_trace second.2) = []
  ∧ reported_ids (st_trace second.2) = []
  ∧ st_file second.2 = st_file first.2.
Proof.
  apply (second_run_changes_nothing Scenario.env Scenario.net Scenario.net Scenario.file
           Scenario.cfg Scenario.known Scenario.current).
  - vm_compute. reflexivity.
  - vm_compute. reflexivity.
  - discriminate.
  - vm_compute. reflexivity.
  - vm_compute. reflexivity.
Defined.

Lemma ids_update (A : dict Z tuple) (B : dict Z listing) :
  NoDup (dict_keys B) →
  ids (dict_update A (as_tuples (find_new_listings A B))) = ids A ∪ ids B.
Proof.
  intros HndB. unfold ids. apply set_eq. intros i.
  rewrite elem_of_union, !elem_of_list_to_set, elem_of_keys_update, dict_keys_as_tuples.
  rewrite (elem_of_new_keys A B HndB).
  destruct (decide (i ∈ dict_keys A)); tauto.
Qed.

(** C9. Sending a message never raises: it makes one POST and returns
    whether it was delivered; when the request fails (any exception of the
    transport, a timeout among them) or the response is not a success, it
    prints the error and returns false. So in a comparison run, whichever
    POSTs fail, there is one attempt for every new identifier, the run
    returns, and the state file ends with the known set and every fetched
    identifier, those whose notification failed among them. *)
Theorem delivery_failure_is_not_fatal env net file cfg A B :
  eval (load_config env) (initial file) = Ok cfg →
  eval load_known_listings (initial file) = Ok A →
  A ≠ [] →
  eval (get_all_listings cfg net) (initial file) = Ok B →
  (∀ text st, ∃ evs,
      send_telegram_message cfg net text st
      = (Ok (delivered (net_post net (st_posts st))),
         State (st_file st) (st_trace st ++ telegram_post cfg text :: evs) (S (st_posts st)))
      ∧ (delivered (net_post net (st_posts st)) = false → ∃ e, Print (SendError e) ∈ evs))
  ∧ (run env net file).1 = Ok tt
  ∧ posted_texts (st_trace (run env net file).2)
    = (fun i => message_text (listing_url B i))
        <$> sorted_reverse (dict_keys (find_new_listings A B))
  ∧ st_posts (run env net file).2 = length (find_new_listings A B)
  ∧ ∃ after,
      eval load_known_listings (initial (st_file (run env net file).2)) = Ok after
      ∧ ids after = ids A ∪ ids B.
Proof.
  intros Hcfg HA Hne HB.
  pose proof (get_all_listings_NoDup _ _ _ _ HB) as HndB.
  destruct (successful_run_saved env net file cfg A B Hcfg HA HB) as (Hr & _ & _ & Hload).
  destruct (run_main env net file cfg Hcfg) as [Hmain Hconf].
  split_and!.
  - intros text st. exists (send_log (net_post net (st_posts st))).
    split; [by apply send_telegram_message_run|].
    unfold delivered, send_log. destruct (net_post net (st_posts st)) as [e|status []].
    + intros _. eexists. by left.
    + intros ->%negb_false_iff. eexists. by left.
  - done.
  - rewrite Hmain, (main_comparison cfg net file A B Hconf HA Hne HB). cbn [snd st_trace].
    by apply comparison_trace_posted.
  - by rewrite Hmain, (main_comparison cfg net file A B Hconf HA Hne HB).
  - eexists. split.
    + unfold eval. by rewrite (Hload (initial _)).
    + destruct A as [|a A']; [done|]. by apply ids_update.
Qed.

Lemma delivery_failure_is_not_fatal_witness :
  (∀ text st, ∃ evs,
      send_telegram_message Scenario.cfg Scenario.net text st
      = (Ok (delivered (net_post Scenario.net (st_posts st))),
         State (st_file st) (st_trace st ++ telegram_post Scenario.cfg text :: evs)
               (S (st_posts st)))
      ∧ (delivered (net_post Scenario.net (st_posts st)) = false
         → ∃ e, Print (SendError e) ∈ evs))
  ∧ (run Scenario.env Scenario.net Scenario.file).1 = Ok tt
  ∧ posted_texts (st_trace (run Scenario.env Scenario.net Scenario.file).2)
    = (fun i => message_text (listing_url Scenario.current i))
        <$> sorted_reverse (dict_keys (find_new_listings Scenario.known Scenario.current))
  ∧ st_posts (run Scenario.env Scenario.net Scenario.file).2
    = length (find_new_listings Scenario.known Scenario.current)
  ∧ ∃ after,
      eval load_known_listings
        (initial (st_file (run Scenario.env Scenario.net Scenario.file).2)) = Ok after
      ∧ ids after = ids Scenario.known ∪ ids Scenario.current.
Proof.
  apply (delivery_failure_is_not_fatal Scenario.env Scenario.net Scenario.file
           Scenario.cfg Scenario.known Scenario.current).
  - vm_compute. reflexivity.
  - vm_compute. reflexivity.
  - discriminate.
  - vm_compute. reflexivity.
Defined.

(** The scenario: the POST for 103 times out, the one for 102 is still
    made, and 103 is in the file. *)
Example scenario_failed_delivery :
  let r := run Scenario.env Scenario.net Scenario.file in
  delivered (net_post Scenario.net 0) = false
  ∧ Print (SendError (RequestError Timeout)) ∈ st_trace r.2
  ∧ st_posts r.2 = 2%nat
  ∧ ∃ after, eval load_known_listings (initial (st_file r.2)) = Ok after
             ∧ dict_in 103 after = true.
Proof.
  split_and!; [done| |done|].
  - vm_compute. do 6 right. left.
  - eexists. split; vm_compute; reflexivity.
Qed.

(** ** Missing settings *)

Lemma get_required_env_delete env key k description :
  env !! key = Some "" →
  get_required_env env k description = get_required_env (delete key env) k description.
Proof.
  intros Hkey. unfold get_required_env. destruct (decide (k = key)) as [->|Hne].
  - by rewrite lookup_delete_eq, Hkey.
  - by rewrite lookup_delete_ne.
Qed.

(** C10. A required setting that is the empty string counts as one that is
    not set: [get_required_env] does the same in both cases, and so does
    the whole process, which prints the error of a missing setting and exits
    with status 1, having made no request and left the state file alone. *)
Theorem empty_setting_is_missing env net file key :
  key ∈ ["URL"; "TELEGRAM_BOT_TOKEN"; "TELEGRAM_CHAT_ID"] →
  env !! key = Some "" →
  (∀ description st,
      get_required_env env key description st
      = get_required_env (delete key env) key description st)
  ∧ run env net file = run (delete key env) net file
  ∧ (∃ msg, run env net file
            = (Raise (SystemExit 1), State file [Print (EnvError msg); Print EnvHint] 0))
  ∧ exit_status (run env net file).1 = 1.
Proof.
  intros Hkey Hempty.
  assert (∃ msg, run env net file
            = (Raise (SystemExit 1), State file [Print (EnvError msg); Print EnvHint] 0))
    as [msg Hrun].
  { destruct (load_config_run env) as [(cfg & _ & _ & Hall)|[msg Hfail]].
    - destruct (Hall key Hkey) as (v & Hv & Hne). congruence.
    - exists msg. unfold run, program. by rewrite (bind_Raise _ _ _ _ _ (Hfail _)). }
  split_and!.
  - intros description st. by rewrite (get_required_env_delete env key key description).
  - unfold run, program, load_config.
    by rewrite !(get_required_env_delete env key _ _ Hempty).
  - by exists msg.
  - by rewrite Hrun.
Qed.

Lemma empty_setting_is_missing_witness :
  (∀ description st,
      get_required_env Scenario.env_empty_chat "TELEGRAM_CHAT_ID" description st
      = get_required_env (delete "TELEGRAM_CHAT_ID" Scenario.env_empty_chat)
          "TELEGRAM_CHAT_ID" description st)
  ∧ run Scenario.env_empty_chat Scenario.net Scenario.file
    = run (delete "TELEGRAM_CHAT_ID" Scenario.env_empty_chat) Scenario.net Scenario.file
  ∧ (∃ msg, run Scenario.env_empty_chat Scenario.net Scenario.file
            = (Raise (SystemExit 1),
               State Scenario.file [Print (EnvError msg); Print EnvHint] 0))
  ∧ exit_status (run Scenario.env_empty_chat Scenario.net Scenario.file).1 = 1.
Proof.
  apply (empty_setting_is_missing Scenario.env_empty_chat Scenario.net Scenario.file
           "TELEGRAM_CHAT_ID").
  - do 2 right. left.
  - vm_compute. reflexivity.
Defined.

(** The error printed for the empty chat identifier. *)
Example empty_chat_id_message :
  st_trace (run Scenario.env_empty_chat Scenario.net Scenario.file).2
  = [Print (EnvError ("Required environment variable 'TELEGRAM_CHAT_ID' is not set. "
                      +:+ "Your Telegram chat ID from @userinfobot"));
     Print EnvHint].
Proof. vm_compute. reflexivity. Qed.

(** ** Unreadable state files *)

(** A key that is not an integer stops the comprehension with [ValueError],
    when the values before it can all be made tuples. *)
Lemma for_fold_add_known_bad_key members acc st :
  Forall (fun kv : string * json => iterable kv.2 = true) members →
  Exists (fun kv : string * json => Py.int kv.1 = None) members →
  for_fold members add_known acc st = (Raise ValueError, st).
Proof.
  intros Hiter Hbad. revert acc.
  induction members as [|[k v] members IH]; intros acc; [by apply Exists_nil in Hbad|].
  apply Forall_cons in Hiter as [Hv Hiter].
  cbn [for_fold]. unfold bind at 1. unfold add_known, bind. cbn [fst snd].
  destruct (Py.int k) as [n|] eqn:Hk; [|done]. cbn [or_raise ret].
  apply Exists_cons in Hbad as [Hbad|Hbad]; [simpl in Hbad; congruence|].
  destruct v; try done; simpl; by apply IH.
Qed.

(** Entries with integer keys and iterable values are all taken, whatever
    the values are. *)
Lemma for_fold_add_known_good members acc st :
  Forall (fun kv : string * json => iterable kv.2 = true ∧ is_Some (Py.int kv.1)) members →
  ∃ d, for_fold members add_known acc st = (Ok d, st)
       ∧ ∀ i, i ∈ dict_keys d
              ↔ i ∈ dict_keys acc ∨ ∃ kv, kv ∈ members ∧ Py.int kv.1 = Some i.
Proof.
  intros Hgood. revert acc.
  induction members as [|[k v] members IH]; intros acc.
  - exists acc. split; [done|]. intros i. split; [by left|].
    intros [?|(kv & Hkv & _)]; [done|]. by apply elem_of_nil in Hkv.
  - apply Forall_cons in Hgood as [[Hv [n Hk]] Hgood]. cbn [fst snd] in Hv, Hk.
    assert (∃ t, add_known acc (k, v) st = (Ok (dict_set n t acc), st)) as [t Hadd].
    { unfold add_known, bind. cbn [fst snd]. rewrite Hk. cbn [or_raise ret].
      destruct v; try done; by eexists. }
    destruct (IH Hgood (dict_set n t acc)) as (d & Hd & Hkeys).
    exists d. cbn [for_fold]. rewrite (bind_Ok _ _ _ _ _ Hadd). split; [done|].
    intros i. rewrite Hkeys, elem_of_keys_set. split.
    + intros [[->|?]|(kv & Hkv & Hi)]; [right|by left|right].
      * exists (k, v). split; [by left|done].
      * exists kv. split; [by right|done].
    + intros [?|(kv & Hkv & Hi)]; [by left; right|].
      apply elem_of_cons in Hkv as [->|Hkv]; [|right; by exists kv].
      left. left. cbn [fst] in Hi. congruence.
Qed.

(** The integer of the key of an entry that is taken is within the default
    limit of the interpreter on the decimal text of an [int]. *)
Lemma loadable_within_limit members kv i :
  Forall loadable members → kv ∈ members → Py.int kv.1 = Some i →
  (String.length (Py.str i) ≤ Py.max_str_digits)%nat.
Proof.
  intros Hloadable Hkv Hi%int_length.
  pose proof (proj1 (Forall_forall _ _) Hloadable kv Hkv) as (_ & _ & Hlen). lia.
Qed.

Lemma loadable_good members :
  Forall loadable members →
  Forall (fun kv : string * json => iterable kv.2 = true ∧ is_Some (Py.int kv.1)) members.
Proof. intros H. eapply Forall_impl; [exact H|]. by intros kv (? & ? & _). Qed.

(** C7, as amended. A state file that is not JSON, or a JSON object with a
    key that is not the text of an integer (all its values being lists,
    strings or objects), is not an error: loading prints the condition and
    returns the empty set, and the run goes on as a baseline run. The
    entries are not checked to be [title, url] pairs: an object whose keys
    are texts of integers (of at most 4300 bytes, so within the default
    limit of [int] on the number of digits) and whose values are lists,
    strings or objects loads, with nothing printed, as the set of the
    integers of its keys, none of which has more than 4300 digits. *)
Theorem unreadable_state_is_empty env net file cfg B :
  eval (load_config env) (initial (Some file)) = Ok cfg →
  eval (get_all_listings cfg net) (initial (Some file)) = Ok B →
  file = NotJson
  ∨ (∃ members, file = Json (JObj members)
                ∧ Forall (fun kv => iterable kv.2 = true) members
                ∧ Exists (fun kv => Py.int kv.1 = None) members) →
  (∃ e, caught_by_load e = true
        ∧ ∀ st, st_file st = Some file →
                load_known_listings st = (Ok [], log st [Print (LoadError e)]))
  ∧ (run env net (Some file)).1 = Ok tt
  ∧ st_posts (run env net (Some file)).2 = 0%nat
  ∧ st_file (run env net (Some file)).2 = Some (Json (JObj (save_data (as_tuples B))))
  ∧ ∀ members st,
      st_file st = Some (Json (JObj members)) →
      Forall loadable members →
      ∃ known, load_known_listings st = (Ok known, st)
               ∧ (∀ i, i ∈ dict_keys known ↔ ∃ kv, kv ∈ members ∧ Py.int kv.1 = Some i)
               ∧ ∀ i, i ∈ dict_keys known →
                      (String.length (Py.str i) ≤ Py.max_str_digits)%nat.
Proof.
  intros Hcfg HB Hfile.
  assert (∃ e, caught_by_load e = true
               ∧ ∀ st, st_file st = Some file →
                       load_known_listings st = (Ok [], log st [Print (LoadError e)]))
    as (e & He & Hload).
  { destruct Hfile as [->|(members & -> & Hiter & Hbad)].
    - exists JSONDecodeError. split; [done|]. intros st. apply load_not_json.
    - exists ValueError. split; [done|]. intros st Hst.
      load_from Hst.
      rewrite (for_fold_add_known_bad_key members [] st Hiter Hbad). simpl.
      unfold log. by rewrite Hst. }
  split; [by exists e|].
  destruct (run_main env net (Some file) cfg Hcfg) as [-> _].
  rewrite (main_baseline cfg net (Some file) B _ (Hload (initial (Some file)) eq_refl) HB).
  split_and!; [done..|].
  intros members st Hst Hloadable.
  destruct (for_fold_add_known_good members [] st (loadable_good _ Hloadable))
    as (d & Hd & Hkeys).
  assert (∀ i, i ∈ dict_keys d ↔ ∃ kv, kv ∈ members ∧ Py.int kv.1 = Some i) as Hkeys'.
  { intros i. rewrite Hkeys. split; [|by right].
    intros [Hi|?]; [|done]. by apply elem_of_nil in Hi. }
  exists d. split_and!; [|done|].
  - load_from Hst. by rewrite Hd.
  - intros i (kv & Hkv & Hi)%Hkeys'. by apply (loadable_within_limit members kv).
Qed.

Lemma unreadable_state_is_empty_witness :
  (∃ e, caught_by_load e = true
        ∧ ∀ st, st_file st = Some (Json (JObj [("101", JArr []); ("abc", JArr [])])) →
                load_known_listings st = (Ok [], log st [Print (LoadError e)]))
  ∧ (run Scenario.env Scenario.net (Some (Json (JObj [("101", JArr []); ("abc", JArr [])])))).1
    = Ok tt
  ∧ st_posts (run Scenario.env Scenario.net
                (Some (Json (JObj [("101", JArr []); ("abc", JArr [])])))).2 = 0%nat
  ∧ st_file (run Scenario.env Scenario.net
               (Some (Json (JObj [("101", JArr []); ("abc", JArr [])])))).2
    = Some (Json (JObj (save_data (as_tuples Scenario.current))))
  ∧ ∀ members st,
      st_file st = Some (Json (JObj members)) →
      Forall loadable members →
      ∃ known, load_known_listings st = (Ok known, st)
               ∧ (∀ i, i ∈ dict_keys known ↔ ∃ kv, kv ∈ members ∧ Py.int kv.1 = Some i)
               ∧ ∀ i, i ∈ dict_keys known →
                      (String.length (Py.str i) ≤ Py.max_str_digits)%nat.
Proof.
  apply (unreadable_state_is_empty Scenario.env Scenario.net
           (Json (JObj [("101", JArr []); ("abc", JArr [])])) Scenario.cfg Scenario.current).
  - vm_compute. reflexivity.
  - vm_compute. reflexivity.
  - right. eexists. split; [reflexivity|]. split.
    + repeat constructor.
    + apply Exists_cons_tl, Exists_cons_hd. vm_compute. reflexivity.
Defined.

(** C7 as stated fails: an entry that is not a [title, url] pair is not
    seen as corrupt. The file [{"101": ["House"]}] loads as a set with the
    identifier 101, nothing is printed, and the run is a comparison run. *)
Lemma malformed_entry_is_kept :
  let st := initial (Some (Json (JObj [("101", JArr [JStr "House"])]))) in
  load_known_listings st = (Ok [(101, [JStr "House"])], st)
  ∧ eval load_known_listings st ≠ Ok []
  ∧ Print (LoadedKnown 1)
    ∈ st_trace (run Scenario.env Scenario.net (st_file st)).2.
Proof.
  split_and!.
  - vm_compute. reflexivity.
  - vm_compute. discriminate.
  - vm_compute. left.
Qed.

(** Outside the amended claim: a value that is not iterable, or a document
    that is not an object, makes the load raise an exception that its
    [except] clause does not name, and the run fails before it fetches. *)
Example null_entry_raises :
  run Scenario.env Scenario.net (Some (Json (JObj [("101", JNull)])))
  = (Raise TypeError, initial (Some (Json (JObj [("101", JNull)])))).
Proof. vm_compute. reflexivity. Qed.

Example array_document_raises :
  run Scenario.env Scenario.net (Some (Json (JArr [])))
  = (Raise AttributeError, initial (Some (Json (JArr [])))).
Proof. vm_compute. reflexivity. Qed.

(** So does a document nested too deeply for [json.load]. *)
Example deep_document_raises :
  run Scenario.env Scenario.net (Some TooDeep)
  = (Raise RecursionError, initial (Some TooDeep)).
Proof. vm_compute. reflexivity. Qed.

(** Keys that [int] reads, and keys that it does not: the digits of any
    script and the spaces of Unicode are read, the separator U+001F is not
    a space. *)
Example key_with_arabic_digits :
  eval load_known_listings (initial (Some (Json (JObj [("٣٤", JArr [])])))) = Ok [(34, [])].
Proof. vm_compute. reflexivity. Qed.

Example key_with_unit_separator :
  load_known_listings
    (initial (Some (Json (JObj [(String (ascii_of_nat 31) "7", JArr [])]))))
  = (Ok [], log (initial (Some (Json (JObj [(String (ascii_of_nat 31) "7", JArr [])]))))
              [Print (LoadError ValueError)]).
Proof. vm_compute. reflexivity. Qed.

(** ** Interrupted saves *)

(** C8 as stated fails: the save cuts the file to length zero before it
    writes, so a process that dies between the two leaves a file that is
    not JSON where a readable one was. *)
Lemma interrupted_save_leaves_unreadable_file :
  let st := initial Scenario.file in
  readable (st_file st)
  ∧ ¬ readable (st_file (interrupted 1 (save_steps Scenario.known) st))
  ∧ eval json_load (interrupted 1 (save_steps Scenario.known) st) = Raise JSONDecodeError.
Proof.
  split_and!.
  - split; discriminate.
  - intros [H _]. by apply H.
  - vm_compute. reflexivity.
Qed.

(** C8, as amended. The save writes in place: it cuts the file, then writes
    the document. A process that dies before the first step leaves the file
    as it was; one that dies between the two leaves a file that is not
    JSON, from which the next load recovers by printing the condition and
    returning the empty set; the complete save leaves the document of the
    set, which loads back as the set. *)
Theorem save_is_truncate_then_write (listings : dict Z tuple) st n :
  NoDup (dict_keys listings) →
  let st' := interrupted n (save_steps listings) st in
  match n with
  | 0%nat => st_file st' = st_file st
  | 1%nat =>
      st_file st' = Some NotJson
      ∧ load_known_listings st' = (Ok [], log st' [Print (LoadError JSONDecodeError)])
  | _ =>
      st' = exec (save_known_listings listings) st
      ∧ st_file st' = Some (Json (JObj (save_data listings)))
      ∧ load_known_listings st' = (Ok listings, st')
  end.
Proof.
  intros Hnd st'. destruct n as [|[|n]]; subst st'.
  - done.
  - split; [done|]. by apply load_not_json.
  - assert (interrupted (S (S n)) (save_steps listings) st
            = exec (save_known_listings listings) st) as ->.
    { unfold exec at 1. rewrite save_known_listings_run. cbn [snd].
      unfold save_steps. cbn [interrupted].
      assert (∀ m s, interrupted m [] s = s) as -> by (by intros []).
      unfold exec, open_w, json_dump. simpl. by rewrite <- app_assoc. }
    unfold exec. rewrite save_known_listings_run. cbn [snd st_file].
    split_and!; [done..|]. by apply load_saved.
Qed.

Lemma save_is_truncate_then_write_witness :
  let st' := interrupted 1 (save_steps Scenario.known) (initial Scenario.file) in
  st_file st' = Some NotJson
  ∧ load_known_listings st' = (Ok [], log st' [Print (LoadError JSONDecodeError)]).
Proof.
  apply (save_is_truncate_then_write Scenario.known (initial Scenario.file) 1).
  apply (bool_decide_unpack _). vm_compute. exact I.
Defined.

(** ** The helpers at work *)

Example int_of_padded_text : Py.int " 42 " = Some 42.
Proof. reflexivity. Qed.

Example int_of_grouped_digits : Py.int "-1_000" = Some (-1000).
Proof. reflexivity. Qed.

Example int_of_leading_zeros : Py.int "007" = Some 7.
Proof. reflexivity. Qed.

Example int_of_letters : Py.int "abc" = None.
Proof. reflexivity. Qed.

Example int_of_fullwidth_digits : Py.int "４２" = Some 42.
Proof. vm_compute. reflexivity. Qed.

Example int_of_mixed_scripts : Py.int "-١_２3" = Some (-123).
Proof. vm_compute. reflexivity. Qed.

(** The no-break space U+00A0 is skipped. *)
Example int_of_no_break_space :
  Py.int (String (ascii_of_nat 194) (String (ascii_of_nat 160) "7")) = Some 7.
Proof. vm_compute. reflexivity. Qed.

(** The separator U+001C is not. *)
Example int_of_file_separator : Py.int (String (ascii_of_nat 28) "7") = None.
Proof. vm_compute. reflexivity. Qed.

Example int_of_superscript : Py.int "²" = None.
Proof. vm_compute. reflexivity. Qed.

Example int_of_double_underscore : Py.int "1__0" = None.
Proof. reflexivity. Qed.

Example str_of_negative : Py.str (-305) = "-305".
Proof. reflexivity. Qed.

Example search_primary_shape : re_search "/dom/100?rank=1" = Some "100".
Proof. reflexivity. Qed.

Example search_dacha_shape : re_search "https://re.kufar.by/dom/dacha/12a" = Some "12".
Proof. reflexivity. Qed.

Example search_backtracks : re_search "/dom/dacha/x/dom/77" = Some "77".
Proof. reflexivity. Qed.

Example search_no_listing : re_search "/about" = None.
Proof. reflexivity. Qed.

Example search_devanagari_digits : re_search "/dom/१२x" = Some "१२".
Proof. vm_compute. reflexivity. Qed.

(** Two links to the same listing: the later one gives the title and URL,
    at the place of the first. *)
Example last_link_wins :
  eval (get_all_listings Scenario.cfg
          (Network (fun _ => Response 200
                               (Soup [Anchor (Some "/dom/7") "old"; Anchor (Some "/dom/8") "b";
                                      Anchor (Some "/dom/dacha/7?x=1") "new"]))
                   (fun _ => Response 200 tt)))
       (initial None)
  = Ok [(7, ("new", "https://re.kufar.by/dom/dacha/7"));
        (8, ("b", "https://re.kufar.by/dom/8"))].
Proof. vm_compute. reflexivity. Qed.

(** * Further properties of the code *)

(** ** The extraction of listings *)

(** [int] reads the digits at the head of a list of characters as ASCII
    digits, one for each. *)
Lemma digit_run_ascii cs :
  ∃ t, Py.ascii_of_chars (Py.chars (digit_run cs)) = Some t
       ∧ all_digits t = true ∧ (digit_run cs ≠ "" → t ≠ "")
       ∧ (String.length t ≤ String.length (digit_run cs))%nat.
Proof.
  induction cs as [|ch cs (t & Ht & Hdigits & Hne & Hlen)]; [by exists ""|].
  cbn [digit_run]. destruct (Py.is_decimal ch) eqn:Hch; [|by exists ""].
  destruct (ascii_of_decimal ch Hch) as (cp & c & Hcp & Hc & Hdigit).
  exists (String c t). rewrite (chars_app_char ch cp _ Hcp). cbn [Py.ascii_of_chars].
  rewrite Hc. cbn [mbind option_bind]. rewrite Ht. split_and!; [done| |done|].
  - cbn [all_digits]. by rewrite Hdigit.
  - apply code_point_utf8_len in Hcp as (a & rest & -> & _).
    rewrite length_append. cbn [String.length]. lia.
Qed.

Lemma uint_of_digits s :
  all_digits s = true → ∃ d, NilEmpty.uint_of_string s = Some d.
Proof.
  induction s as [|c s IH]; [by eexists|]. simpl. intros [Hc Hs]%andb_true_iff.
  destruct (IH Hs) as [d ->].
  destruct c as [[] [] [] [] [] [] [] []]; try done; by eexists.
Qed.

(** A run of one or more digits, of whatever scripts, is the text of a
    natural number, whose decimal text is no longer than the run. *)
Lemma int_of_digit_run cs :
  digit_run cs ≠ "" →
  ∃ n, Py.int (digit_run cs) = Some n ∧ 0 ≤ n
       ∧ (String.length (Py.str n) ≤ String.length (digit_run cs))%nat.
Proof.
  intros Hne. destruct (digit_run_ascii cs) as (t & Ht & Hdigits & Hnonempty & Hlen).
  destruct (uint_of_digits t Hdigits) as [d Hd].
  destruct (int_of_ascii_digits t d Hdigits (Hnonempty Hne) Hd) as [H _].
  unfold Py.int. rewrite Ht. cbn [mbind option_bind]. rewrite H.
  eexists. split_and!; [done|unfold Z.of_uint; lia|].
  pose proof (uint_of_string_length t d Hd) as Hnb.
  assert (d ≠ Nil) as Hnil.
  { intros ->. specialize (Hnonempty Hne). destruct t; [done|]. simpl in Hnb. lia. }
  pose proof (str_of_uint_length d Hnil). lia.
Qed.

Lemma digit_run_chars_length fuel s :
  (String.length (digit_run (Py.chars_fuel fuel s)) ≤ String.length s)%nat.
Proof.
  revert s. induction fuel as [|fuel IH]; intros s; [simpl; lia|].
  destruct s as [|c s]; [done|]. cbn [Py.chars_fuel].
  pose proof (take_bytes_lengths (Py.utf8_len c - 1) s) as Hlen.
  destruct (Py.take_bytes (Py.utf8_len c - 1) s) as [a b]. cbn [fst snd] in Hlen.
  cbn [digit_run]. destruct (Py.is_decimal (String c a)); [|simpl; lia].
  change (String c a +:+ digit_run (Py.chars_fuel fuel b))
    with (String c (a +:+ digit_run (Py.chars_fuel fuel b))).
  cbn [String.length]. rewrite length_append. specialize (IH b). lia.
Qed.

Lemma match_slash_digits_int s ds :
  match_slash_digits s = Some ds →
  ∃ n, Py.int ds = Some n ∧ 0 ≤ n ∧ (String.length (Py.str n) ≤ String.length s)%nat.
Proof.
  unfold match_slash_digits. destruct (Py.strip_prefix "/" s) as [r|] eqn:Hr; [|done]. simpl.
  destruct (String.eqb_spec (span_digits r) "") as [|Hne]; [done|].
  intros [= <-]. destruct (int_of_digit_run _ Hne) as (n & Hn & Hpos & Hlen).
  exists n. split_and!; [done..|].
  pose proof (digit_run_chars_length (String.length r) r).
  apply strip_prefix_length in Hr. unfold span_digits, Py.chars in *. lia.
Qed.

Lemma match_here_int s ds :
  match_here s = Some ds →
  ∃ n, Py.int ds = Some n ∧ 0 ≤ n ∧ (String.length (Py.str n) ≤ String.length s)%nat.
Proof.
  assert (∀ r, Py.strip_prefix "/dom" s = Some r → match_slash_digits r = Some ds →
               ∃ n, Py.int ds = Some n ∧ 0 ≤ n
                    ∧ (String.length (Py.str n) ≤ String.length s)%nat) as Hplain.
  { intros r Hr (n & Hn & Hpos & Hlen)%match_slash_digits_int.
    apply strip_prefix_length in Hr. exists n. split_and!; [done..|lia]. }
  unfold match_here. destruct (Py.strip_prefix "/dom" s) as [r|] eqn:Hr; [|done].
  cbn [mbind option_bind].
  destruct (Py.strip_prefix "/dacha" r) as [r'|] eqn:Hr'; cbn [mbind option_bind];
    [|by apply Hplain].
  destruct (match_slash_digits r') as [ds'|] eqn:H1; [|by apply Hplain].
  intros [= ->]. apply match_slash_digits_int in H1 as (n & Hn & Hpos & Hlen).
  apply strip_prefix_length in Hr, Hr'. exists n. split_and!; [done..|lia].
Qed.

(** Group 1 of a match is the text of a natural number, whose decimal text
    is no longer than the string searched. *)
Lemma re_search_int s ds :
  re_search s = Some ds →
  ∃ n, Py.int ds = Some n ∧ 0 ≤ n ∧ (String.length (Py.str n) ≤ String.length s)%nat.
Proof.
  induction s as [|c s IH]; cbn [re_search].
  - destruct (match_here "") as [ds'|] eqn:H; [|done].
    intros [= ->]. by apply (match_here_int "").
  - destruct (match_here (String c s)) as [ds'|] eqn:H.
    + intros [= ->]. by apply (match_here_int (String c s)).
    + intros (n & Hn & Hpos & Hlen)%IH. exists n. split_and!; [done..|].
      cbn [String.length]. lia.
Qed.

(** The identifier of a link is a natural number, whose decimal text is no
    longer than the [href]. *)
Lemma link_id_bounds link i :
  link_id link = Some i →
  0 ≤ i ∧ (String.length (Py.str i) ≤ String.length (default "" (a_href link)))%nat.
Proof.
  unfold link_id. destruct (a_href link) as [href|]; [|done]. simpl.
  destruct (re_search href) as [ds|] eqn:Hs; [|done]. simpl.
  destruct (re_search_int _ _ Hs) as (n & -> & Hn & Hlen). by intros [= <-].
Qed.

Lemma link_id_nonneg link i : link_id link = Some i → 0 ≤ i.
Proof. by intros [? _]%link_id_bounds. Qed.

(** One turn of the loop never raises, and is one step of [extract]. *)
Lemma add_listing_run listings link st :
  is_Some (a_href link ≫= re_search) →
  add_listing listings link st = (Ok (extract_step listings link), st).
Proof.
  unfold add_listing, extract_step, link_id, link_listing, link_url.
  destruct (a_href link) as [href|]; simpl; [|by intros [? ?]].
  destruct (re_search href) as [ds|] eqn:Hs; [|by intros [? ?]]. intros _. simpl.
  destruct (re_search_int _ _ Hs) as (n & Hn & _).
  unfold bind. rewrite Hn. done.
Qed.

Lemma extract_step_skip listings link :
  ¬ is_Some (a_href link ≫= re_search) → extract_step listings link = listings.
Proof.
  unfold extract_step, link_id. intros Hnone.
  destruct (a_href link ≫= re_search) as [ds|]; [|done]. exfalso. by apply Hnone.
Qed.

Lemma for_fold_add_listing anchors acc st :
  for_fold (find_all_listing_links anchors) add_listing acc st
  = (Ok (foldl extract_step acc anchors), st).
Proof.
  unfold find_all_listing_links. revert acc.
  induction anchors as [|link anchors IH]; intros acc; [done|].
  rewrite filter_cons. case_decide as Hlink; cbn [foldl].
  - cbn [for_fold]. rewrite (bind_Ok _ _ _ _ _ (add_listing_run acc link st Hlink)).
    apply IH.
  - rewrite (extract_step_skip acc link Hlink). apply IH.
Qed.

(** The fetch, for a reply that is a page with an accepted status. *)
Lemma get_all_listings_extract cfg net status anchors st :
  net_get net (URL cfg) = Response status (Soup anchors) →
  status_ok status = true →
  get_all_listings cfg net st = (Ok (extract anchors), log st [fetch_event cfg]).
Proof.
  intros Hget Hok. unfold get_all_listings, requests_get, bind. rewrite emit_run, Hget.
  simpl. rewrite raise_for_status_run. simpl.
  unfold status_ok in Hok. apply negb_true_iff in Hok. rewrite Hok. simpl.
  apply for_fold_add_listing.
Qed.

(** A fetch that returns got a page with an accepted status, and returns
    what [extract] builds from its links. *)
Lemma get_all_listings_inv cfg net st B :
  eval (get_all_listings cfg net) st = Ok B →
  ∃ status anchors,
    net_get net (URL cfg) = Response status (Soup anchors)
    ∧ status_ok status = true ∧ B = extract anchors.
Proof.
  intros HB. pose proof (fetch_failure_causes cfg net st) as Hcauses.
  destruct (net_get net (URL cfg)) as [e|status body] eqn:Hget; [congruence|].
  unfold status_ok.
  destruct ((400 <=? status)%Z && (status <? 600)%Z)%bool eqn:Hstatus; [congruence|].
  destruct body as [|anchors]; [rewrite Hcauses in HB; done|].
  exists status, anchors. split_and!; [done|by rewrite Hstatus|].
  unfold eval in HB.
  rewrite (get_all_listings_extract cfg net status anchors st Hget) in HB
    by (unfold status_ok; by rewrite Hstatus).
  by injection HB as <-.
Qed.

Lemma extract_snoc anchors link :
  extract (anchors ++ [link]) = extract_step (extract anchors) link.
Proof. unfold extract. by rewrite foldl_app. Qed.

Lemma elem_of_extract_keys anchors i :
  i ∈ dict_keys (extract anchors) ↔ ∃ link, link ∈ anchors ∧ link_id link = Some i.
Proof.
  induction anchors as [|link anchors IH] using rev_ind.
  - split; [intros H; by apply elem_of_nil in H|].
    intros (link & H & _). by apply elem_of_nil in H.
  - rewrite extract_snoc. unfold extract_step.
    destruct (link_id link) as [j|] eqn:Hj.
    + rewrite elem_of_keys_set, IH. split.
      * intros [->|(l & Hl & Hi)]; [exists link|exists l]; rewrite elem_of_app;
          (split; [|done]); [right; by left|by left].
      * intros (l & [Hl|Hl%list_elem_of_singleton]%elem_of_app & Hi).
        -- right. by exists l.
        -- left. subst l. congruence.
    + rewrite IH. split.
      * intros (l & Hl & Hi). exists l. rewrite elem_of_app. split; [by left|done].
      * intros (l & [Hl|Hl%list_elem_of_singleton]%elem_of_app & Hi).
        -- by exists l.
        -- subst l. congruence.
Qed.

Lemma extract_values anchors i entry :
  dict_get i (extract anchors) = Some entry →
  ∃ link, link ∈ anchors ∧ link_id link = Some i ∧ entry = link_listing link.
Proof.
  induction anchors as [|link anchors IH] using rev_ind; [done|].
  rewrite extract_snoc. unfold extract_step.
  destruct (link_id link) as [j|] eqn:Hj.
  - rewrite dict_get_set. case_decide as Hij.
    + intros [= <-]. subst j. exists link. rewrite elem_of_app.
      split; [right; by left|done].
    + intros (l & Hl & H)%IH. exists l. rewrite elem_of_app. split; [by left|done].
  - intros (l & Hl & H)%IH. exists l. rewrite elem_of_app. split; [by left|done].
Qed.

Lemma split_head_idem sep s : Py.split_head sep (Py.split_head sep s) = Py.split_head sep s.
Proof.
  induction s as [|c s IH]; [done|]. simpl.
  destruct (Ascii.eqb c sep) eqn:Hc; [done|]. simpl. by rewrite Hc, IH.
Qed.

(** Cutting at a separator keeps a prefix that has no separator. *)
Lemma startswith_split_head sep p s :
  Py.split_head sep p = p →
  Py.startswith p s = true →
  Py.startswith p (Py.split_head sep s) = true.
Proof.
  revert s. induction p as [|a p IH]; intros s Hp; [done|].
  cbn [Py.split_head] in Hp. destruct (Ascii.eqb a sep) eqn:Ha; [done|].
  injection Hp as Hp. destruct s as [|b s]; cbn [Py.startswith]; [done|].
  destruct (Ascii.eqb_spec a b) as [<-|]; [|done]. intros Hs.
  cbn [Py.split_head]. rewrite Ha. cbn [Py.startswith].
  rewrite Ascii.eqb_refl. by apply IH.
Qed.

Lemma startswith_http_split_head href :
  Py.startswith "http" href = true →
  Py.startswith "http" (Py.split_head "?" href) = true.
Proof. by apply startswith_split_head. Qed.

Lemma split_head_app sep p s :
  Py.split_head sep p = p → Py.split_head sep (p +:+ s) = p +:+ Py.split_head sep s.
Proof.
  induction p as [|a p IH]; [done|]. intros Hp. cbn [Py.split_head] in Hp.
  destruct (Ascii.eqb a sep) eqn:Ha; [done|]. injection Hp as Hp.
  change (String a p +:+ s) with (String a (p +:+ s)).
  change (String a p +:+ Py.split_head sep s) with (String a (p +:+ Py.split_head sep s)).
  cbn [Py.split_head]. by rewrite Ha, IH.
Qed.

(** The URL kept for a link starts with [http] and has no query string. *)
Lemma link_url_canonical href :
  Py.startswith "http" (link_url href) = true
  ∧ Py.split_head "?" (link_url href) = link_url href.
Proof.
  unfold link_url. destruct (Py.startswith "http" href) eqn:Hhttp.
  - split; [by apply startswith_http_split_head|apply split_head_idem].
  - split; [done|]. rewrite split_head_app by done. by rewrite split_head_idem.
Qed.

Lemma foldl_extract_step_other i post acc :
  Forall (fun link => link_id link ≠ Some i) post →
  dict_get i (foldl extract_step acc post) = dict_get i acc.
Proof.
  revert acc. induction post as [|link post IH]; intros acc Hpost; [done|].
  apply Forall_cons in Hpost as [Hlink Hpost]. cbn [foldl]. rewrite (IH _ Hpost).
  unfold extract_step. destruct (link_id link) as [j|]; [|done].
  rewrite dict_get_set. by rewrite decide_False by congruence.
Qed.

(** The identifiers taken from links with short [href]s are within the
    default limit of the interpreter on the decimal text of an [int]. *)
Lemma extract_within_limit anchors i :
  short_hrefs anchors → i ∈ dict_keys (extract anchors) →
  (String.length (Py.str i) ≤ Py.max_str_digits)%nat.
Proof.
  intros Hshort (link & Hlink & Hi)%elem_of_extract_keys.
  apply link_id_bounds in Hi as [_ Hlen].
  pose proof (proj1 (Forall_forall _ _) Hshort link Hlink) as Hhref. simpl in Hhref. lia.
Qed.

(** X1. The extraction itself does not fail on the links of a page:
    whenever the GET is answered with a status that [raise_for_status]
    accepts and a page that the parser takes, and no [href] of the page is
    longer than 4300 bytes, the fetch returns, having made that one
    request; and no identifier that it returns has more than 4300 digits,
    the most that [int] and [str] convert by default. *)
Theorem fetch_returns_for_every_page cfg net status anchors :
  net_get net (URL cfg) = Response status (Soup anchors) →
  status_ok status = true →
  short_hrefs anchors →
  ∃ B, (∀ st, get_all_listings cfg net st = (Ok B, log st [fetch_event cfg]))
       ∧ ∀ i, i ∈ dict_keys B → (String.length (Py.str i) ≤ Py.max_str_digits)%nat.
Proof.
  intros Hget Hok Hshort. exists (extract anchors). split.
  - intros st. by apply (get_all_listings_extract cfg net status anchors).
  - intros i. by apply extract_within_limit.
Qed.

Lemma fetch_returns_for_every_page_witness :
  ∃ B, (∀ st, get_all_listings Scenario.cfg Scenario.net st
              = (Ok B, log st [fetch_event Scenario.cfg]))
       ∧ ∀ i, i ∈ dict_keys B → (String.length (Py.str i) ≤ Py.max_str_digits)%nat.
Proof.
  apply (fetch_returns_for_every_page Scenario.cfg Scenario.net 200
           [Anchor (Some "/dom/100?rank=1") "House A";
            Anchor (Some "/dom/dacha/101") "Dacha B";
            Anchor None "About";
            Anchor (Some "https://re.kufar.by/dom/103?rank=3") "House C";
            Anchor (Some "/dom/102") "House D"]).
  - reflexivity.
  - reflexivity.
  - repeat (apply Forall_cons_2; [apply Nat.leb_le; vm_compute; reflexivity|]).
    apply Forall_nil_2.
Defined.

(** X2. The identifiers that a fetch returns are exactly those of the links
    of the page whose [href] has the pattern [/dom/N] or [/dom/dacha/N], [N]
    being one or more decimal digits of any script: none is missed and none
    is made up; each is a natural number, of at most 4300 digits when no
    [href] of the page is longer than 4300 bytes. *)
Theorem fetched_ids_are_the_link_ids cfg net st status anchors B :
  net_get net (URL cfg) = Response status (Soup anchors) →
  short_hrefs anchors →
  eval (get_all_listings cfg net) st = Ok B →
  (∀ i, i ∈ dict_keys B ↔ ∃ link, link ∈ anchors ∧ link_id link = Some i)
  ∧ (∀ i, i ∈ dict_keys B →
          0 ≤ i ∧ (String.length (Py.str i) ≤ Py.max_str_digits)%nat).
Proof.
  intros Hget Hshort (status' & anchors' & Hget' & _ & ->)%get_all_listings_inv.
  rewrite Hget in Hget'. injection Hget' as _ <-.
  split; [apply elem_of_extract_keys|].
  intros i Hi. split; [|by apply (extract_within_limit anchors)].
  apply elem_of_extract_keys in Hi as (link & _ & Hi). by apply (link_id_nonneg link).
Qed.

Lemma fetched_ids_are_the_link_ids_witness :
  (∀ i, i ∈ dict_keys Scenario.current
        ↔ ∃ link, link ∈ [Anchor (Some "/dom/100?rank=1") "House A";
                          Anchor (Some "/dom/dacha/101") "Dacha B";
                          Anchor None "About";
                          Anchor (Some "https://re.kufar.by/dom/103?rank=3") "House C";
                          Anchor (Some "/dom/102") "House D"]
                  ∧ link_id link = Some i)
  ∧ (∀ i, i ∈ dict_keys Scenario.current →
          0 ≤ i ∧ (String.length (Py.str i) ≤ Py.max_str_digits)%nat).
Proof.
  apply (fetched_ids_are_the_link_ids Scenario.cfg Scenario.net (initial None) 200).
  - reflexivity.
  - repeat (apply Forall_cons_2; [apply Nat.leb_le; vm_compute; reflexivity|]).
    apply Forall_nil_2.
  - vm_compute. reflexivity.
Defined.

(** X3. Every listing that a fetch returns carries the text of a link of
    the page as its title, and a URL that starts with [http] and has no
    query string. *)
Theorem fetched_urls_are_canonical cfg net st B i title url :
  eval (get_all_listings cfg net) st = Ok B →
  dict_get i B = Some (title, url) →
  Py.startswith "http" url = true
  ∧ Py.split_head "?" url = url
  ∧ ∃ status anchors link,
      net_get net (URL cfg) = Response status (Soup anchors)
      ∧ link ∈ anchors ∧ link_id link = Some i ∧ title = a_text link.
Proof.
  intros (status & anchors & Hget & _ & ->)%get_all_listings_inv.
  intros (link & Hlink & Hi & Hentry)%extract_values.
  unfold link_listing in Hentry. injection Hentry as -> ->.
  destruct (link_url_canonical (default "" (a_href link))) as [H1 H2].
  split_and!; [done|done|]. by exists status, anchors, link.
Qed.

Lemma fetched_urls_are_canonical_witness :
  Py.startswith "http" "https://re.kufar.by/dom/103" = true
  ∧ Py.split_head "?" "https://re.kufar.by/dom/103" = "https://re.kufar.by/dom/103"
  ∧ ∃ status anchors link,
      net_get Scenario.net (URL Scenario.cfg) = Response status (Soup anchors)
      ∧ link ∈ anchors ∧ link_id link = Some 103 ∧ "House C" = a_text link.
Proof.
  apply (fetched_urls_are_canonical Scenario.cfg Scenario.net (initial None)
           Scenario.current 103 "House C" "https://re.kufar.by/dom/103").
  - vm_compute. reflexivity.
  - vm_compute. reflexivity.
Defined.

(** X4. When several links of a page give the same identifier, the listing
    returned for it is that of the last of them. The [href]s are taken to
    be at most 4300 bytes long, as in X1, so that the fetch returns and the
    identifier has at most 4300 digits. *)
Theorem last_link_gives_the_listing cfg net status before link after i st :
  net_get net (URL cfg) = Response status (Soup (before ++ link :: after)) →
  status_ok status = true →
  short_hrefs (before ++ link :: after) →
  link_id link = Some i →
  Forall (fun later => link_id later ≠ Some i) after →
  ∃ B, eval (get_all_listings cfg net) st = Ok B
       ∧ dict_get i B = Some (link_listing link)
       ∧ (String.length (Py.str i) ≤ Py.max_str_digits)%nat.
Proof.
  intros Hget Hok Hshort Hi Hafter. exists (extract (before ++ link :: after)).
  split_and!.
  - unfold eval. by rewrite (get_all_listings_extract cfg net status _ st Hget Hok).
  - unfold extract. rewrite foldl_app. cbn [foldl].
    rewrite (foldl_extract_step_other i after _ Hafter).
    unfold extract_step. rewrite Hi, dict_get_set. by rewrite decide_True.
  - apply (extract_within_limit (before ++ link :: after)); [done|].
    apply elem_of_extract_keys. exists link. split; [|done].
    apply elem_of_app. right. by left.
Qed.

Lemma last_link_gives_the_listing_witness :
  ∃ B, eval (get_all_listings Scenario.cfg
               (Network (fun _ => Response 200
                                    (Soup ([Anchor (Some "/dom/7") "old"]
                                           ++ Anchor (Some "/dom/dacha/7?x=1") "new"
                                              :: [Anchor (Some "/dom/8") "b"])))
                        (fun _ => Response 200 tt)))
            (initial None) = Ok B
       ∧ dict_get 7 B = Some (link_listing (Anchor (Some "/dom/dacha/7?x=1") "new"))
       ∧ (String.length (Py.str 7) ≤ Py.max_str_digits)%nat.
Proof.
  apply (last_link_gives_the_listing Scenario.cfg _ 200
           [Anchor (Some "/dom/7") "old"] (Anchor (Some "/dom/dacha/7?x=1") "new")
           [Anchor (Some "/dom/8") "b"] 7 (initial None)).
  - reflexivity.
  - reflexivity.
  - repeat (apply Forall_cons_2; [apply Nat.leb_le; vm_compute; reflexivity|]).
    apply Forall_nil_2.
  - vm_compute. reflexivity.
  - repeat constructor. vm_compute. discriminate.
Defined.

Lemma str_nonneg_digits n : 0 ≤ n → all_digits (Py.str n) = true ∧ Py.str n ≠ "".
Proof.
  intros Hn. destruct n as [|p|p]; [done| |lia]. unfold Py.str. simpl.
  pose proof (Unsigned.to_uint_nonnil p) as Hnil.
  assert (NilZero.string_of_uint (Pos.to_uint p) = NilEmpty.string_of_uint (Pos.to_uint p))
    as -> by (by destruct (Pos.to_uint p)).
  split; [apply string_of_uint_digits|by apply string_of_uint_nonempty].
Qed.

Lemma append_cons c s t : String c s +:+ t = String c (s +:+ t).
Proof. done. Qed.

Lemma append_empty_r s : s +:+ "" = s.
Proof. induction s as [|c s IH]; [done|]. rewrite append_cons. by f_equal. Qed.

Lemma span_digits_app ds q :
  all_digits ds = true → (q = "" ∨ ∃ r, q = "?" +:+ r) →
  span_digits (ds +:+ q) = ds.
Proof.
  intros Hds Hq. unfold span_digits. induction ds as [|c ds IH].
  - destruct Hq as [->|[r ->]]; [done|].
    change ("" +:+ "?" +:+ r) with (String "?" r). by rewrite chars_cons_byte.
  - cbn [all_digits] in Hds. apply andb_true_iff in Hds as [Hc Hds].
    rewrite append_cons, (chars_digits_cons c _ Hc). cbn [digit_run].
    destruct (ascii_digit_decimal c Hc) as [-> _]. by rewrite (IH Hds).
Qed.

Lemma split_head_digits ds : all_digits ds = true → Py.split_head "?" ds = ds.
Proof.
  induction ds as [|c ds IH]; [done|]. cbn [all_digits Py.split_head].
  intros [Hc Hds]%andb_true_iff.
  assert (Ascii.eqb c "?" = false) as -> by (destruct (Ascii.eqb_spec c "?") as [->|]; done).
  by rewrite (IH Hds).
Qed.

Lemma match_slash_digits_app ds q :
  all_digits ds = true → ds ≠ "" → (q = "" ∨ ∃ r, q = "?" +:+ r) →
  match_slash_digits ("/" +:+ ds +:+ q) = Some ds.
Proof.
  intros Hds Hne Hq. unfold match_slash_digits.
  change (Py.strip_prefix "/" ("/" +:+ ds +:+ q)) with (Some (ds +:+ q)).
  cbn [mbind option_bind]. rewrite (span_digits_app ds q Hds Hq).
  by destruct (String.eqb_spec ds "").
Qed.

Lemma strip_dacha_digits ds q :
  all_digits ds = true → ds ≠ "" → Py.strip_prefix "/dacha" ("/" +:+ ds +:+ q) = None.
Proof.
  intros Hds Hne. destruct ds as [|c ds]; [done|].
  cbn [all_digits] in Hds. apply andb_true_iff in Hds as [Hc _].
  change ("/" +:+ String c ds +:+ q) with (String "/" (String c (ds +:+ q))).
  cbn [Py.strip_prefix]. rewrite Ascii.eqb_refl.
  by destruct (Ascii.eqb_spec "d" c) as [<-|].
Qed.

Lemma re_search_here s ds : match_here s = Some ds → re_search s = Some ds.
Proof. intros H. destruct s; cbn [re_search]; by rewrite H. Qed.

(** An [href] made of one of the two path shapes, the decimal text of an
    identifier, and maybe a query string, gives that identifier back. *)
Lemma re_search_listing_href prefix n query :
  prefix = "/dom/" ∨ prefix = "/dom/dacha/" → 0 ≤ n →
  query = "" ∨ (∃ r, query = "?" +:+ r) →
  re_search (prefix +:+ Py.str n +:+ query) = Some (Py.str n).
Proof.
  intros Hprefix Hn Hq. destruct (str_nonneg_digits n Hn) as [Hds Hne].
  apply re_search_here. unfold match_here. destruct Hprefix as [->| ->].
  - change (Py.strip_prefix "/dom" ("/dom/" +:+ Py.str n +:+ query))
      with (Some ("/" +:+ Py.str n +:+ query)).
    cbn [mbind option_bind]. rewrite (strip_dacha_digits _ _ Hds Hne).
    cbn [mbind option_bind]. by apply match_slash_digits_app.
  - change (Py.strip_prefix "/dom" ("/dom/dacha/" +:+ Py.str n +:+ query))
      with (Some ("/dacha/" +:+ Py.str n +:+ query)).
    cbn [mbind option_bind].
    change (Py.strip_prefix "/dacha" ("/dacha/" +:+ Py.str n +:+ query))
      with (Some ("/" +:+ Py.str n +:+ query)).
    cbn [mbind option_bind]. by rewrite (match_slash_digits_app _ _ Hds Hne Hq).
Qed.

Lemma link_url_listing_href prefix n query :
  prefix = "/dom/" ∨ prefix = "/dom/dacha/" → 0 ≤ n →
  query = "" ∨ (∃ r, query = "?" +:+ r) →
  link_url (prefix +:+ Py.str n +:+ query) = "https://re.kufar.by" +:+ prefix +:+ Py.str n.
Proof.
  intros Hprefix Hn Hq. destruct (str_nonneg_digits n Hn) as [Hds _].
  assert (Py.split_head "?" (Py.str n +:+ query) = Py.str n) as Hcut.
  { assert (Py.split_head "?" query = "") as Hq0 by (destruct Hq as [->|[r ->]]; done).
    rewrite split_head_app by (by apply split_head_digits). rewrite Hq0.
    apply append_empty_r. }
  unfold link_url. destruct Hprefix as [->| ->].
  - change (Py.startswith "http" ("/dom/" +:+ Py.str n +:+ query)) with false.
    cbv iota. f_equal. rewrite split_head_app by done. by rewrite Hcut.
  - change (Py.startswith "http" ("/dom/dacha/" +:+ Py.str n +:+ query)) with false.
    cbv iota. f_equal. rewrite split_head_app by done. by rewrite Hcut.
Qed.

(** X5. A link to [/dom/N] or [/dom/dacha/N], with or without a query
    string, [N] being the decimal text of a natural number of at most 4300
    digits, is fetched as the listing [N], with the link text as title and
    the absolute URL of the same path, without the query. *)
Theorem listing_link_round_trip cfg net status prefix n query text st :
  net_get net (URL cfg)
  = Response status (Soup [Anchor (Some (prefix +:+ Py.str n +:+ query)) text]) →
  status_ok status = true →
  prefix = "/dom/" ∨ prefix = "/dom/dacha/" →
  0 ≤ n →
  (String.length (Py.str n) ≤ Py.max_str_digits)%nat →
  query = "" ∨ (∃ r, query = "?" +:+ r) →
  eval (get_all_listings cfg net) st
  = Ok [(n, (text, "https://re.kufar.by" +:+ prefix +:+ Py.str n))].
Proof.
  intros Hget Hok Hprefix Hn _ Hq. unfold eval.
  rewrite (get_all_listings_extract cfg net status _ st Hget Hok). cbn [fst].
  unfold extract. cbn [foldl]. unfold extract_step, link_id, link_listing.
  cbn [a_href a_text mbind option_bind].
  rewrite (re_search_listing_href prefix n query Hprefix Hn Hq).
  cbn [mbind option_bind]. rewrite int_str.
  change (default "" (Some (prefix +:+ Py.str n +:+ query)))
    with (prefix +:+ Py.str n +:+ query).
  by rewrite (link_url_listing_href prefix n query Hprefix Hn Hq).
Qed.

Lemma listing_link_round_trip_witness :
  eval (get_all_listings Scenario.cfg
          (Network (fun _ => Response 200
                      (Soup [Anchor (Some ("/dom/dacha/" +:+ Py.str 1045 +:+ "?rank=2"))
                                    "Dacha"]))
                   (fun _ => Response 200 tt)))
       (initial None)
  = Ok [(1045, ("Dacha", "https://re.kufar.by" +:+ "/dom/dacha/" +:+ Py.str 1045))].
Proof.
  apply (listing_link_round_trip Scenario.cfg _ 200 "/dom/dacha/" 1045 "?rank=2" "Dacha"
           (initial None)).
  - reflexivity.
  - reflexivity.
  - right. reflexivity.
  - lia.
  - apply Nat.leb_le. vm_compute. reflexivity.
  - right. exists "rank=2". reflexivity.
Defined.

(** ** Loading *)

Lemma add_known_raises known kv st e st' :
  add_known known kv st = (Raise e, st') → e = ValueError ∨ e = TypeError.
Proof.
  unfold add_known, bind. destruct (Py.int kv.1); simpl.
  - destruct (kv.2); simpl; intros [= <- _]; by right.
  - intros [= <- _]. by left.
Qed.

(** The exceptions that leave [load_known_listings]: none of those that its
    handler names. *)
Lemma load_escapes st e :
  eval load_known_listings st = Raise e →
  e = TypeError ∨ e = AttributeError ∨ e = RecursionError.
Proof.
  unfold eval, load_known_listings, os_path_exists, bind, try_except, json_load.
  destruct (st_file st) as [[| |j]|] eqn:Hfile; simpl; rewrite ?Hfile; simpl;
    [done|intros [= <-]; by right; right| |done].
  destruct j as [| | | | | |members]; simpl; try (intros [= <-]; by right; left).
  destruct (for_fold members add_known [] st) as [[A|e'] st'] eqn:Hfold; [done|].
  assert (e' = ValueError ∨ e' = TypeError) as [-> | ->].
  { eapply (for_fold_raises (fun e => e = ValueError ∨ e = TypeError)); [|exact Hfold].
    intros acc x st1 e1 st1'. apply add_known_raises. }
  - done.
  - simpl. intros [= <-]. by left.
Qed.

(** X6. Loading the known set never touches the state file and makes no
    request; all it may print is the one line saying that the file could not
    be read, for an exception that its handler names, and it then returns
    the empty set. No exception that the handler names leaves it, and when
    another one does, nothing was printed. *)
Theorem load_is_read_only st :
  ∃ evs,
    load_known_listings st = (eval load_known_listings st, log st evs)
    ∧ (evs = []
       ∨ ∃ e, evs = [Print (LoadError e)] ∧ caught_by_load e = true
              ∧ eval load_known_listings st = Ok [])
    ∧ ∀ e, eval load_known_listings st = Raise e →
           evs = [] ∧ caught_by_load e = false.
Proof.
  destruct (load_known_listings_log st) as (evs & Hrun & Hevs).
  exists evs. split_and!; [done|done|].
  intros e He. split.
  - destruct Hevs as [?|(x & _ & _ & Hx)]; [done|congruence].
  - by destruct (load_escapes st e He) as [->|[->| ->]].
Qed.

Lemma load_is_read_only_witness :
  ∃ evs,
    load_known_listings (initial (Some (Json (JArr []))))
    = (eval load_known_listings (initial (Some (Json (JArr [])))),
       log (initial (Some (Json (JArr [])))) evs)
    ∧ (evs = []
       ∨ ∃ e, evs = [Print (LoadError e)] ∧ caught_by_load e = true
              ∧ eval load_known_listings (initial (Some (Json (JArr [])))) = Ok [])
    ∧ ∀ e, eval load_known_listings (initial (Some (Json (JArr [])))) = Raise e →
           evs = [] ∧ caught_by_load e = false.
Proof. apply (load_is_read_only (initial (Some (Json (JArr []))))). Defined.

Lemma py_tuple_run v st :
  py_tuple v st = match tuple_of v with
                  | Some t => (Ok t, st)
                  | None => (Raise TypeError, st)
                  end.
Proof. by destruct v. Qed.

Lemma tuple_of_iterable v : iterable v = true → is_Some (tuple_of v).
Proof. destruct v; by eauto. Qed.

Lemma for_fold_add_known_closed members acc st :
  Forall (fun kv : string * json => iterable kv.2 = true ∧ is_Some (Py.int kv.1)) members →
  for_fold members add_known acc st = (Ok (foldl known_step acc members), st).
Proof.
  revert acc. induction members as [|[k v] members IH]; intros acc Hgood; [done|].
  apply Forall_cons in Hgood as [[Hv [n Hk]] Hgood]. cbn [fst snd] in Hv, Hk.
  destruct (tuple_of_iterable v Hv) as [t Ht].
  cbn [for_fold foldl]. unfold bind at 1. unfold add_known at 1. unfold bind.
  cbn [fst snd]. rewrite Hk. cbn [or_raise ret]. rewrite py_tuple_run, Ht.
  unfold known_step at 2. cbn [fst snd]. rewrite Hk, Ht. by apply IH.
Qed.

Lemma foldl_known_step_other i after acc :
  Forall (fun kv : string * json => Py.int kv.1 ≠ Some i) after →
  dict_get i (foldl known_step acc after) = dict_get i acc.
Proof.
  revert acc. induction after as [|kv after IH]; intros acc Hafter; [done|].
  apply Forall_cons in Hafter as [Hkv Hafter]. cbn [foldl]. rewrite (IH _ Hafter).
  unfold known_step. destruct (Py.int kv.1) as [j|]; [|done].
  destruct (tuple_of kv.2); [|done].
  rewrite dict_get_set. by rewrite decide_False by congruence.
Qed.

(** X7. Keys of the state file that are texts of the same integer (such as
    ["7"] and ["07"]) are one identifier of the loaded set, which never has
    an identifier twice; the value loaded for it is that of the last such
    entry of the file. The keys are texts of at most 4300 bytes, so within
    the default limit of [int] on the number of digits, and no identifier
    loaded has more than 4300 digits. *)
Theorem later_entry_replaces_same_id earlier k v later i t st :
  st_file st = Some (Json (JObj (earlier ++ (k, v) :: later))) →
  Forall loadable (earlier ++ (k, v) :: later) →
  Py.int k = Some i →
  tuple_of v = Some t →
  Forall (fun kv => Py.int kv.1 ≠ Some i) later →
  ∃ known,
    load_known_listings st = (Ok known, st)
    ∧ dict_get i known = Some t
    ∧ NoDup (dict_keys known)
    ∧ ∀ j, j ∈ dict_keys known → (String.length (Py.str j) ≤ Py.max_str_digits)%nat.
Proof.
  intros Hfile Hloadable Hk Ht Hlater.
  pose proof (loadable_good _ Hloadable) as Hgood.
  exists (foldl known_step [] (earlier ++ (k, v) :: later)).
  assert (load_known_listings st
          = (Ok (foldl known_step [] (earlier ++ (k, v) :: later)), st)) as Hload.
  { load_from Hfile. by rewrite (for_fold_add_known_closed _ [] st Hgood). }
  split_and!; [done| | |].
  - rewrite foldl_app. cbn [foldl]. rewrite (foldl_known_step_other i later _ Hlater).
    unfold known_step. cbn [fst snd]. rewrite Hk, Ht, dict_get_set.
    by rewrite decide_True.
  - apply (load_known_listings_NoDup st). unfold eval. by rewrite Hload.
  - intros j Hj.
    destruct (for_fold_add_known_good _ [] st Hgood) as (d & Hd & Hkeys).
    rewrite (for_fold_add_known_closed _ [] st Hgood) in Hd. injection Hd as <-.
    apply Hkeys in Hj as [Hj|(kv & Hkv & Hi)]; [by apply elem_of_nil in Hj|].
    by apply (loadable_within_limit (earlier ++ (k, v) :: later) kv).
Qed.

Lemma later_entry_replaces_same_id_witness :
  ∃ known,
    load_known_listings
      (initial (Some (Json (JObj ([("7", JArr [JStr "old"])]
                                  ++ ("07", JArr [JStr "new"]) :: [("8", JArr [])])))))
    = (Ok known,
       initial (Some (Json (JObj ([("7", JArr [JStr "old"])]
                                  ++ ("07", JArr [JStr "new"]) :: [("8", JArr [])])))))
    ∧ dict_get 7 known = Some [JStr "new"]
    ∧ NoDup (dict_keys known)
    ∧ ∀ j, j ∈ dict_keys known → (String.length (Py.str j) ≤ Py.max_str_digits)%nat.
Proof.
  apply (later_entry_replaces_same_id [("7", JArr [JStr "old"])] "07" (JArr [JStr "new"])
           [("8", JArr [])] 7 [JStr "new"]).
  - reflexivity.
  - repeat (apply Forall_cons_2;
            [split_and!; [reflexivity|by eexists|apply Nat.leb_le; vm_compute; reflexivity]|]).
    apply Forall_nil_2.
  - reflexivity.
  - reflexivity.
  - repeat constructor. vm_compute. discriminate.
Defined.

(** ** Telegram *)

(** X8. Without a bot token or without a chat identifier,
    [send_telegram_message] makes no request: it prints that the bot is not
    configured and what the message would have been, and returns false. *)
Theorem unconfigured_send_makes_no_request cfg net text st :
  TELEGRAM_BOT_TOKEN cfg = "" ∨ TELEGRAM_CHAT_ID cfg = "" →
  send_telegram_message cfg net text st
  = (Ok false, log st [Print NotConfigured; Print (WouldSend text)]).
Proof.
  intros Hmissing. unfold send_telegram_message.
  assert (String.eqb (TELEGRAM_BOT_TOKEN cfg) "" || String.eqb (TELEGRAM_CHAT_ID cfg) ""
          = true) as ->.
  { apply orb_true_iff. destruct Hmissing as [-> | ->]; [by left|by right]. }
  unfold bind, print, emit, ret, log. simpl. by rewrite <- app_assoc.
Qed.

Lemma unconfigured_send_makes_no_request_witness :
  send_telegram_message (Config "https://re.kufar.by/l/dom" "" "42") Scenario.net "hello"
    (initial None)
  = (Ok false, log (initial None) [Print NotConfigured; Print (WouldSend "hello")]).
Proof.
  apply (unconfigured_send_makes_no_request (Config "https://re.kufar.by/l/dom" "" "42")).
  left. reflexivity.
Defined.

Lemma send_log_no_request r :
  filter is_request (send_log r) = [] ∧ filter is_sleep (send_log r) = [].
Proof.
  destruct r as [e|status []]; simpl; [done|].
  by destruct ((400 <=? status)%Z && (status <? 600)%Z)%bool.
Qed.

(** X9. [notify] never raises and returns nothing, whether or not the
    message was delivered: with the bot configured it makes exactly one
    POST, whose text is the title in bold, the message and a link to the
    URL, each on its own line. *)
Theorem notify_sends_one_message cfg net title message url st :
  configured cfg →
  ∃ evs,
    notify cfg net title message url st
    = (Ok tt, State (st_file st) (st_trace st ++ evs) (S (st_posts st)))
    ∧ posted_texts evs = [notify_text title message url]
    ∧ filter is_request evs = [telegram_post cfg (notify_text title message url)]
    ∧ filter is_write evs = [].
Proof.
  intros Hcfg.
  exists (telegram_post cfg (notify_text title message url)
          :: send_log (net_post net (st_posts st))).
  destruct (send_log_quiet (net_post net (st_posts st))) as (_ & Hp & Hw & _).
  destruct (send_log_no_request (net_post net (st_posts st))) as [Hr _].
  split_and!.
  - unfold notify. fold (notify_text title message url).
    by rewrite (bind_Ok _ _ _ _ _ (send_telegram_message_run cfg net _ st Hcfg)).
  - change (notify_text title message url
            :: posted_texts (send_log (net_post net (st_posts st))) = [notify_text title message url]).
    by rewrite Hp.
  - rewrite filter_cons. rewrite decide_True by done. by rewrite Hr.
  - rewrite filter_cons. rewrite decide_False by (by intros []). done.
Qed.

Lemma notify_sends_one_message_witness :
  ∃ evs,
    notify Scenario.cfg Scenario.net "House" "New" "https://re.kufar.by/dom/1" (initial None)
    = (Ok tt, State (st_file (initial None)) (st_trace (initial None) ++ evs)
                    (S (st_posts (initial None))))
    ∧ posted_texts evs = [notify_text "House" "New" "https://re.kufar.by/dom/1"]
    ∧ filter is_request evs
      = [telegram_post Scenario.cfg (notify_text "House" "New" "https://re.kufar.by/dom/1")]
    ∧ filter is_write evs = [].
Proof.
  apply (notify_sends_one_message Scenario.cfg Scenario.net).
  split; discriminate.
Defined.

(** ** Settings *)

Lemma get_required_env_set env key description v st :
  env !! key = Some v → v ≠ "" →
  get_required_env env key description st = (Ok v, st).
Proof.
  intros Hv Hne. unfold get_required_env. rewrite Hv.
  by destruct (String.eqb_spec v "").
Qed.

Lemma get_required_env_unset env key description st :
  unset env key → description ≠ "" →
  get_required_env env key description st
  = (Raise (SystemExit 1),
     log st [Print (EnvError (("Required environment variable '" +:+ key
                               +:+ "' is not set.") +:+ " " +:+ description));
             Print EnvHint]).
Proof.
  intros Hunset Hd. unfold get_required_env.
  assert (String.eqb description "" = false) as Hd'
    by (by destruct (String.eqb_spec description "")).
  cbv zeta. rewrite Hd'.
  destruct Hunset as [-> | ->]; [|change (String.eqb "" "") with true; cbv iota];
    unfold bind, print, emit, raise, log; simpl; by rewrite <- app_assoc.
Qed.

Lemma load_config_first_unset env earlier key description later st :
  required_settings = earlier ++ (key, description) :: later →
  Forall (fun kd => ∃ v, env !! kd.1 = Some v ∧ v ≠ "") earlier →
  unset env key →
  load_config env st
  = (Raise (SystemExit 1),
     log st [Print (EnvError (("Required environment variable '" +:+ key
                               +:+ "' is not set.") +:+ " " +:+ description));
             Print EnvHint]).
Proof.
  intros Hsplit Hearlier Hunset. unfold required_settings in Hsplit. unfold load_config.
  destruct earlier as [|[k1 d1] [|[k2 d2] [|[k3 d3] earlier]]];
    cbn [app] in Hsplit; simplify_eq.
  - by erewrite bind_Raise by (by apply get_required_env_unset).
  - apply Forall_cons in Hearlier as [(v1 & H1 & Hn1) _]. simpl in H1.
    rewrite (bind_Ok _ _ _ _ _ (get_required_env_set env _ _ v1 st H1 Hn1)).
    by erewrite bind_Raise by (by apply get_required_env_unset).
  - apply Forall_cons in Hearlier as [(v1 & H1 & Hn1) Hearlier].
    apply Forall_cons in Hearlier as [(v2 & H2 & Hn2) _]. simpl in H1, H2.
    rewrite (bind_Ok _ _ _ _ _ (get_required_env_set env _ _ v1 st H1 Hn1)).
    rewrite (bind_Ok _ _ _ _ _ (get_required_env_set env _ _ v2 st H2 Hn2)).
    by erewrite bind_Raise by (by apply get_required_env_unset).
  - by destruct earlier.
Qed.

(** X10. The settings are read in the order [URL], [TELEGRAM_BOT_TOKEN],
    [TELEGRAM_CHAT_ID], and the process stops at the first one that is not
    set: it prints the error naming that one, with its description, and the
    hint, and exits with status 1, whatever the later ones are. *)
Theorem first_unset_setting_is_reported env net file earlier key description later :
  required_settings = earlier ++ (key, description) :: later →
  Forall (fun kd => ∃ v, env !! kd.1 = Some v ∧ v ≠ "") earlier →
  unset env key →
  run env net file
  = (Raise (SystemExit 1),
     State file
           [Print (EnvError (("Required environment variable '" +:+ key
                              +:+ "' is not set.") +:+ " " +:+ description));
            Print EnvHint] 0).
Proof.
  intros Hsplit Hearlier Hunset. unfold run, program.
  by rewrite (bind_Raise _ _ _ _ _
                (load_config_first_unset env earlier key description later _
                   Hsplit Hearlier Hunset)).
Qed.

Lemma first_unset_setting_is_reported_witness :
  run (delete "TELEGRAM_BOT_TOKEN" Scenario.env_empty_chat) Scenario.net Scenario.file
  = (Raise (SystemExit 1),
     State Scenario.file
           [Print (EnvError (("Required environment variable '" +:+ "TELEGRAM_BOT_TOKEN"
                              +:+ "' is not set.") +:+ " "
                             +:+ "Telegram bot token from @BotFather"));
            Print EnvHint] 0).
Proof.
  apply (first_unset_setting_is_reported _ Scenario.net Scenario.file
           [("URL", "The Kufar URL to monitor for new listings")]
           "TELEGRAM_BOT_TOKEN" "Telegram bot token from @BotFather"
           [("TELEGRAM_CHAT_ID", "Your Telegram chat ID from @userinfobot")]).
  - reflexivity.
  - repeat constructor. eexists. split; [vm_compute; reflexivity|discriminate].
  - left. vm_compute. reflexivity.
Defined.

(** ** More on one run *)

(** X11. When loading the known set raises, the run stops there: the
    exception reaches the caller and the process exits with status 1, and
    nothing was printed, fetched, sent or written. *)
Theorem load_failure_stops_the_run env net file cfg e :
  eval (load_config env) (initial file) = Ok cfg →
  eval load_known_listings (initial file) = Raise e →
  run env net file = (Raise e, initial file)
  ∧ exit_status (run env net file).1 = 1.
Proof.
  intros Hcfg He. destruct (run_main env net file cfg Hcfg) as [-> _].
  destruct (load_known_listings_run (initial file)) as (evs & Hrun & Hevs & _).
  rewrite He in Hrun.
  assert (evs = []) as -> by (destruct Hevs as [?|(x & _ & Hx)]; [done|congruence]).
  rewrite log_nil in Hrun. unfold main. rewrite (bind_Raise _ _ _ _ _ Hrun).
  split; [done|]. by destruct (load_escapes _ _ He) as [->|[->| ->]].
Qed.

Lemma load_failure_stops_the_run_witness :
  run Scenario.env Scenario.net (Some (Json (JObj [("101", JNull)])))
  = (Raise TypeError, initial (Some (Json (JObj [("101", JNull)]))))
  ∧ exit_status (run Scenario.env Scenario.net (Some (Json (JObj [("101", JNull)])))).1 = 1.
Proof.
  apply (load_failure_stops_the_run Scenario.env Scenario.net
           (Some (Json (JObj [("101", JNull)]))) Scenario.cfg TypeError).
  - vm_compute. reflexivity.
  - vm_compute. reflexivity.
Defined.

Lemma notify_log_requests cfg net new_listings n listing_ids :
  filter is_request (notify_log cfg net new_listings n listing_ids)
  = (fun i => telegram_post cfg (message_text (listing_url new_listings i))) <$> listing_ids.
Proof.
  revert n. induction listing_ids as [|i rest IH]; intros n; [done|].
  cbn [notify_log]. rewrite !filter_app, IH.
  destruct (send_log_no_request (net_post net n)) as [-> _]. done.
Qed.

Lemma notify_log_sleeps cfg net new_listings n listing_ids :
  filter is_sleep (notify_log cfg net new_listings n listing_ids)
  = replicate (length listing_ids) (Sleep 500).
Proof.
  revert n. induction listing_ids as [|i rest IH]; intros n; [done|].
  cbn [notify_log]. rewrite !filter_app, IH.
  destruct (send_log_no_request (net_post net n)) as [_ ->]. done.
Qed.

(** X12. In a comparison run the page is fetched once, before anything is
    sent, and the state file is written once, after the last notification
    was attempted: the requests of the run are the GET followed by one POST
    per new identifier in descending order, and the two writes come after
    all of them. *)
Theorem state_is_written_after_the_requests env net file cfg A B :
  eval (load_config env) (initial file) = Ok cfg →
  eval load_known_listings (initial file) = Ok A →
  A ≠ [] →
  eval (get_all_listings cfg net) (initial file) = Ok B →
  ∃ before data after,
    st_trace (run env net file).2 = before ++ [FileTruncate; FileDump data] ++ after
    ∧ filter is_write before = []
    ∧ filter is_write after = []
    ∧ filter is_request after = []
    ∧ filter is_request before
      = fetch_event cfg
        :: ((fun i => telegram_post cfg (message_text (listing_url B i)))
              <$> sorted_reverse (dict_keys (find_new_listings A B))).
Proof.
  intros Hcfg HA Hne HB.
  destruct (run_main env net file cfg Hcfg) as [-> Hconf].
  rewrite (main_comparison cfg net file A B Hconf HA Hne HB). cbn [snd st_trace].
  pose proof (get_all_listings_NoDup _ _ _ _ HB) as HndB.
  unfold comparison_trace.
  destruct (find_new_listings A B) as [|n new'] eqn:Hnew.
  - exists [Print (LoadedKnown (length A)); fetch_event cfg;
            Print (FoundOnPage (length B)); Print NoNew].
    eexists. exists []. split_and!; done.
  - rewrite <- Hnew.
    exists ([Print (LoadedKnown (length A)); fetch_event cfg; Print (FoundOnPage (length B))]
            ++ [Print (FoundNew (length (find_new_listings A B)))]
            ++ notify_log cfg net (find_new_listings A B) 0
                 (sorted_reverse (dict_keys (find_new_listings A B)))).
    eexists.
    exists [Print (UpdatedKnown
                     (length (dict_update A (as_tuples (find_new_listings A B)))))].
    split_and!.
    + by rewrite <- !app_assoc.
    + rewrite !filter_app, notify_log_writes. done.
    + done.
    + done.
    + rewrite !filter_app, notify_log_requests. cbn. f_equal.
      apply list_fmap_ext. intros j i Hi. do 2 f_equal.
      apply new_listing_url; [done|]. apply elem_of_sorted_reverse.
      by eapply list_elem_of_lookup_2.
Qed.

Lemma state_is_written_after_the_requests_witness :
  ∃ before data after,
    st_trace (run Scenario.env Scenario.net Scenario.file).2
    = before ++ [FileTruncate; FileDump data] ++ after
    ∧ filter is_write before = []
    ∧ filter is_write after = []
    ∧ filter is_request after = []
    ∧ filter is_request before
      = fetch_event Scenario.cfg
        :: ((fun i => telegram_post Scenario.cfg
                        (message_text (listing_url Scenario.current i)))
              <$> sorted_reverse
                    (dict_keys (find_new_listings Scenario.known Scenario.current))).
Proof.
  apply (state_is_written_after_the_requests Scenario.env Scenario.net Scenario.file
           Scenario.cfg Scenario.known Scenario.current).
  - vm_compute. reflexivity.
  - vm_compute. reflexivity.
  - discriminate.
  - vm_compute. reflexivity.
Defined.

(** X13. A comparison run pauses for half a second after every
    notification it attempts, the last one too: it sleeps as many times as
    it makes POSTs, once per new listing. *)
Theorem one_pause_per_notification env net file cfg A B :
  eval (load_config env) (initial file) = Ok cfg →
  eval load_known_listings (initial file) = Ok A →
  A ≠ [] →
  eval (get_all_listings cfg net) (initial file) = Ok B →
  filter is_sleep (st_trace (run env net file).2)
  = replicate (length (find_new_listings A B)) (Sleep 500)
  ∧ st_posts (run env net file).2 = length (find_new_listings A B).
Proof.
  intros Hcfg HA Hne HB.
  destruct (run_main env net file cfg Hcfg) as [-> Hconf].
  rewrite (main_comparison cfg net file A B Hconf HA Hne HB). cbn [snd st_trace st_posts].
  split; [|done]. unfold comparison_trace.
  destruct (find_new_listings A B) as [|n new'] eqn:Hnew; [done|].
  rewrite <- Hnew. rewrite !filter_app, notify_log_sleeps.
  rewrite (Permutation_length (sorted_reverse_perm _)).
  unfold dict_keys. rewrite length_fmap. cbn. by rewrite app_nil_r.
Qed.

Lemma one_pause_per_notification_witness :
  filter is_sleep (st_trace (run Scenario.env Scenario.net Scenario.file).2)
  = replicate (length (find_new_listings Scenario.known Scenario.current)) (Sleep 500)
  ∧ st_posts (run Scenario.env Scenario.net Scenario.file).2
    = length (find_new_listings Scenario.known Scenario.current).
Proof.
  apply (one_pause_per_notification Scenario.env Scenario.net Scenario.file
           Scenario.cfg Scenario.known Scenario.current).
  - vm_compute. reflexivity.
  - vm_compute. reflexivity.
  - discriminate.
  - vm_compute. reflexivity.
Defined.

(** X14. A first run that finds no listing on the page leaves an empty
    known set, so the next run is a baseline run as well: the listings it
    fetches are recorded without any notification. *)
Theorem empty_baseline_repeats env net1 net2 file cfg B :
  eval (load_config env) (initial file) = Ok cfg →
  eval load_known_listings (initial file) = Ok [] →
  eval (get_all_listings cfg net1) (initial file) = Ok [] →
  eval (get_all_listings cfg net2) (initial file) = Ok B →
  let first := run env net1 file in
  let second := run env net2 (st_file first.2) in
  first.1 = Ok tt
  ∧ st_file first.2 = Some (Json (JObj []))
  ∧ second.1 = Ok tt
  ∧ st_posts second.2 = 0%nat
  ∧ reported_ids (st_trace second.2) = []
  ∧ st_file second.2 = Some (Json (JObj (save_data (as_tuples B)))).
Proof.
  intros Hcfg HA HB1 HB2 first second. subst first second.
  destruct (load_empty _ HA) as (evs & Hload & Hevs).
  assert (run env net1 file
          = (Ok tt, State (Some (Json (JObj [])))
                      (evs ++ [Print FirstRun; fetch_event cfg; FileTruncate;
                               FileDump (JObj []); Print (SavedBaseline 0)]) 0)) as ->.
  { destruct (run_main env net1 file cfg Hcfg) as [-> _].
    by rewrite (main_baseline cfg net1 file [] evs Hload HB1). }
  cbn [fst snd st_file]. split; [done|]. split; [done|].
  set (file1 := Some (Json (JObj []))).
  assert (eval (load_config env) (initial file1) = Ok cfg) as Hcfg2
    by (by rewrite (eval_state_independent_config env (initial file))).
  assert (eval (get_all_listings cfg net2) (initial file1) = Ok B) as HB2'
    by (by rewrite (eval_state_independent_fetch cfg net2 (initial file))).
  assert (load_known_listings (initial file1) = (Ok [], log (initial file1) [])) as Hload2
    by done.
  destruct (run_main env net2 file1 cfg Hcfg2) as [-> _].
  rewrite (main_baseline cfg net2 file1 B [] Hload2 HB2'). done.
Qed.

Lemma empty_baseline_repeats_witness :
  let first := run Scenario.env
                 (Network (fun _ => Response 200 (Soup [Anchor (Some "/about") "About"]))
                          (fun _ => Response 200 tt)) None in
  let second := run Scenario.env Scenario.net (st_file first.2) in
  first.1 = Ok tt
  ∧ st_file first.2 = Some (Json (JObj []))
  ∧ second.1 = Ok tt
  ∧ st_posts second.2 = 0%nat
  ∧ reported_ids (st_trace second.2) = []
  ∧ st_file second.2 = Some (Json (JObj (save_data (as_tuples Scenario.current)))).
Proof.
  apply (empty_baseline_repeats Scenario.env _ Scenario.net None Scenario.cfg
           Scenario.current).
  - vm_compute. reflexivity.
  - vm_compute. reflexivity.
  - vm_compute. reflexivity.
  - vm_compute. reflexivity.
Defined.

(** X15. What a comparison run leaves in the state file is the known set as
    it was loaded, entry for entry and in the same order (titles and URLs
    of known listings are not refreshed from the page), followed by the new
    listings in the order of the page, each with the title and URL that was
    fetched. *)
Theorem saved_set_is_known_then_new env net file cfg A B :
  eval (load_config env) (initial file) = Ok cfg →
  eval load_known_listings (initial file) = Ok A →
  A ≠ [] →
  eval (get_all_listings cfg net) (initial file) = Ok B →
  eval load_known_listings (initial (st_file (run env net file).2))
  = Ok (A ++ as_tuples (filter (fun kv => negb (dict_in kv.1 A)) B)).
Proof.
  intros Hcfg HA Hne HB.
  pose proof (get_all_listings_NoDup _ _ _ _ HB) as HndB.
  pose proof (load_known_listings_NoDup _ _ HA) as HndA.
  destruct (successful_run_saved env net file cfg A B Hcfg HA HB) as (_ & _ & _ & Hload).
  unfold eval. rewrite (Hload (initial _) eq_refl). cbn [fst].
  destruct A as [|a A']; [done|]. set (A := a :: A') in *.
  rewrite <- (find_new_listings_filter A B HndB). f_equal.
  unfold dict_update. apply foldl_set_fresh.
  rewrite dict_keys_as_tuples. apply NoDup_app. split_and!; [done| |by apply NoDup_new_keys].
  intros i Hi Hnew. by apply (elem_of_new_keys A B HndB) in Hnew as [_ ?].
Qed.

Lemma saved_set_is_known_then_new_witness :
  eval load_known_listings
    (initial (st_file (run Scenario.env Scenario.net Scenario.file).2))
  = Ok (Scenario.known
        ++ as_tuples (filter (fun kv => negb (dict_in kv.1 Scenario.known)) Scenario.current)).
Proof.
  apply (saved_set_is_known_then_new Scenario.env Scenario.net Scenario.file Scenario.cfg
           Scenario.known Scenario.current).
  - vm_compute. reflexivity.
  - vm_compute. reflexivity.
  - discriminate.
  - vm_compute. reflexivity.
Defined.

(** An exception that ends the process gives it the exit status 1. *)
Lemma run_raises_status env net file e :
  (run env net file).1 = Raise e → exit_status (run env net file).1 = 1.
Proof.
  intros Hrun. rewrite Hrun.
  destruct (load_config_run env) as [(cfg & Hcfg & Hconf & _)|[msg Hfail]].
  2:{ unfold run, program in Hrun. rewrite (bind_Raise _ _ _ _ _ (Hfail _)) in Hrun.
      by injection Hrun as <-. }
  assert (eval (load_config env) (initial file) = Ok cfg) as Hc
    by (unfold eval; by rewrite Hcfg).
  destruct (eval load_known_listings (initial file)) as [A|e'] eqn:HA.
  2:{ destruct (run_main env net file cfg Hc) as [Hmain _]. rewrite Hmain in Hrun.
      destruct (load_known_listings_run (initial file)) as (evs & Hl & _).
      rewrite HA in Hl. unfold main in Hrun.
      rewrite (bind_Raise _ _ _ _ _ Hl) in Hrun. injection Hrun as <-.
      by destruct (load_escapes _ _ HA) as [->|[->| ->]]. }
  destruct (eval (get_all_listings cfg net) (initial file)) as [B|e'] eqn:HB.
  - destruct (successful_run_saved env net file cfg A B Hc HA HB) as (Hok & _). congruence.
  - destruct (run_main env net file cfg Hc) as [Hmain _]. rewrite Hmain in Hrun.
    destruct (main_fetch_fails cfg net file A e' HA HB) as (tr & Hm & _).
    rewrite Hm in Hrun. injection Hrun as <-.
    pose proof (get_all_listings_Exception _ _ _ _ HB). by destruct e'.
Qed.

(** X16. The process exits with status 0 or 1. It is 0 exactly when the
    three settings are set, the known set loads and the page is fetched:
    what happens to the notifications does not change it. *)
Theorem exit_status_of_a_run env net file :
  (exit_status (run env net file).1 = 0 ∨ exit_status (run env net file).1 = 1)
  ∧ (exit_status (run env net file).1 = 0
     ↔ ∃ cfg A B,
         eval (load_config env) (initial file) = Ok cfg
         ∧ eval load_known_listings (initial file) = Ok A
         ∧ eval (get_all_listings cfg net) (initial file) = Ok B).
Proof.
  destruct (run env net file) as [[[]|e] final] eqn:Hrun.
  - split; [by left|]. split; [intros _|done].
    by apply (successful_run_inv env net file final).
  - pose proof (run_raises_status env net file e) as Hstatus.
    rewrite Hrun in Hstatus. specialize (Hstatus eq_refl). cbn [fst] in *.
    split; [by right|]. split; [intros H0; rewrite H0 in Hstatus; done|].
    intros (cfg & A & B & Hcfg & HA & HB).
    destruct (successful_run_saved env net file cfg A B Hcfg HA HB) as (Hok & _).
    rewrite Hrun in Hok. done.
Qed.

Lemma exit_status_of_a_run_witness :
  (exit_status (run Scenario.env Scenario.net Scenario.file).1 = 0
   ∨ exit_status (run Scenario.env Scenario.net Scenario.file).1 = 1)
  ∧ (exit_status (run Scenario.env Scenario.net Scenario.file).1 = 0
     ↔ ∃ cfg A B,
         eval (load_config Scenario.env) (initial Scenario.file) = Ok cfg
         ∧ eval load_known_listings (initial Scenario.file) = Ok A
         ∧ eval (get_all_listings cfg Scenario.net) (initial Scenario.file) = Ok B).
Proof. apply (exit_status_of_a_run Scenario.env Scenario.net Scenario.file). Defined.
